(** * Campus event management backend: workflow and reporting endpoints

    A shallow embedding of [Backend/app/models.py], [Backend/app/api/events.py],
    [Backend/app/api/students.py], [Backend/app/api/colleges.py] and
    [Backend/app/api/reports.py], followed by the properties of the
    registration / attendance / feedback workflow and of the reports.

    Modelling conventions.
    - The database is a record of tables; a table is the list of its rows in
      insertion order.  [db.session.add] followed by [db.session.commit]
      appends a row, unless the primary key or a [UniqueConstraint] /
      [unique=True] column of [models.py] is violated, in which case the
      handler's [except Exception] branch rolls back and answers 500.
      Foreign keys are not checked by the store (the SQLite default).
    - [uuid.uuid4()] and [datetime.utcnow()] are inputs of a handler, gathered
      in [Env].
    - Identifiers are strings.  A JSON field read with [data.get(key)] is an
      [option]: [None] is a missing key or a null, which [data.get] does not
      tell apart.  A field tested with [key in data] is a [field], which
      does tell them apart.  Python truthiness ([if not x]) is written out.
    - The request body is a JSON object and numbers in it are integers; an
      INTEGER column holds a 64-bit signed integer.
    - A Python float, and a REAL of SQLite, is the rational number it
      denotes; every operation rounds its exact result to the nearest
      binary64 number, ties to even ([double]), with gradual underflow.
      Overflow is left out: the numbers computed here are quotients and
      products of row counts and ratings, far below 2^1024.
    - A query that SQLite answers through the index of a unique constraint
      or of a primary key returns its rows in the order of that index. *)

From Stdlib Require Import List String ZArith QArith Qround Qabs Qpower.
From Stdlib Require Import Lia Bool.
From Stdlib Require Import Sorting.Sorted Sorting.Permutation.
Import ListNotations.

Local Open Scope string_scope.
Local Open Scope Z_scope.

(** ** models.py *)

Definition datetime := Z.

Module College.
Record t := mk { id : string; name : string; created_at : datetime }.
End College.

Module Student.
Record t := mk {
  id : string; college_id : string; name : string; email : string;
  created_at : datetime }.
End Student.

Module Event.
Record t := mk {
  id : string; college_id : string; title : string;
  description : option string;
  event_type : string; start_time : datetime; end_time : datetime;
  capacity : Z; status : string; created_at : datetime }.
End Event.

Module Registration.
Record t := mk {
  id : string; student_id : string; event_id : string;
  registered_at : datetime }.
End Registration.

Module Attendance.
Record t := mk {
  id : string; student_id : string; event_id : string;
  checked_in_at : datetime; method : string }.
End Attendance.

Module Feedback.
Record t := mk {
  id : string; student_id : string; event_id : string; rating : Z;
  comment : string; submitted_at : datetime }.
End Feedback.

(** The six tables. *)
Record Store := mkStore {
  colleges : list College.t;
  students : list Student.t;
  events : list Event.t;
  registrations : list Registration.t;
  attendances : list Attendance.t;
  feedbacks : list Feedback.t }.

Definition empty_store : Store := mkStore [] [] [] [] [] [].

(** What a handler draws from its environment when it builds a row. *)
Record Env := mkEnv { uuid4 : string; utcnow : datetime }.

(** ** Responses *)

(** The error taxonomy; [status_code] is the HTTP status the handler sends. *)
Inductive error :=
| ValidationError | NotFoundError | ConflictError | ForbiddenError
| CapacityError | InternalError.

Definition status_code (e : error) : Z :=
  match e with
  | ValidationError => 400
  | CapacityError => 400
  | ForbiddenError => 403
  | NotFoundError => 404
  | ConflictError => 409
  | InternalError => 500
  end.

Inductive response (A : Type) :=
| OK (body : A)         (* 200 *)
| Created (body : A)    (* 201 *)
| Fail (e : error).
Arguments OK {A} body.
Arguments Created {A} body.
Arguments Fail {A} e.

(** ** Python truthiness *)

(** [bool(x)] for a JSON string field that may be missing. *)
Definition truthy_str (x : option string) : bool :=
  match x with
  | Some s => negb (s =? "")%string
  | None => false
  end.

(** [bool(x)] for a JSON integer field that may be missing. *)
Definition truthy_int (x : option Z) : bool :=
  match x with
  | Some n => negb (n =? 0)
  | None => false
  end.

(** A JSON field of a body tested with [key in data]: the key is missing,
    or it is there with a null, or with a value. *)
Inductive field (A : Type) :=
| Missing
| Null
| Given (a : A).
Arguments Missing {A}.
Arguments Null {A}.
Arguments Given {A} a.

(** [key in data] *)
Definition provided {A} (f : field A) : bool :=
  match f with
  | Missing => false
  | _ => true
  end.

(** What an INTEGER column can hold. *)
Definition int64 (n : Z) : bool := (- 2 ^ 63 <=? n) && (n <? 2 ^ 63).

(** ** Queries *)

Module Query.

(** [Model.query.get(pk)] *)
Definition get_college (s : Store) (pk : string) : option College.t :=
  find (fun c => (College.id c =? pk)%string) (colleges s).
Definition get_student (s : Store) (pk : string) : option Student.t :=
  find (fun x => (Student.id x =? pk)%string) (students s).
Definition get_event (s : Store) (pk : string) : option Event.t :=
  find (fun e => (Event.id e =? pk)%string) (events s).

(** The predicates of [filter_by(student_id=..., event_id=...)]. *)
Definition reg_pair (sid eid : string) (r : Registration.t) : bool :=
  (Registration.student_id r =? sid)%string
  && (Registration.event_id r =? eid)%string.
Definition att_pair (sid eid : string) (a : Attendance.t) : bool :=
  (Attendance.student_id a =? sid)%string
  && (Attendance.event_id a =? eid)%string.
Definition fb_pair (sid eid : string) (f : Feedback.t) : bool :=
  (Feedback.student_id f =? sid)%string
  && (Feedback.event_id f =? eid)%string.

(** [query.filter_by(...).first()] *)
Definition first {A} (p : A -> bool) (table : list A) : option A :=
  find p table.

(** [query.filter_by(...).count()] *)
Definition count {A} (p : A -> bool) (table : list A) : Z :=
  Z.of_nat (List.length (filter p table)).

Definition reg_of_event (eid : string) (r : Registration.t) : bool :=
  (Registration.event_id r =? eid)%string.
Definition att_of_event (eid : string) (a : Attendance.t) : bool :=
  (Attendance.event_id a =? eid)%string.
Definition fb_of_event (eid : string) (f : Feedback.t) : bool :=
  (Feedback.event_id f =? eid)%string.
Definition reg_of_student (sid : string) (r : Registration.t) : bool :=
  (Registration.student_id r =? sid)%string.
Definition att_of_student (sid : string) (a : Attendance.t) : bool :=
  (Attendance.student_id a =? sid)%string.
Definition fb_of_student (sid : string) (f : Feedback.t) : bool :=
  (Feedback.student_id f =? sid)%string.

End Query.

(** ** Commit: primary keys and unique constraints *)

Module Session.

Definition add_college (s : Store) (c : College.t) : option Store :=
  if existsb (fun x => (College.id x =? College.id c)%string) (colleges s)
  then None
  else Some (mkStore (colleges s ++ [c]) (students s) (events s)
               (registrations s) (attendances s) (feedbacks s)).

Definition add_student (s : Store) (x : Student.t) : option Store :=
  if existsb (fun y => (Student.id y =? Student.id x)%string
                       || (Student.email y =? Student.email x)%string)
       (students s)
  then None
  else Some (mkStore (colleges s) (students s ++ [x]) (events s)
               (registrations s) (attendances s) (feedbacks s)).

Definition add_event (s : Store) (e : Event.t) : option Store :=
  if existsb (fun x => (Event.id x =? Event.id e)%string) (events s)
     || negb (int64 (Event.capacity e))
  then None
  else Some (mkStore (colleges s) (students s) (events s ++ [e])
               (registrations s) (attendances s) (feedbacks s)).

Definition add_registration (s : Store) (r : Registration.t)
  : option Store :=
  if existsb (fun x => (Registration.id x =? Registration.id r)%string
                       || Query.reg_pair (Registration.student_id r)
                            (Registration.event_id r) x)
       (registrations s)
  then None
  else Some (mkStore (colleges s) (students s) (events s)
               (registrations s ++ [r]) (attendances s) (feedbacks s)).

Definition add_attendance (s : Store) (a : Attendance.t) : option Store :=
  if existsb (fun x => (Attendance.id x =? Attendance.id a)%string
                       || Query.att_pair (Attendance.student_id a)
                            (Attendance.event_id a) x)
       (attendances s)
  then None
  else Some (mkStore (colleges s) (students s) (events s)
               (registrations s) (attendances s ++ [a]) (feedbacks s)).

Definition add_feedback (s : Store) (f : Feedback.t) : option Store :=
  if existsb (fun x => (Feedback.id x =? Feedback.id f)%string
                       || Query.fb_pair (Feedback.student_id f)
                            (Feedback.event_id f) x)
       (feedbacks s)
  then None
  else Some (mkStore (colleges s) (students s) (events s)
               (registrations s) (attendances s) (feedbacks s ++ [f])).

(** [db.session.add(row); db.session.commit(); return ..., 201], with the
    rollback and the 500 of the [except] branch. *)
Definition commit {A} (s : Store) (row : A) (r : option Store)
  : response A * Store :=
  match r with
  | Some s' => (Created row, s')
  | None => (Fail InternalError, s)
  end.

End Session.

(** ** api/colleges.py *)

Definition create_college (s : Store) (env : Env) (name : option string)
  : response College.t * Store :=
  if negb (truthy_str name) then (Fail ValidationError, s)
  else
    let college :=
      College.mk (uuid4 env) (match name with Some n => n | None => "" end)
        (utcnow env) in
    Session.commit s college (Session.add_college s college).

(** ** api/students.py *)

Definition create_student (s : Store) (env : Env)
    (college_id name email : field string)
  : response Student.t * Store :=
  if negb (provided college_id && provided name && provided email)
  then (Fail ValidationError, s)
  else
    (* [College.query.get(None)] is [None] *)
    match
      match college_id with
      | Given c => Query.get_college s c
      | _ => None
      end
    with
    | None => (Fail NotFoundError, s)
    | Some _ =>
        (* [filter_by(email=None)] matches no row: the column is NOT NULL *)
        match
          match email with
          | Given e =>
              Query.first (fun x => (Student.email x =? e)%string)
                (students s)
          | _ => None
          end
        with
        | Some _ => (Fail ConflictError, s)
        | None =>
            match college_id, name, email with
            | Given college_id, Given name, Given email =>
                let student :=
                  Student.mk (uuid4 env) college_id name email
                    (utcnow env) in
                Session.commit s student (Session.add_student s student)
            | _, _, _ =>
                (* a null in a NOT NULL column: the commit fails *)
                (Fail InternalError, s)
            end
        end
    end.

(** ** api/events.py *)

(** A time of the request, as [data['start_time'].replace('Z', '+00:00')]
    and [datetime.fromisoformat] see it: a string that parses to a datetime,
    a string that raises [ValueError], or a value that is no string and
    raises [AttributeError] at [.replace]. *)
Inductive iso_string :=
| IsoDatetime (t : datetime)
| IsoInvalid
| NotAString.

Record EventData := mkEventData {
  ed_college_id : field string;
  ed_title : field string;
  ed_description : field string;
  ed_event_type : field string;
  ed_start_time : field iso_string;
  ed_end_time : field iso_string;
  ed_capacity : field Z }.

(** [datetime.fromisoformat(data[key].replace('Z', '+00:00'))]: a datetime,
    [ValueError] (caught, 400) or [AttributeError] (not caught there, 500). *)
Definition parse_time (f : field iso_string) : datetime + error :=
  match f with
  | Given (IsoDatetime t) => inl t
  | Given IsoInvalid => inr ValidationError
  | _ => inr InternalError
  end.

Definition create_event (s : Store) (env : Env) (data : EventData)
  : response Event.t * Store :=
  if negb (provided (ed_college_id data) && provided (ed_title data)
           && provided (ed_event_type data) && provided (ed_start_time data)
           && provided (ed_end_time data) && provided (ed_capacity data))
  then (Fail ValidationError, s)
  else
    match parse_time (ed_start_time data) with
    | inr e => (Fail e, s)
    | inl start_time =>
        match parse_time (ed_end_time data) with
        | inr e => (Fail e, s)
        | inl end_time =>
            match ed_college_id data, ed_title data, ed_event_type data,
                  ed_capacity data with
            | Given college_id, Given title, Given event_type,
              Given capacity =>
                let event :=
                  Event.mk (uuid4 env) college_id title
                    (match ed_description data with
                     | Missing => Some ""
                     | Null => None
                     | Given d => Some d
                     end)
                    event_type start_time end_time capacity "active"
                    (utcnow env) in
                Session.commit s event (Session.add_event s event)
            | _, _, _, _ =>
                (* a null in a NOT NULL column: the commit fails *)
                (Fail InternalError, s)
            end
        end
    end.

Definition register_for_event (s : Store) (env : Env) (event_id : string)
    (student_id : option string)
  : response Registration.t * Store :=
  match student_id with
  | None => (Fail ValidationError, s)
  | Some sid =>
      if negb (truthy_str student_id) then (Fail ValidationError, s)
      else
        match Query.get_event s event_id with
        | None => (Fail NotFoundError, s)
        | Some event =>
            match Query.get_student s sid with
            | None => (Fail NotFoundError, s)
            | Some _ =>
                match Query.first (Query.reg_pair sid event_id)
                        (registrations s) with
                | Some _ => (Fail ConflictError, s)
                | None =>
                    let current_registrations :=
                      Query.count (Query.reg_of_event event_id)
                        (registrations s) in
                    if current_registrations >=? Event.capacity event
                    then (Fail CapacityError, s)
                    else
                      let registration :=
                        Registration.mk (uuid4 env) sid event_id
                          (utcnow env) in
                      Session.commit s registration
                        (Session.add_registration s registration)
                end
            end
        end
  end.

(** [register_for_event] when another request commits in between: the
    handler takes no lock, so its checks (lines 69 to 90) read the store
    [seen] as it was when they ran, while its insert (lines 92 to 94)
    goes to the store [now], after the commits of the requests that
    overtook it.  The insert is still checked against the primary key and
    the unique constraint, the final arbiters. *)
Definition register_interleaved (seen now : Store) (env : Env)
    (event_id : string) (student_id : option string)
  : response Registration.t * Store :=
  match fst (register_for_event seen env event_id student_id) with
  | Created registration =>
      Session.commit now registration
        (Session.add_registration now registration)
  | r => (r, now)
  end.

Definition mark_attendance (s : Store) (env : Env) (event_id : string)
    (student_id : option string) (method : option string)
  : response Attendance.t * Store :=
  match student_id with
  | None => (Fail ValidationError, s)
  | Some sid =>
      if negb (truthy_str student_id) then (Fail ValidationError, s)
      else
        match Query.first (Query.reg_pair sid event_id)
                (registrations s) with
        | None => (Fail ForbiddenError, s)
        | Some _ =>
            match Query.first (Query.att_pair sid event_id)
                    (attendances s) with
            | Some _ => (Fail ConflictError, s)
            | None =>
                let attendance :=
                  Attendance.mk (uuid4 env) sid event_id (utcnow env)
                    (match method with Some m => m | None => "manual" end) in
                Session.commit s attendance
                  (Session.add_attendance s attendance)
            end
        end
  end.

Definition submit_feedback (s : Store) (env : Env) (event_id : string)
    (student_id : option string) (rating : option Z)
    (comment : option string)
  : response Feedback.t * Store :=
  match student_id, rating with
  | Some sid, Some r =>
      if negb (truthy_str student_id) || negb (truthy_int rating)
      then (Fail ValidationError, s)
      else if negb ((1 <=? r) && (r <=? 5))
      then (Fail ValidationError, s)
      else
        match Query.first (Query.att_pair sid event_id)
                (attendances s) with
        | None => (Fail ForbiddenError, s)
        | Some _ =>
            match Query.first (Query.fb_pair sid event_id)
                    (feedbacks s) with
            | Some _ => (Fail ConflictError, s)
            | None =>
                let feedback :=
                  Feedback.mk (uuid4 env) sid event_id r
                    (match comment with Some c => c | None => "" end)
                    (utcnow env) in
                Session.commit s feedback
                  (Session.add_feedback s feedback)
            end
        end
  | _, _ => (Fail ValidationError, s)
  end.

(** ** Floating point: binary64 on exact rationals *)

(** The integer nearest to [x], ties to the even one. *)
Definition round_half_even (x : Q) : Z :=
  let f := Qfloor x in
  match (x - inject_Z f ?= 1 # 2)%Q with
  | Lt => f
  | Gt => f + 1
  | Eq => if Z.even f then f else f + 1
  end.

(** [floor (log2 x)], for [0 < x]. *)
Definition ilog2 (x : Q) : Z :=
  if Qle_bool 1 x then Z.log2 (Qfloor x) else - Z.log2_up (Qceiling (/ x)).

(** The multiple of [2^e] nearest to [x], ties to the even multiple. *)
Definition round_at (e : Z) (x : Q) : Q :=
  Qred (inject_Z (round_half_even (x / 2 ^ e)) * 2 ^ e)%Q.

(** The binary64 number nearest to [x]: 53 significant bits, and no
    exponent below -1074. *)
Definition double (x : Q) : Q :=
  if Qeq_bool x 0 then 0%Q
  else round_at (Z.max (ilog2 (Qabs x) - 52) (- 1074)) x.

(** Python [round(x, 2)] of a float [x]: the exact value of [x] is rounded
    to 2 decimals, ties to even, and the decimal is read back as a
    float. *)
Definition round2 (x : Q) : Q :=
  double (inject_Z (round_half_even (x * 100)) / 100)%Q.

(** ** SQL building blocks used by api/reports.py *)

Module Sql.

(** [query(A, ...).join(B, on)]: the inner join, in table order. *)
Definition join {A B} (on : A -> B -> bool) (l : list A) (r : list B)
  : list (A * B) :=
  flat_map (fun a => map (pair a) (filter (on a) r)) l.

Section GroupBy.
Context {K : Type} (eqb : K -> K -> bool).

Fixpoint bump (k : K) (acc : list (K * Z)) : list (K * Z) :=
  match acc with
  | [] => [(k, 1)]
  | (k', n) :: rest =>
      if eqb k k' then (k', n + 1) :: rest else (k', n) :: bump k rest
  end.

(** [group_by(key)] with [func.count(pk)]: one pair per distinct key,
    carrying the number of joined rows with that key. *)
Definition group_count (keys : list K) : list (K * Z) :=
  fold_left (fun acc k => bump k acc) keys [].
End GroupBy.

Section IndexOrder.
Context {A : Type} (key : A -> string).

Fixpoint insert_asc (x : A) (l : list A) : list A :=
  match l with
  | [] => [x]
  | y :: rest =>
      if (key x <=? key y)%string then x :: y :: rest
      else y :: insert_asc x rest
  end.

(** Rows read through an index on [key]: in ascending order of the key
    (strings compare byte by byte, the BINARY collation), rows of equal
    key in table order. *)
Definition index_order (l : list A) : list A :=
  fold_right insert_asc [] l.
End IndexOrder.

Section OrderBy.
Context {A : Type} (f : A -> Z).

Fixpoint insert_desc (x : A) (l : list A) : list A :=
  match l with
  | [] => [x]
  | y :: rest =>
      if f x >=? f y then x :: y :: rest else y :: insert_desc x rest
  end.

(** [order_by(desc(f))]: the sorter keeps rows of equal [f] in the order
    they come in. *)
Definition order_by_desc (l : list A) : list A :=
  fold_right insert_desc [] l.
End OrderBy.

(** [limit(n)]; a negative limit means no limit (SQLite). *)
Definition limit {A} (n : Z) (l : list A) : list A :=
  if n <? 0 then l else firstn (Z.to_nat n) l.

(** [func.avg(column)] of an INTEGER column: NULL on no rows, else the
    sum divided by the number of rows, both as floats.  (A sum below 2^53
    is exact, however the SQLite at hand adds it up.) *)
Definition avg (column : list Z) : option Q :=
  match column with
  | [] => None
  | _ => Some (double (double (inject_Z (fold_right Z.add 0%Z column))
                       / double (inject_Z (Z.of_nat (List.length column)))))%Q
  end.

End Sql.

(** ** api/reports.py *)

Record PopularityRow := mkPopularityRow {
  pr_event_id : string;
  pr_title : string;
  pr_event_type : string;
  pr_capacity : Z;
  pr_registration_count : Z }.

Definition popularity_key : Type := string * string * string * Z.

Definition popularity_key_eqb (a b : popularity_key) : bool :=
  let '(i, t, ty, c) := a in
  let '(i', t', ty', c') := b in
  (i =? i')%string && (t =? t')%string && (ty =? ty')%string && (c =? c').

Definition event_key (e : Event.t) : popularity_key :=
  (Event.id e, Event.title e, Event.event_type e, Event.capacity e).

(** The groups of a [group_by] come out in the order of the grouping
    columns; the first of them is the primary key of the grouped table. *)
Definition popularity_group_id (g : popularity_key * Z) : string :=
  let '((i, _, _, _), _) := g in i.

Definition event_popularity (s : Store) (college_id : option string)
  : response (list PopularityRow) :=
  let query :=
    Sql.join (fun e r => (Event.id e =? Registration.event_id r)%string)
      (events s) (registrations s) in
  let query :=
    match college_id with
    | Some c =>
        if truthy_str college_id
        then filter (fun er => (Event.college_id (fst er) =? c)%string) query
        else query
    | None => query
    end in
  let results :=
    Sql.order_by_desc snd
      (Sql.index_order popularity_group_id
         (Sql.group_count popularity_key_eqb
            (map (fun er => event_key (fst er)) query))) in
  OK (map (fun result =>
             let '((i, t, ty, c), n) := result in
             mkPopularityRow i t ty c n) results).

Record AttendanceReport := mkAttendanceReport {
  ar_event : Event.t;
  ar_registration_count : Z;
  ar_attendance_count : Z;
  ar_attendance_percentage : Q;
  ar_average_rating : option Q;
  ar_feedback_count : Z }.

Definition event_attendance (s : Store) (event_id : string)
  : response AttendanceReport :=
  match Query.get_event s event_id with
  | None => Fail NotFoundError
  | Some event =>
      let registration_count :=
        Query.count (Query.reg_of_event event_id) (registrations s) in
      let attendance_count :=
        Query.count (Query.att_of_event event_id) (attendances s) in
      let attendance_percentage :=
        if registration_count >? 0
        then double (double (inject_Z attendance_count
                             / inject_Z registration_count) * 100)%Q
        else 0%Q in
      let avg_rating_result :=
        Sql.avg (map Feedback.rating
                   (filter (Query.fb_of_event event_id) (feedbacks s))) in
      let avg_rating :=
        match avg_rating_result with
        | Some a => if Qeq_bool a 0 then None else Some (round2 a)
        | None => None
        end in
      let feedback_count :=
        Query.count (Query.fb_of_event event_id) (feedbacks s) in
      OK (mkAttendanceReport event registration_count attendance_count
            (round2 attendance_percentage) avg_rating feedback_count)
  end.

Record FeedbackEntry := mkFeedbackEntry {
  fe_event_title : string;
  fe_rating : Z;
  fe_comment : string;
  fe_submitted_at : datetime }.

Record ParticipationReport := mkParticipationReport {
  sp_student : Student.t;
  sp_events_registered : Z;
  sp_events_attended : Z;
  sp_attendance_rate : Q;
  sp_feedbacks_given : Z;
  sp_registered_events : list Event.t;
  sp_attended_events : list Event.t;
  sp_feedbacks : list FeedbackEntry }.

(** A list comprehension over a relationship ([reg.event], [att.event],
    [feedback.event]): the related event is loaded by its key, and using a
    missing one raises [AttributeError]. *)
Fixpoint load_all {A B} (f : A -> option B) (l : list A) : option (list B) :=
  match l with
  | [] => Some []
  | x :: rest =>
      match f x, load_all f rest with
      | Some y, Some ys => Some (y :: ys)
      | _, _ => None
      end
  end.

Definition len {A} (l : list A) : Z := Z.of_nat (List.length l).

(** [filter_by(student_id=...)] is answered through the index of the
    unique constraint on (student_id, event_id): the rows of a student come
    in the order of their event ids. *)
Definition student_participation (s : Store) (student_id : string)
  : response ParticipationReport :=
  match Query.get_student s student_id with
  | None => Fail NotFoundError
  | Some student =>
      let registrations :=
        Sql.index_order Registration.event_id
          (filter (Query.reg_of_student student_id) (registrations s)) in
      let attendances :=
        Sql.index_order Attendance.event_id
          (filter (Query.att_of_student student_id) (attendances s)) in
      let feedbacks :=
        Sql.index_order Feedback.event_id
          (filter (Query.fb_of_student student_id) (feedbacks s)) in
      match
        load_all (fun reg => Query.get_event s (Registration.event_id reg))
          registrations,
        load_all (fun att => Query.get_event s (Attendance.event_id att))
          attendances,
        load_all
          (fun feedback =>
             match Query.get_event s (Feedback.event_id feedback) with
             | Some event =>
                 Some (mkFeedbackEntry (Event.title event)
                         (Feedback.rating feedback)
                         (Feedback.comment feedback)
                         (Feedback.submitted_at feedback))
             | None => None
             end)
          feedbacks
      with
      | Some registered_events, Some attended_events, Some feedback_data =>
          OK (mkParticipationReport student
                (len registered_events)
                (len attended_events)
                (match registered_events with
                 | [] => 0%Q
                 | _ => round2
                          (double (double (inject_Z (len attended_events)
                                           / inject_Z (len registered_events))
                                   * 100))%Q
                 end)
                (len feedback_data)
                registered_events attended_events feedback_data)
      | _, _, _ => Fail InternalError
      end
  end.

Record ActiveStudentRow := mkActiveStudentRow {
  as_student_id : string;
  as_name : string;
  as_email : string;
  as_attendance_count : Z }.

Definition student_key : Type := string * string * string.

Definition student_key_eqb (a b : student_key) : bool :=
  let '(i, n, e) := a in
  let '(i', n', e') := b in
  (i =? i')%string && (n =? n')%string && (e =? e')%string.

Definition student_key_of (x : Student.t) : student_key :=
  (Student.id x, Student.name x, Student.email x).

Definition student_group_id (g : student_key * Z) : string :=
  let '((i, _, _), _) := g in i.

(** [limit] is the query argument already read by
    [int(request.args.get('limit', 3))]. *)
Definition top_active_students (s : Store) (college_id : option string)
    (limit : option Z)
  : response (list ActiveStudentRow) :=
  let limit := match limit with Some n => n | None => 3 end in
  let query :=
    Sql.join (fun x a => (Student.id x =? Attendance.student_id a)%string)
      (students s) (attendances s) in
  let query :=
    match college_id with
    | Some c =>
        if truthy_str college_id
        then filter (fun xa => (Student.college_id (fst xa) =? c)%string)
               query
        else query
    | None => query
    end in
  let results :=
    Sql.limit limit
      (Sql.order_by_desc snd
         (Sql.index_order student_group_id
            (Sql.group_count student_key_eqb
               (map (fun xa => student_key_of (fst xa)) query)))) in
  OK (map (fun result =>
             let '((i, n, e), c) := result in
             mkActiveStudentRow i n e c) results).

(** ** The service as a transition system *)

Inductive Request :=
| PostCollege (name : option string)
| PostStudent (college_id name email : field string)
| PostEvent (data : EventData)
| PostRegister (event_id : string) (student_id : option string)
| PostAttendance (event_id : string) (student_id method : option string)
| PostFeedback (event_id : string) (student_id : option string)
    (rating : option Z) (comment : option string).

(** The store after a request; the report endpoints only read. *)
Definition handle (s : Store) (env : Env) (req : Request) : Store :=
  match req with
  | PostCollege name => snd (create_college s env name)
  | PostStudent c n e => snd (create_student s env c n e)
  | PostEvent data => snd (create_event s env data)
  | PostRegister eid sid => snd (register_for_event s env eid sid)
  | PostAttendance eid sid m => snd (mark_attendance s env eid sid m)
  | PostFeedback eid sid r c => snd (submit_feedback s env eid sid r c)
  end.

(** Stores reachable from the empty database by requests served one after
    the other. *)
Inductive reachable : Store -> Prop :=
| reachable_empty : reachable empty_store
| reachable_step s env req :
    reachable s -> reachable (handle s env req).

(** Running a script of requests. *)
Fixpoint run (s : Store) (script : list (Env * Request)) : Store :=
  match script with
  | [] => s
  | (env, req) :: rest => run (handle s env req) rest
  end.

(** ** Vocabulary of the properties *)

(** A Registration exists for the (student, event) pair. *)
Definition registered (s : Store) (sid eid : string) : Prop :=
  exists r, In r (registrations s)
            /\ Registration.student_id r = sid
            /\ Registration.event_id r = eid.

(** An Attendance exists for the pair. *)
Definition attended (s : Store) (sid eid : string) : Prop :=
  exists a, In a (attendances s)
            /\ Attendance.student_id a = sid
            /\ Attendance.event_id a = eid.

(** A Feedback exists for the pair. *)
Definition gave_feedback (s : Store) (sid eid : string) : Prop :=
  exists f, In f (feedbacks s)
            /\ Feedback.student_id f = sid
            /\ Feedback.event_id f = eid.

(** The Registration count of an event, as [register_for_event] and the
    reports compute it. *)
Definition registration_count (s : Store) (eid : string) : Z :=
  Query.count (Query.reg_of_event eid) (registrations s).

Definition attendance_count (s : Store) (eid : string) : Z :=
  Query.count (Query.att_of_event eid) (attendances s).

Definition feedback_count (s : Store) (eid : string) : Z :=
  Query.count (Query.fb_of_event eid) (feedbacks s).

(** [uuid4()] returned an identifier no row of the table carries yet. *)
Definition fresh_registration_id (s : Store) (env : Env) : Prop :=
  forall r, In r (registrations s) -> Registration.id r <> uuid4 env.

Definition fresh_attendance_id (s : Store) (env : Env) : Prop :=
  forall a, In a (attendances s) -> Attendance.id a <> uuid4 env.


Definition fresh_event_id (s : Store) (env : Env) : Prop :=
  forall e, In e (events s) -> Event.id e <> uuid4 env.

(** The stores with one more row. *)
Definition with_registration (s : Store) (r : Registration.t) : Store :=
  mkStore (colleges s) (students s) (events s)
    (registrations s ++ [r]) (attendances s) (feedbacks s).

Definition with_attendance (s : Store) (a : Attendance.t) : Store :=
  mkStore (colleges s) (students s) (events s)
    (registrations s) (attendances s ++ [a]) (feedbacks s).

Definition with_feedback (s : Store) (f : Feedback.t) : Store :=
  mkStore (colleges s) (students s) (events s)
    (registrations s) (attendances s) (feedbacks s ++ [f]).

Definition with_event (s : Store) (e : Event.t) : Store :=
  mkStore (colleges s) (students s) (events s ++ [e])
    (registrations s) (attendances s) (feedbacks s).

(** What every reachable store satisfies. *)
Record store_inv (s : Store) : Prop := mkInv {
  inv_event_ids : NoDup (map Event.id (events s));
  inv_reg_event :
    forall r, In r (registrations s) ->
              exists e, In e (events s)
                        /\ Event.id e = Registration.event_id r;
  inv_reg_student :
    forall r, In r (registrations s) ->
              exists x, In x (students s)
                        /\ Student.id x = Registration.student_id r;
  inv_att_reg :
    forall a, In a (attendances s) ->
              registered s (Attendance.student_id a) (Attendance.event_id a);
  inv_fb_att :
    forall f, In f (feedbacks s) ->
              attended s (Feedback.student_id f) (Feedback.event_id f);
  inv_reg_unique :
    forall sid eid,
      Query.count (Query.reg_pair sid eid) (registrations s) <= 1;
  inv_att_unique :
    forall sid eid,
      Query.count (Query.att_pair sid eid) (attendances s) <= 1;
  inv_fb_unique :
    forall sid eid,
      Query.count (Query.fb_pair sid eid) (feedbacks s) <= 1;
  inv_rating :
    forall f, In f (feedbacks s) -> 1 <= Feedback.rating f <= 5;
  inv_capacity :
    forall e, In e (events s) ->
              registration_count s (Event.id e)
              <= Z.max 0 (Event.capacity e) }.


(** The order of [order_by(desc(f))]. *)
Definition desc {A} (f : A -> Z) (x y : A) : Prop := f y <= f x.

(** The ratings given to an event, in table order, and their sum. *)
Definition ratings (s : Store) (eid : string) : list Z :=
  map Feedback.rating (filter (Query.fb_of_event eid) (feedbacks s)).

Definition rating_sum (s : Store) (eid : string) : Z :=
  fold_right Z.add 0 (ratings s eid).

(** [a / b * 100] in floats: the division rounds the exact quotient of the
    two integers, the product rounds again. *)
Definition percentage (a b : Z) : Q :=
  double (double (inject_Z a / inject_Z b) * 100)%Q.

(** [sum / n] in floats. *)
Definition mean (sum n : Z) : Q :=
  double (double (inject_Z sum) / double (inject_Z n))%Q.

(** The order of an index on [key], and the same without equal keys. *)
Definition asc {A} (key : A -> string) (x y : A) : Prop :=
  (key x <=? key y)%string = true.

Definition strictly_asc {A} (key : A -> string) (x y : A) : Prop :=
  (key x <=? key y)%string = true /\ key x <> key y.


(** The event passes the optional college filter of a report. *)
Definition in_college (college_id : option string) (e : Event.t) : Prop :=
  forall c, college_id = Some c -> c <> "" -> Event.college_id e = c.

(** The row of an event in the popularity report. *)
Definition popularity_row (s : Store) (e : Event.t) : PopularityRow :=
  mkPopularityRow (Event.id e) (Event.title e) (Event.event_type e)
    (Event.capacity e) (registration_count s (Event.id e)).

(** ** Scenarios

    Scripts of requests, run from the empty database. *)

Module Scenario.

Definition at_ (id : string) (t : datetime) : Env := mkEnv id t.

Definition event_data (capacity : Z) : EventData :=
  mkEventData (Given "college-1") (Given "Hackathon") Missing
    (Given "Workshop") (Given (IsoDatetime 100)) (Given (IsoDatetime 200))
    (Given capacity).

Definition student (name email : string) : Request :=
  PostStudent (Given "college-1") (Given name) (Given email).

(** One college, one event of capacity 2, three students. *)
Definition setup : list (Env * Request) :=
  [ (at_ "college-1" 1, PostCollege (Some "U1"));
    (at_ "event-1" 2, PostEvent (event_data 2));
    (at_ "student-A" 3, student "A" "a@u1.edu");
    (at_ "student-B" 4, student "B" "b@u1.edu");
    (at_ "student-C" 5, student "C" "c@u1.edu") ].

Definition prepared : Store := run empty_store setup.

(** A and B register, C is turned away, A attends and rates the event 5,
    twice. *)
Definition example : list (Env * Request) :=
  setup ++
  [ (at_ "reg-1" 6, PostRegister "event-1" (Some "student-A"));
    (at_ "reg-2" 7, PostRegister "event-1" (Some "student-B"));
    (at_ "reg-3" 8, PostRegister "event-1" (Some "student-C"));
    (at_ "att-1" 9, PostAttendance "event-1" (Some "student-A") None);
    (at_ "fb-1" 10,
      PostFeedback "event-1" (Some "student-A") (Some 5) None);
    (at_ "fb-2" 11,
      PostFeedback "event-1" (Some "student-A") (Some 5) None) ].

Definition after_example : Store := run empty_store example.

(** The event is full: A and B hold its two places. *)
Definition full : Store :=
  run prepared
    [ (at_ "reg-1" 6, PostRegister "event-1" (Some "student-A"));
      (at_ "reg-2" 7, PostRegister "event-1" (Some "student-B")) ].

(** A is registered: one place is left. *)
Definition one_registered : Store :=
  run prepared
    [ (at_ "reg-1" 6, PostRegister "event-1" (Some "student-A")) ].

(** A is registered and has attended, and has given no feedback yet. *)
Definition attended_once : Store :=
  run prepared
    [ (at_ "reg-1" 6, PostRegister "event-1" (Some "student-A"));
      (at_ "att-1" 9, PostAttendance "event-1" (Some "student-A") None) ].

(** An event created with capacity -1. *)
Definition negative_capacity : Store :=
  run empty_store
    [ (at_ "college-1" 1, PostCollege (Some "U1"));
      (at_ "event-1" 2, PostEvent (event_data (-1))) ].

(** An event created with capacity 0. *)
Definition zero_capacity : Store :=
  run empty_store
    [ (at_ "college-1" 1, PostCollege (Some "U1"));
      (at_ "event-1" 2, PostEvent (event_data 0)) ].

(** An event nobody has registered for. *)
Definition nobody_registered : Store :=
  run empty_store
    [ (at_ "college-1" 1, PostCollege (Some "U1"));
      (at_ "event-1" 2, PostEvent (event_data 30)) ].

(** Three students register for an event of capacity 3, one attends. *)
Definition one_of_three : Store :=
  run empty_store
    [ (at_ "college-1" 1, PostCollege (Some "U1"));
      (at_ "event-1" 2, PostEvent (event_data 3));
      (at_ "student-A" 3, student "A" "a@u1.edu");
      (at_ "student-B" 4, student "B" "b@u1.edu");
      (at_ "student-C" 5, student "C" "c@u1.edu");
      (at_ "reg-1" 6, PostRegister "event-1" (Some "student-A"));
      (at_ "reg-2" 7, PostRegister "event-1" (Some "student-B"));
      (at_ "reg-3" 8, PostRegister "event-1" (Some "student-C"));
      (at_ "att-1" 9, PostAttendance "event-1" (Some "student-A") None) ].

(** One student registers for three events and attends one. *)
Definition three_events : Store :=
  run empty_store
    [ (at_ "college-1" 1, PostCollege (Some "U1"));
      (at_ "event-1" 2, PostEvent (event_data 10));
      (at_ "event-2" 3, PostEvent (event_data 10));
      (at_ "event-3" 4, PostEvent (event_data 10));
      (at_ "student-A" 5, student "A" "a@u1.edu");
      (at_ "reg-1" 6, PostRegister "event-1" (Some "student-A"));
      (at_ "reg-2" 7, PostRegister "event-2" (Some "student-A"));
      (at_ "reg-3" 8, PostRegister "event-3" (Some "student-A"));
      (at_ "att-1" 9, PostAttendance "event-1" (Some "student-A") None) ].

(** Ties: student B and event-2 come first in their tables, and B attends
    event-2 before A attends event-1. *)
Definition tied : Store :=
  run empty_store
    [ (at_ "college-1" 1, PostCollege (Some "U1"));
      (at_ "event-2" 2, PostEvent (event_data 10));
      (at_ "event-1" 3, PostEvent (event_data 10));
      (at_ "student-B" 4, student "B" "b@u1.edu");
      (at_ "student-A" 5, student "A" "a@u1.edu");
      (at_ "reg-1" 6, PostRegister "event-2" (Some "student-B"));
      (at_ "reg-2" 7, PostRegister "event-1" (Some "student-A"));
      (at_ "att-1" 8, PostAttendance "event-2" (Some "student-B") None);
      (at_ "att-2" 9, PostAttendance "event-1" (Some "student-A") None) ].

(** Student A registers for event-2 first and for event-1 after it. *)
Definition second_event_first : Store :=
  run empty_store
    [ (at_ "college-1" 1, PostCollege (Some "U1"));
      (at_ "event-1" 2, PostEvent (event_data 10));
      (at_ "event-2" 3, PostEvent (event_data 10));
      (at_ "student-A" 4, student "A" "a@u1.edu");
      (at_ "reg-1" 5, PostRegister "event-2" (Some "student-A"));
      (at_ "reg-2" 6, PostRegister "event-1" (Some "student-A")) ].

End Scenario.

(** ** The list endpoints *)

(** api/colleges.py, [get_colleges]. *)
Definition get_colleges (s : Store) : response (list College.t) :=
  OK (colleges s).

(** The body of [GET /students]: one student when looked up by email, a
    list otherwise. *)
Inductive students_body :=
| OneStudent (student : Student.t)
| StudentList (students : list Student.t).

(** api/students.py, [get_students]. *)
Definition get_students (s : Store) (college_id email : option string)
  : response students_body :=
  let by_college :=
    match college_id with
    | Some c =>
        if truthy_str college_id
        then filter (fun x => (Student.college_id x =? c)%string) (students s)
        else students s
    | None => students s
    end in
  match email with
  | Some e =>
      if truthy_str email
      then
        match Query.first (fun x => (Student.email x =? e)%string)
                (students s) with
        | Some student => OK (OneStudent student)
        | None => Fail NotFoundError
        end
      else OK (StudentList by_college)
  | None => OK (StudentList by_college)
  end.

(** api/events.py, [get_events]. *)
Definition get_events (s : Store) (college_id event_type : option string)
  : response (list Event.t) :=
  let query := events s in
  let query :=
    match college_id with
    | Some c =>
        if truthy_str college_id
        then filter (fun e => (Event.college_id e =? c)%string) query
        else query
    | None => query
    end in
  let query :=
    match event_type with
    | Some t =>
        if truthy_str event_type
        then filter (fun e => (Event.event_type e =? t)%string) query
        else query
    | None => query
    end in
  OK query.

(** ** More vocabulary *)

(** [l'] is [l] with rows appended. *)
Definition prefix {A} (l l' : list A) : Prop :=
  exists rows, l' = (l ++ rows)%list.

(** Every table of [s'] is the table of [s] with rows appended. *)
Definition grows (s s' : Store) : Prop :=
  prefix (colleges s) (colleges s')
  /\ prefix (students s) (students s')
  /\ prefix (events s) (events s')
  /\ prefix (registrations s) (registrations s')
  /\ prefix (attendances s) (attendances s')
  /\ prefix (feedbacks s) (feedbacks s').

(** The number of rows of the store. *)
Definition rows (s : Store) : Z :=
  len (colleges s) + len (students s) + len (events s)
  + len (registrations s) + len (attendances s) + len (feedbacks s).

(** A mutation either fails and leaves the store as it was, or answers 201
    and appends exactly one row. *)
Definition all_or_nothing {A} (s : Store) (r : response A * Store) : Prop :=
  match fst r with
  | Fail _ => snd r = s
  | Created _ => grows s (snd r) /\ rows (snd r) = rows s + 1
  | OK _ => False
  end.

Definition with_college (s : Store) (c : College.t) : Store :=
  mkStore (colleges s ++ [c]) (students s) (events s)
    (registrations s) (attendances s) (feedbacks s).

Definition with_student (s : Store) (x : Student.t) : Store :=
  mkStore (colleges s) (students s ++ [x]) (events s)
    (registrations s) (attendances s) (feedbacks s).

Definition fresh_college_id (s : Store) (env : Env) : Prop :=
  forall c, In c (colleges s) -> College.id c <> uuid4 env.

Definition fresh_student_id (s : Store) (env : Env) : Prop :=
  forall x, In x (students s) -> Student.id x <> uuid4 env.

(** Some student already uses the email. *)
Definition email_taken (s : Store) (email : string) : Prop :=
  exists x, In x (students s) /\ Student.email x = email.

(** The event passes the optional type filter of [get_events]. *)
Definition of_type (event_type : option string) (e : Event.t) : Prop :=
  forall t, event_type = Some t -> t <> "" -> Event.event_type e = t.

(** The six required keys of [create_event] are in the body. *)
Definition required_present (data : EventData) : bool :=
  provided (ed_college_id data) && provided (ed_title data)
  && provided (ed_event_type data) && provided (ed_start_time data)
  && provided (ed_end_time data) && provided (ed_capacity data).

(** The request is a workflow step of the pair (student, event). *)
Definition concerns (req : Request) (sid eid : string) : Prop :=
  match req with
  | PostRegister e (Some x) => x = sid /\ e = eid
  | PostAttendance e (Some x) _ => x = sid /\ e = eid
  | PostFeedback e (Some x) _ _ => x = sid /\ e = eid
  | _ => False
  end.

(** What every reachable store satisfies about colleges and students. *)
Record directory_inv (s : Store) : Prop := mkDirectoryInv {
  dir_college_ids : NoDup (map College.id (colleges s));
  dir_college_names : forall c, In c (colleges s) -> College.name c <> "";
  dir_student_ids : NoDup (map Student.id (students s));
  dir_student_emails : NoDup (map Student.email (students s));
  dir_student_college :
    forall x, In x (students s) ->
              exists c, In c (colleges s)
                        /\ College.id c = Student.college_id x }.

(** The student passes the optional college filter of a report. *)
Definition student_in_college (college_id : option string) (x : Student.t)
  : Prop :=
  forall c, college_id = Some c -> c <> "" -> Student.college_id x = c.


(** ** Lists and queries *)

Section ListFacts.
Context {A : Type} (p : A -> bool).

Lemma find_none_iff (l : list A) :
  find p l = None <-> forall x, In x l -> p x = false.
Proof.
  split.
  - intros H x Hx. exact (find_none p l H x Hx).
  - induction l as [|a l IH]; intros H; simpl; [reflexivity|].
    rewrite (H a (or_introl eq_refl)). apply IH.
    intros x Hx. apply H. now right.
Qed.

Lemma find_some_ex (l : list A) :
  (exists x, In x l /\ p x = true) -> exists y, find p l = Some y.
Proof.
  intros [x [Hx Hp]].
  destruct (find p l) as [y|] eqn:E; [now exists y|].
  rewrite (find_none p l E x Hx) in Hp. discriminate.
Qed.

Lemma count_app (l l' : list A) :
  Query.count p (l ++ l') = Query.count p l + Query.count p l'.
Proof.
  unfold Query.count. rewrite filter_app, length_app. lia.
Qed.

Lemma count_nonneg (l : list A) : 0 <= Query.count p l.
Proof. unfold Query.count. lia. Qed.

Lemma count_zero_iff (l : list A) :
  Query.count p l = 0 <-> forall x, In x l -> p x = false.
Proof.
  unfold Query.count. split.
  - intros H x Hx. destruct (p x) eqn:E; [|reflexivity].
    assert (Hin : In x (filter p l)) by (apply filter_In; now split).
    destruct (filter p l); [contradiction|simpl in H; lia].
  - intros H. induction l as [|a l IH]; simpl; [reflexivity|].
    rewrite (H a (or_introl eq_refl)). apply IH.
    intros x Hx. apply H. now right.
Qed.

Lemma count_single (x : A) :
  Query.count p [x] = if p x then 1 else 0.
Proof. unfold Query.count. simpl. now destruct (p x). Qed.
End ListFacts.

Lemma truthy_str_some (x : string) :
  x <> "" -> truthy_str (Some x) = true.
Proof.
  intros H. unfold truthy_str. apply String.eqb_neq in H. now rewrite H.
Qed.

Lemma reg_pair_true sid eid r :
  Query.reg_pair sid eid r = true
  <-> Registration.student_id r = sid /\ Registration.event_id r = eid.
Proof.
  unfold Query.reg_pair. rewrite andb_true_iff, !String.eqb_eq. tauto.
Qed.

Lemma att_pair_true sid eid a :
  Query.att_pair sid eid a = true
  <-> Attendance.student_id a = sid /\ Attendance.event_id a = eid.
Proof.
  unfold Query.att_pair. rewrite andb_true_iff, !String.eqb_eq. tauto.
Qed.

Lemma fb_pair_true sid eid f :
  Query.fb_pair sid eid f = true
  <-> Feedback.student_id f = sid /\ Feedback.event_id f = eid.
Proof.
  unfold Query.fb_pair. rewrite andb_true_iff, !String.eqb_eq. tauto.
Qed.

Lemma first_reg_none s sid eid :
  ~ registered s sid eid ->
  Query.first (Query.reg_pair sid eid) (registrations s) = None.
Proof.
  intros H. apply find_none_iff. intros r Hr.
  destruct (Query.reg_pair sid eid r) eqn:E; [|reflexivity].
  exfalso. apply H. exists r. apply reg_pair_true in E. tauto.
Qed.

Lemma first_reg_some s sid eid :
  registered s sid eid ->
  exists r, Query.first (Query.reg_pair sid eid) (registrations s) = Some r.
Proof.
  intros [r [Hr [H1 H2]]]. apply find_some_ex. exists r. split; [exact Hr|].
  apply reg_pair_true. now split.
Qed.

Lemma first_att_none s sid eid :
  ~ attended s sid eid ->
  Query.first (Query.att_pair sid eid) (attendances s) = None.
Proof.
  intros H. apply find_none_iff. intros a Ha.
  destruct (Query.att_pair sid eid a) eqn:E; [|reflexivity].
  exfalso. apply H. exists a. apply att_pair_true in E. tauto.
Qed.

Lemma first_att_some s sid eid :
  attended s sid eid ->
  exists a, Query.first (Query.att_pair sid eid) (attendances s) = Some a.
Proof.
  intros [a [Ha [H1 H2]]]. apply find_some_ex. exists a. split; [exact Ha|].
  apply att_pair_true. now split.
Qed.


Lemma first_fb_some s sid eid :
  gave_feedback s sid eid ->
  exists f, Query.first (Query.fb_pair sid eid) (feedbacks s) = Some f.
Proof.
  intros [f [Hf [H1 H2]]]. apply find_some_ex. exists f. split; [exact Hf|].
  apply fb_pair_true. now split.
Qed.

(** A commit succeeds when the identifier is fresh and the pair is new. *)
Lemma add_registration_fresh s env sid eid :
  fresh_registration_id s env -> ~ registered s sid eid ->
  Session.add_registration s
    (Registration.mk (uuid4 env) sid eid (utcnow env))
  = Some (with_registration s
            (Registration.mk (uuid4 env) sid eid (utcnow env))).
Proof.
  intros Hid Hnew. unfold Session.add_registration. simpl.
  replace (existsb _ (registrations s)) with false; [reflexivity|].
  symmetry. apply not_true_is_false. intros H.
  apply existsb_exists in H. destruct H as [x [Hx H]].
  apply orb_true_iff in H. destruct H as [H|H].
  - apply String.eqb_eq in H. exact (Hid x Hx H).
  - apply reg_pair_true in H. apply Hnew. now exists x.
Qed.

Lemma add_attendance_fresh s env sid eid m :
  fresh_attendance_id s env -> ~ attended s sid eid ->
  Session.add_attendance s
    (Attendance.mk (uuid4 env) sid eid (utcnow env) m)
  = Some (with_attendance s
            (Attendance.mk (uuid4 env) sid eid (utcnow env) m)).
Proof.
  intros Hid Hnew. unfold Session.add_attendance. simpl.
  replace (existsb _ (attendances s)) with false; [reflexivity|].
  symmetry. apply not_true_is_false. intros H.
  apply existsb_exists in H. destruct H as [x [Hx H]].
  apply orb_true_iff in H. destruct H as [H|H].
  - apply String.eqb_eq in H. exact (Hid x Hx H).
  - apply att_pair_true in H. apply Hnew. now exists x.
Qed.


Lemma add_event_fresh s e :
  (forall x, In x (events s) -> Event.id x <> Event.id e) ->
  int64 (Event.capacity e) = true ->
  Session.add_event s e = Some (with_event s e).
Proof.
  intros Hid Hcap. unfold Session.add_event. rewrite Hcap.
  replace (existsb _ (events s)) with false; [reflexivity|].
  symmetry. apply not_true_is_false. intros H.
  apply existsb_exists in H. destruct H as [x [Hx H]].
  apply String.eqb_eq in H. exact (Hid x Hx H).
Qed.

Lemma first_reg_none_inv s sid eid :
  Query.first (Query.reg_pair sid eid) (registrations s) = None ->
  ~ registered s sid eid.
Proof.
  intros H [r [Hr [H1 H2]]].
  pose proof (proj1 (find_none_iff _ _) H r Hr) as E.
  assert (Query.reg_pair sid eid r = true) by (apply reg_pair_true; tauto).
  congruence.
Qed.

Lemma first_att_none_inv s sid eid :
  Query.first (Query.att_pair sid eid) (attendances s) = None ->
  ~ attended s sid eid.
Proof.
  intros H [a [Ha [H1 H2]]].
  pose proof (proj1 (find_none_iff _ _) H a Ha) as E.
  assert (Query.att_pair sid eid a = true) by (apply att_pair_true; tauto).
  congruence.
Qed.

Lemma first_fb_none_inv s sid eid :
  Query.first (Query.fb_pair sid eid) (feedbacks s) = None ->
  ~ gave_feedback s sid eid.
Proof.
  intros H [f [Hf [H1 H2]]].
  pose proof (proj1 (find_none_iff _ _) H f Hf) as E.
  assert (Query.fb_pair sid eid f = true) by (apply fb_pair_true; tauto).
  congruence.
Qed.

Lemma first_reg_some_inv s sid eid r :
  Query.first (Query.reg_pair sid eid) (registrations s) = Some r ->
  registered s sid eid.
Proof.
  intros H. apply find_some in H. destruct H as [Hr H].
  apply reg_pair_true in H. now exists r.
Qed.

Lemma first_att_some_inv s sid eid a :
  Query.first (Query.att_pair sid eid) (attendances s) = Some a ->
  attended s sid eid.
Proof.
  intros H. apply find_some in H. destruct H as [Ha H].
  apply att_pair_true in H. now exists a.
Qed.

Lemma first_fb_some_inv s sid eid f :
  Query.first (Query.fb_pair sid eid) (feedbacks s) = Some f ->
  gave_feedback s sid eid.
Proof.
  intros H. apply find_some in H. destruct H as [Hf H].
  apply fb_pair_true in H. now exists f.
Qed.

Lemma get_event_some s eid e :
  Query.get_event s eid = Some e -> In e (events s) /\ Event.id e = eid.
Proof.
  intros H. apply find_some in H. now rewrite String.eqb_eq in H.
Qed.

Lemma get_student_some s sid x :
  Query.get_student s sid = Some x -> In x (students s) /\ Student.id x = sid.
Proof.
  intros H. apply find_some in H. now rewrite String.eqb_eq in H.
Qed.

Lemma get_event_none s eid :
  Query.get_event s eid = None <->
  forall e, In e (events s) -> Event.id e <> eid.
Proof.
  unfold Query.get_event. rewrite find_none_iff. split; intros H e He.
  - apply String.eqb_neq. now apply H.
  - apply String.eqb_neq. now apply H.
Qed.

Lemma get_student_none s sid :
  Query.get_student s sid = None <->
  forall x, In x (students s) -> Student.id x <> sid.
Proof.
  unfold Query.get_student. rewrite find_none_iff. split; intros H x Hx.
  - apply String.eqb_neq. now apply H.
  - apply String.eqb_neq. now apply H.
Qed.

Lemma NoDup_map_inj {A B} (f : A -> B) (l : list A) (a b : A) :
  NoDup (map f l) -> In a l -> In b l -> f a = f b -> a = b.
Proof.
  induction l as [|x l IH]; simpl; intros Hnd Ha Hb E; [contradiction|].
  inversion Hnd as [|? ? Hx Hl]; subst.
  destruct Ha as [<-|Ha], Hb as [<-|Hb]; auto.
  - exfalso. apply Hx. rewrite E. now apply in_map.
  - exfalso. apply Hx. rewrite <- E. now apply in_map.
Qed.

Lemma NoDup_snoc {A} (l : list A) (x : A) :
  NoDup l -> ~ In x l -> NoDup (l ++ [x]).
Proof.
  intros Hl Hx. apply (Permutation_NoDup (Permutation_cons_append l x)).
  now constructor.
Qed.

(** The event table is keyed: under the invariant, [get_event] returns the
    one event that carries the identifier. *)
Lemma get_event_in s e :
  NoDup (map Event.id (events s)) -> In e (events s) ->
  Query.get_event s (Event.id e) = Some e.
Proof.
  intros Hnd He.
  destruct (Query.get_event s (Event.id e)) as [e'|] eqn:E.
  - apply get_event_some in E. destruct E as [He' Hid].
    f_equal. exact (NoDup_map_inj Event.id _ _ _ Hnd He' He Hid).
  - exfalso. exact (proj1 (get_event_none _ _) E e He eq_refl).
Qed.

(** ** What a request does to the store *)

Lemma commit_snd {A} s (row : A) r s' :
  r = Some s' -> Session.commit s row r = (Created row, s').
Proof. intros ->. reflexivity. Qed.

Lemma register_for_event_cases s env eid sid :
  snd (register_for_event s env eid sid) = s
  \/ exists x event student,
       sid = Some x
       /\ Query.get_event s eid = Some event
       /\ Query.get_student s x = Some student
       /\ ~ registered s x eid
       /\ registration_count s eid < Event.capacity event
       /\ snd (register_for_event s env eid sid)
          = with_registration s
              (Registration.mk (uuid4 env) x eid (utcnow env)).
Proof.
  unfold register_for_event.
  destruct sid as [x|]; [|now left].
  destruct (negb (truthy_str (Some x))); [now left|].
  destruct (Query.get_event s eid) as [event|] eqn:Ee; [|now left].
  destruct (Query.get_student s x) as [student|] eqn:Es; [|now left].
  destruct (Query.first _ (registrations s)) eqn:Er; [now left|].
  destruct (_ >=? _) eqn:Ec; [now left|].
  unfold Session.add_registration.
  destruct (existsb _ (registrations s)); [now left|].
  right. exists x, event, student.
  repeat split; try reflexivity; try assumption.
  - now apply first_reg_none_inv.
  - unfold registration_count. lia.
Qed.

Lemma mark_attendance_cases s env eid sid m :
  snd (mark_attendance s env eid sid m) = s
  \/ exists x m',
       sid = Some x
       /\ registered s x eid
       /\ ~ attended s x eid
       /\ snd (mark_attendance s env eid sid m)
          = with_attendance s
              (Attendance.mk (uuid4 env) x eid (utcnow env) m').
Proof.
  unfold mark_attendance.
  destruct sid as [x|]; [|now left].
  destruct (negb (truthy_str (Some x))); [now left|].
  destruct (Query.first _ (registrations s)) eqn:Er; [|now left].
  destruct (Query.first _ (attendances s)) eqn:Ea; [now left|].
  unfold Session.add_attendance.
  destruct (existsb _ (attendances s)); [now left|].
  right. eexists x, _. repeat split; try reflexivity.
  - eapply first_reg_some_inv; eauto.
  - now apply first_att_none_inv.
Qed.

Lemma submit_feedback_cases s env eid sid rating c :
  snd (submit_feedback s env eid sid rating c) = s
  \/ exists x r c',
       sid = Some x
       /\ 1 <= r <= 5
       /\ attended s x eid
       /\ ~ gave_feedback s x eid
       /\ snd (submit_feedback s env eid sid rating c)
          = with_feedback s
              (Feedback.mk (uuid4 env) x eid r c' (utcnow env)).
Proof.
  unfold submit_feedback.
  destruct sid as [x|]; [|now left].
  destruct rating as [r|]; [|now left].
  destruct (_ || _); [now left|].
  destruct (negb _) eqn:Er; [now left|].
  destruct (Query.first _ (attendances s)) eqn:Ea; [|now left].
  destruct (Query.first _ (feedbacks s)) eqn:Ef; [now left|].
  unfold Session.add_feedback.
  destruct (existsb _ (feedbacks s)); [now left|].
  right. eexists x, r, _. repeat split; try reflexivity.
  - apply negb_false_iff, andb_true_iff in Er. lia.
  - apply negb_false_iff, andb_true_iff in Er. lia.
  - eapply first_att_some_inv; eauto.
  - now apply first_fb_none_inv.
Qed.

Lemma create_event_cases s env data :
  snd (create_event s env data) = s
  \/ exists e,
       ed_capacity data = Given (Event.capacity e)
       /\ int64 (Event.capacity e) = true
       /\ (forall x, In x (events s) -> Event.id x <> Event.id e)
       /\ snd (create_event s env data) = with_event s e.
Proof.
  unfold create_event.
  destruct (negb _); [now left|].
  destruct (parse_time (ed_start_time data)) as [t1|]; [|now left].
  destruct (parse_time (ed_end_time data)) as [t2|]; [|now left].
  destruct (ed_college_id data), (ed_title data), (ed_event_type data),
    (ed_capacity data) as [| |c]; try (left; reflexivity).
  unfold Session.add_event.
  destruct (existsb _ (events s)) eqn:E; [now left|].
  destruct (int64 _) eqn:Ec; [|now left].
  right. eexists. split; [|split; [|split; [|reflexivity]]];
    [reflexivity|exact Ec|].
  intros x Hx. simpl. apply String.eqb_neq.
  apply not_true_iff_false. intros H.
  assert (existsb (fun x0 => (Event.id x0 =? uuid4 env)%string) (events s)
          = true) by (apply existsb_exists; now exists x).
  simpl in E. congruence.
Qed.

Lemma create_college_tables s env name :
  let s' := snd (create_college s env name) in
  students s' = students s /\ events s' = events s
  /\ registrations s' = registrations s /\ attendances s' = attendances s
  /\ feedbacks s' = feedbacks s.
Proof.
  unfold create_college.
  destruct (negb _); [simpl; tauto|].
  unfold Session.add_college.
  destruct (existsb _ _); simpl; tauto.
Qed.

Lemma create_student_tables s env c n e :
  let s' := snd (create_student s env c n e) in
  incl (students s) (students s') /\ events s' = events s
  /\ registrations s' = registrations s /\ attendances s' = attendances s
  /\ feedbacks s' = feedbacks s.
Proof.
  assert (Hs : forall t : Store,
             incl (students t) (students t) /\ events t = events t
             /\ registrations t = registrations t
             /\ attendances t = attendances t /\ feedbacks t = feedbacks t).
  { intros t. split; [apply incl_refl|tauto]. }
  unfold create_student.
  destruct (negb _); [apply Hs|].
  destruct (match c with Given _ => _ | _ => _ end); [|apply Hs].
  destruct (match e with Given _ => _ | _ => _ end); [apply Hs|].
  destruct c, n, e; try apply Hs.
  unfold Session.add_student.
  destruct (existsb _ _); [apply Hs|]. simpl.
  split; [apply incl_appl, incl_refl|tauto].
Qed.

(** ** The invariant is preserved *)

Lemma store_inv_empty : store_inv empty_store.
Proof.
  constructor; simpl; try (intros ? []); try (intros; unfold Query.count;
    simpl; lia).
  constructor.
Qed.

Lemma in_snoc {A} (l : list A) (x y : A) :
  In y (l ++ [x]) <-> In y l \/ y = x.
Proof.
  rewrite in_app_iff. simpl. intuition congruence.
Qed.

Lemma inv_with_registration s x eid t uid event student :
  store_inv s ->
  Query.get_event s eid = Some event ->
  Query.get_student s x = Some student ->
  ~ registered s x eid ->
  registration_count s eid < Event.capacity event ->
  store_inv (with_registration s (Registration.mk uid x eid t)).
Proof.
  intros [Hids Hre Hrs Har Hfa Hru Hau Hfu Hrt Hcap] He Hs Hnew Hroom.
  apply get_event_some in He as He'. destruct He' as [Hin Hid].
  apply get_student_some in Hs. destruct Hs as [Hsin Hsid].
  constructor; simpl; auto.
  - intros r Hr. apply in_snoc in Hr. destruct Hr as [Hr| ->]; auto.
    now exists event.
  - intros r Hr. apply in_snoc in Hr. destruct Hr as [Hr| ->]; auto.
    now exists student.
  - intros a Ha. destruct (Har a Ha) as [r [Hr Hp]].
    exists r. split; [|exact Hp]. simpl. apply in_snoc. now left.
  - intros sid' eid'. rewrite count_app, count_single.
    destruct (Query.reg_pair sid' eid' _) eqn:E.
    + apply reg_pair_true in E. simpl in E. destruct E as [<- <-].
      assert (Query.count (Query.reg_pair x eid) (registrations s) = 0).
      { apply count_zero_iff. intros r Hr.
        destruct (Query.reg_pair x eid r) eqn:E; [|reflexivity].
        exfalso. apply Hnew. exists r. apply reg_pair_true in E. tauto. }
      lia.
    + specialize (Hru sid' eid'). lia.
  - intros e Hein. unfold registration_count. simpl.
    rewrite count_app, count_single. unfold Query.reg_of_event at 2. simpl.
    destruct (eid =? Event.id e)%string eqn:E.
    + apply String.eqb_eq in E.
      assert (e = event).
      { apply (NoDup_map_inj Event.id (events s)); auto. congruence. }
      subst e. unfold registration_count in Hroom. rewrite Hid. lia.
    + specialize (Hcap e Hein). unfold registration_count in Hcap. lia.
Qed.

Lemma inv_with_attendance s x eid t uid m :
  store_inv s ->
  registered s x eid ->
  ~ attended s x eid ->
  store_inv (with_attendance s (Attendance.mk uid x eid t m)).
Proof.
  intros [Hids Hre Hrs Har Hfa Hru Hau Hfu Hrt Hcap] Hreg Hnew.
  constructor; simpl; auto.
  - intros a Ha. apply in_snoc in Ha. destruct Ha as [Ha| ->]; auto.
    exact (Har a Ha).
  - intros f Hf. destruct (Hfa f Hf) as [a [Ha Hp]].
    exists a. split; [|exact Hp]. simpl. apply in_snoc. now left.
  - intros sid' eid'. rewrite count_app, count_single.
    destruct (Query.att_pair sid' eid' _) eqn:E.
    + apply att_pair_true in E. simpl in E. destruct E as [<- <-].
      assert (Query.count (Query.att_pair x eid) (attendances s) = 0).
      { apply count_zero_iff. intros a Ha.
        destruct (Query.att_pair x eid a) eqn:E; [|reflexivity].
        exfalso. apply Hnew. exists a. apply att_pair_true in E. tauto. }
      lia.
    + specialize (Hau sid' eid'). lia.
Qed.

Lemma inv_with_feedback s x eid t uid r c :
  store_inv s ->
  1 <= r <= 5 ->
  attended s x eid ->
  ~ gave_feedback s x eid ->
  store_inv (with_feedback s (Feedback.mk uid x eid r c t)).
Proof.
  intros [Hids Hre Hrs Har Hfa Hru Hau Hfu Hrt Hcap] Hr Hatt Hnew.
  constructor; simpl; auto.
  - intros f Hf. apply in_snoc in Hf. destruct Hf as [Hf| ->]; auto.
    exact (Hfa f Hf).
  - intros sid' eid'. rewrite count_app, count_single.
    destruct (Query.fb_pair sid' eid' _) eqn:E.
    + apply fb_pair_true in E. simpl in E. destruct E as [<- <-].
      assert (Query.count (Query.fb_pair x eid) (feedbacks s) = 0).
      { apply count_zero_iff. intros f Hf.
        destruct (Query.fb_pair x eid f) eqn:E; [|reflexivity].
        exfalso. apply Hnew. exists f. apply fb_pair_true in E. tauto. }
      lia.
    + specialize (Hfu sid' eid'). lia.
  - intros f Hf. apply in_snoc in Hf. destruct Hf as [Hf| ->]; auto.
Qed.

Lemma inv_with_event s e :
  store_inv s ->
  (forall x, In x (events s) -> Event.id x <> Event.id e) ->
  store_inv (with_event s e).
Proof.
  intros [Hids Hre Hrs Har Hfa Hru Hau Hfu Hrt Hcap] Hfresh.
  constructor; simpl; auto.
  - rewrite map_app. simpl. apply NoDup_snoc; [exact Hids|].
    intros Hin. apply in_map_iff in Hin. destruct Hin as [x [Hx Hin]].
    exact (Hfresh x Hin Hx).
  - intros r Hr. destruct (Hre r Hr) as [e' [He' Hid]].
    exists e'. split; [|exact Hid]. apply in_snoc. now left.
  - intros e' He'. apply in_snoc in He'. destruct He' as [He'| ->].
    { exact (Hcap e' He'). }
    assert (H0 : registration_count s (Event.id e) = 0).
    { apply count_zero_iff. intros r Hr. unfold Query.reg_of_event.
      apply String.eqb_neq. destruct (Hre r Hr) as [e0 [He0 Hid]].
      rewrite <- Hid. now apply Hfresh. }
    unfold registration_count in *. simpl. lia.
Qed.

(** Requests that leave events and the three workflow tables alone. *)
Lemma inv_same_workflow s s' :
  store_inv s ->
  incl (students s) (students s') -> events s' = events s ->
  registrations s' = registrations s -> attendances s' = attendances s ->
  feedbacks s' = feedbacks s ->
  store_inv s'.
Proof.
  intros [Hids Hre Hrs Har Hfa Hru Hau Hfu Hrt Hcap] Hst He Hr Ha Hf.
  constructor; unfold registered, attended, registration_count in *;
    rewrite ?He, ?Hr, ?Ha, ?Hf; auto.
  intros r Hin. destruct (Hrs r Hin) as [x [Hx Hid]].
  exists x. split; [now apply Hst|exact Hid].
Qed.

Lemma handle_inv s env req : store_inv s -> store_inv (handle s env req).
Proof.
  intros Hinv. destruct req as [n|c n e|data|eid sid|eid sid m|eid sid r c];
    simpl.
  - destruct (create_college_tables s env n) as [H1 [H2 [H3 [H4 H5]]]].
    apply (inv_same_workflow s); auto. rewrite H1. apply incl_refl.
  - destruct (create_student_tables s env c n e) as [H1 [H2 [H3 [H4 H5]]]].
    now apply (inv_same_workflow s).
  - destruct (create_event_cases s env data) as [->|[e [_ [_ [Hf ->]]]]];
      auto.
    now apply inv_with_event.
  - destruct (register_for_event_cases s env eid sid)
      as [->|[x [ev [st [_ [He [Hs [Hn [Hc ->]]]]]]]]]; auto.
    now apply (inv_with_registration s x eid _ _ ev st).
  - destruct (mark_attendance_cases s env eid sid m)
      as [->|[x [m' [_ [Hr [Hn ->]]]]]]; auto.
    now apply inv_with_attendance.
  - destruct (submit_feedback_cases s env eid sid r c)
      as [->|[x [r' [c' [_ [Hr [Ha [Hn ->]]]]]]]]; auto.
    now apply inv_with_feedback.
Qed.

Lemma reachable_inv s : reachable s -> store_inv s.
Proof.
  induction 1 as [|s env req _ IH]; [exact store_inv_empty|].
  now apply handle_inv.
Qed.

Lemma run_reachable script : forall s, reachable s -> reachable (run s script).
Proof.
  induction script as [|[env req] rest IH]; intros s Hs; simpl; [exact Hs|].
  apply IH. now constructor.
Qed.

(** ** Deciding the side conditions on a concrete store *)

Lemma fresh_registration_id_dec s env :
  existsb (fun r => (Registration.id r =? uuid4 env)%string)
    (registrations s) = false ->
  fresh_registration_id s env.
Proof.
  intros H r Hr E. apply not_true_iff_false in H. apply H.
  apply existsb_exists. exists r. split; [exact Hr|]. now apply String.eqb_eq.
Qed.

Lemma fresh_attendance_id_dec s env :
  existsb (fun a => (Attendance.id a =? uuid4 env)%string)
    (attendances s) = false ->
  fresh_attendance_id s env.
Proof.
  intros H a Ha E. apply not_true_iff_false in H. apply H.
  apply existsb_exists. exists a. split; [exact Ha|]. now apply String.eqb_eq.
Qed.


Lemma fresh_event_id_dec s env :
  existsb (fun e => (Event.id e =? uuid4 env)%string) (events s) = false ->
  fresh_event_id s env.
Proof.
  intros H e He E. apply not_true_iff_false in H. apply H.
  apply existsb_exists. exists e. split; [exact He|]. now apply String.eqb_eq.
Qed.

Lemma nonempty_dec (x : string) : (x =? "")%string = false -> x <> "".
Proof. apply String.eqb_neq. Qed.

Lemma reachable_scenario script : reachable (run empty_store script).
Proof. apply run_reachable. constructor. Qed.

(** ** register_for_event *)

(** The four outcomes of [register_for_event], one check after the other. *)
Lemma register_for_event_not_found s env eid sid :
  sid <> "" ->
  Query.get_event s eid = None \/ Query.get_student s sid = None ->
  register_for_event s env eid (Some sid) = (Fail NotFoundError, s).
Proof.
  intros Hsid H. unfold register_for_event.
  rewrite (truthy_str_some sid Hsid). simpl.
  destruct H as [H|H]; rewrite H; [reflexivity|].
  now destruct (Query.get_event s eid).
Qed.

Lemma register_for_event_conflict s env eid sid event student :
  sid <> "" ->
  Query.get_event s eid = Some event ->
  Query.get_student s sid = Some student ->
  registered s sid eid ->
  register_for_event s env eid (Some sid) = (Fail ConflictError, s).
Proof.
  intros Hsid He Hs Hr. unfold register_for_event.
  rewrite (truthy_str_some sid Hsid). simpl. rewrite He, Hs.
  destruct (first_reg_some s sid eid Hr) as [r ->]. reflexivity.
Qed.

Lemma register_for_event_full s env eid sid event student :
  sid <> "" ->
  Query.get_event s eid = Some event ->
  Query.get_student s sid = Some student ->
  ~ registered s sid eid ->
  registration_count s eid >= Event.capacity event ->
  register_for_event s env eid (Some sid) = (Fail CapacityError, s).
Proof.
  intros Hsid He Hs Hn Hfull. unfold register_for_event.
  rewrite (truthy_str_some sid Hsid). simpl.
  rewrite He, Hs, (first_reg_none s sid eid Hn).
  unfold registration_count in Hfull.
  replace (_ >=? _) with true; [reflexivity|].
  symmetry. apply Z.geb_le. lia.
Qed.

Lemma register_for_event_created s env eid sid event student :
  sid <> "" ->
  Query.get_event s eid = Some event ->
  Query.get_student s sid = Some student ->
  ~ registered s sid eid ->
  registration_count s eid < Event.capacity event ->
  fresh_registration_id s env ->
  register_for_event s env eid (Some sid)
  = (Created (Registration.mk (uuid4 env) sid eid (utcnow env)),
     with_registration s
       (Registration.mk (uuid4 env) sid eid (utcnow env))).
Proof.
  intros Hsid He Hs Hn Hroom Hfresh. unfold register_for_event.
  rewrite (truthy_str_some sid Hsid). simpl.
  rewrite He, Hs, (first_reg_none s sid eid Hn).
  unfold registration_count in Hroom.
  replace (_ >=? _) with false.
  2:{ symmetry. apply not_true_iff_false. rewrite Z.geb_le. lia. }
  apply commit_snd. now apply add_registration_fresh.
Qed.

(** C1.  register(studentId, eventId), called with a student id: an absent
    event or student gives NotFoundError; otherwise an existing Registration
    of the pair gives ConflictError and the store is left as it was;
    otherwise a Registration count at or above the capacity gives
    CapacityError; otherwise exactly one Registration is appended and
    returned, after which the pair has one Registration and a second call
    fails with ConflictError.  The checks come in that order. *)
Theorem register_for_event_checks (s : Store) (env : Env) (eid sid : string) :
  sid <> "" ->
  (Query.get_event s eid = None \/ Query.get_student s sid = None ->
   register_for_event s env eid (Some sid) = (Fail NotFoundError, s))
  /\ (forall event student,
        Query.get_event s eid = Some event ->
        Query.get_student s sid = Some student ->
        (registered s sid eid ->
         register_for_event s env eid (Some sid) = (Fail ConflictError, s))
        /\ (~ registered s sid eid ->
            registration_count s eid >= Event.capacity event ->
            register_for_event s env eid (Some sid)
            = (Fail CapacityError, s))
        /\ (~ registered s sid eid ->
            registration_count s eid < Event.capacity event ->
            fresh_registration_id s env ->
            let r := Registration.mk (uuid4 env) sid eid (utcnow env) in
            let s' := with_registration s r in
            register_for_event s env eid (Some sid) = (Created r, s')
            /\ Query.count (Query.reg_pair sid eid) (registrations s') = 1
            /\ forall env',
                 register_for_event s' env' eid (Some sid)
                 = (Fail ConflictError, s'))).
Proof.
  intros Hsid. split.
  - now apply register_for_event_not_found.
  - intros event student He Hs. split; [|split].
    + intros Hr. now apply (register_for_event_conflict s env eid sid
                              event student).
    + intros Hn Hfull. now apply (register_for_event_full s env eid sid
                                    event student).
    + intros Hn Hroom Hfresh r s'. split; [|split].
      * now apply (register_for_event_created s env eid sid event student).
      * subst s' r. simpl. rewrite count_app, count_single.
        assert (H0 : Query.count (Query.reg_pair sid eid) (registrations s)
                     = 0).
        { apply count_zero_iff. intros x Hx.
          destruct (Query.reg_pair sid eid x) eqn:E; [|reflexivity].
          exfalso. apply Hn. exists x. apply reg_pair_true in E. tauto. }
        rewrite H0. unfold Query.reg_pair. simpl.
        now rewrite !String.eqb_refl.
      * intros env'.
        apply (register_for_event_conflict s' env' eid sid event student);
          [exact Hsid|exact He|exact Hs|].
        exists r. subst s' r. simpl. split; [|split; reflexivity].
        apply in_snoc. now right.
Qed.

(** A first registration of student A, then the same request again. *)
Lemma register_for_event_checks_witness :
  let s := Scenario.prepared in
  let env := Scenario.at_ "reg-1" 6 in
  let r := Registration.mk "reg-1" "student-A" "event-1" 6 in
  register_for_event s env "event-1" (Some "student-A")
  = (Created r, with_registration s r)
  /\ register_for_event (with_registration s r) (Scenario.at_ "reg-2" 7)
       "event-1" (Some "student-A")
     = (Fail ConflictError, with_registration s r).
Proof.
  intros s env r.
  assert (Hsid : "student-A" <> "") by (apply nonempty_dec; reflexivity).
  destruct (register_for_event_checks s env "event-1" "student-A" Hsid)
    as [_ H].
  destruct (Query.get_event s "event-1") as [event|] eqn:He;
    [|vm_compute in He; discriminate].
  destruct (Query.get_student s "student-A") as [student|] eqn:Hs;
    [|vm_compute in Hs; discriminate].
  destruct (H event student eq_refl eq_refl) as [_ [_ H3]].
  assert (Hn : ~ registered s "student-A" "event-1")
    by (apply first_reg_none_inv; reflexivity).
  assert (Hroom : registration_count s "event-1" < Event.capacity event).
  { vm_compute in He. injection He as <-. vm_compute. reflexivity. }
  assert (Hfresh : fresh_registration_id s env)
    by (apply fresh_registration_id_dec; reflexivity).
  destruct (H3 Hn Hroom Hfresh) as [H4 [_ H5]].
  split; [exact H4|exact (H5 _)].
Defined.

(** ** Capacity *)

(** An event created with capacity -1 holds 0 registrations, more than its
    capacity. *)
Lemma registrations_exceed_negative_capacity :
  ~ (forall s e,
       reachable s -> In e (events s) ->
       registration_count s (Event.id e) <= Event.capacity e).
Proof.
  intros H.
  specialize (H Scenario.negative_capacity
                (Event.mk "event-1" "college-1" "Hackathon" (Some "") "Workshop"
                   100 200 (-1) "active" 2)
                (reachable_scenario _) (or_introl eq_refl)).
  vm_compute in H. apply H. reflexivity.
Qed.

(** Served alone, the handler reads the store it writes to. *)
Lemma register_interleaved_alone s env eid sid :
  register_interleaved s s env eid sid = register_for_event s env eid sid.
Proof.
  unfold register_interleaved, register_for_event, Session.commit.
  destruct sid as [sid|]; [|reflexivity].
  destruct (negb _); [reflexivity|].
  destruct (Query.get_event s eid); [|reflexivity].
  destruct (Query.get_student s sid); [|reflexivity].
  destruct (Query.first _ _); [reflexivity|].
  destruct (_ >=? _); [reflexivity|].
  destruct (Session.add_registration s _) eqn:E; cbn [fst];
    [rewrite E|]; reflexivity.
Qed.

Lemma register_interleaved_created seen now env eid sid event student :
  sid <> "" ->
  Query.get_event seen eid = Some event ->
  Query.get_student seen sid = Some student ->
  ~ registered seen sid eid ->
  registration_count seen eid < Event.capacity event ->
  fresh_registration_id seen env ->
  fresh_registration_id now env -> ~ registered now sid eid ->
  register_interleaved seen now env eid (Some sid)
  = (Created (Registration.mk (uuid4 env) sid eid (utcnow env)),
     with_registration now
       (Registration.mk (uuid4 env) sid eid (utcnow env))).
Proof.
  intros Hsid He Hs Hn Hroom Hfresh Hfresh' Hn'.
  unfold register_interleaved.
  rewrite (register_for_event_created seen env eid sid event student)
    by assumption.
  cbn [fst]. apply commit_snd. now apply add_registration_fresh.
Qed.

Lemma registration_count_with s r eid :
  Registration.event_id r = eid ->
  registration_count (with_registration s r) eid
  = registration_count s eid + 1.
Proof.
  intros E. unfold registration_count. simpl.
  rewrite count_app, count_single. unfold Query.reg_of_event.
  rewrite E, String.eqb_refl. reflexivity.
Qed.

(** C2, amended.  As long as requests are handled one after the other,
    the Registration count of an event is at most max(0, capacity) in
    every store reached: it never exceeds a non-negative capacity, and once
    it has reached the capacity every further register call for the event
    fails and leaves the store as it was, with CapacityError when the
    student exists and is not registered yet.  The handler takes no lock:
    when one place is left and two register calls of different students
    both run their checks before either commits, both are answered Created
    and the event ends with capacity + 1 Registrations, where the second
    call, served after the first, would have failed with CapacityError. *)
Theorem registrations_within_capacity (s : Store) (e : Event.t) :
  reachable s -> In e (events s) ->
  registration_count s (Event.id e) <= Z.max 0 (Event.capacity e)
  /\ (registration_count s (Event.id e) >= Event.capacity e ->
      forall env student_id,
        (exists err,
            register_for_event s env (Event.id e) student_id
            = (Fail err, s))
        /\ (forall sid student,
              student_id = Some sid -> sid <> "" ->
              Query.get_student s sid = Some student ->
              ~ registered s sid (Event.id e) ->
              register_for_event s env (Event.id e) student_id
              = (Fail CapacityError, s)))
  /\ (forall env1 env2 sid1 sid2 student1 student2,
        sid1 <> "" -> sid2 <> "" -> sid1 <> sid2 ->
        Query.get_student s sid1 = Some student1 ->
        Query.get_student s sid2 = Some student2 ->
        ~ registered s sid1 (Event.id e) ->
        ~ registered s sid2 (Event.id e) ->
        fresh_registration_id s env1 -> fresh_registration_id s env2 ->
        uuid4 env1 <> uuid4 env2 ->
        registration_count s (Event.id e) + 1 = Event.capacity e ->
        let r1 :=
          Registration.mk (uuid4 env1) sid1 (Event.id e) (utcnow env1) in
        let r2 :=
          Registration.mk (uuid4 env2) sid2 (Event.id e) (utcnow env2) in
        let s1 := with_registration s r1 in
        let s2 := with_registration s1 r2 in
        register_interleaved s s env1 (Event.id e) (Some sid1)
        = (Created r1, s1)
        /\ register_interleaved s s1 env2 (Event.id e) (Some sid2)
           = (Created r2, s2)
        /\ registration_count s2 (Event.id e) = Event.capacity e + 1
        /\ register_for_event s1 env2 (Event.id e) (Some sid2)
           = (Fail CapacityError, s1)).
Proof.
  intros Hreach He. pose proof (reachable_inv s Hreach) as Hinv.
  pose proof (get_event_in s e (inv_event_ids s Hinv) He) as Hget.
  split; [exact (inv_capacity s Hinv e He)|]. split.
  - intros Hfull env student_id.
    assert (Hge : (Query.count (Query.reg_of_event (Event.id e))
                     (registrations s) >=? Event.capacity e) = true).
    { apply Z.geb_le. unfold registration_count in Hfull. lia. }
    split.
    + unfold register_for_event. destruct student_id as [sid|]; [|eauto].
      destruct (negb _); [eauto|]. rewrite Hget.
      destruct (Query.get_student s sid); [|eauto].
      destruct (Query.first _ _); [eauto|]. rewrite Hge. eauto.
    + intros sid student -> Hsid Hs Hn.
      now apply (register_for_event_full s env (Event.id e) sid e student).
  - intros env1 env2 sid1 sid2 x1 x2 Hs1 Hs2 Hne Hx1 Hx2 Hn1 Hn2 Hf1 Hf2
      Hid Hlast r1 r2 s1 s2.
    assert (Hn2' : ~ registered s1 sid2 (Event.id e)).
    { intros [r [Hr [E1 E2]]]. simpl in Hr. apply in_snoc in Hr.
      destruct Hr as [Hr| ->].
      - apply Hn2. now exists r.
      - simpl in E1. congruence. }
    assert (Hf2' : fresh_registration_id s1 env2).
    { intros r Hr. simpl in Hr. apply in_snoc in Hr.
      destruct Hr as [Hr| ->]; [now apply Hf2|]. exact Hid. }
    assert (Hc1 : registration_count s1 (Event.id e) = Event.capacity e).
    { unfold s1. rewrite registration_count_with by reflexivity. lia. }
    split; [|split; [|split]].
    + apply (register_interleaved_created s s env1 (Event.id e) sid1 e x1);
        auto. lia.
    + apply (register_interleaved_created s s1 env2 (Event.id e) sid2 e x2);
        auto. lia.
    + unfold s2. rewrite registration_count_with by reflexivity. lia.
    + apply (register_for_event_full s1 env2 (Event.id e) sid2 e x2);
        auto. lia.
Qed.

(** The full event of capacity 2 turns student C away; and with A
    registered, overlapping calls of B and C leave 3 Registrations. *)
Lemma registrations_within_capacity_witness :
  (let s := Scenario.full in
   registration_count s "event-1" = 2
   /\ register_for_event s (Scenario.at_ "reg-3" 8) "event-1"
        (Some "student-C")
      = (Fail CapacityError, s))
  /\ (let s := Scenario.one_registered in
      exists r2 s1 r3 s2,
        register_interleaved s s (Scenario.at_ "reg-2" 7) "event-1"
          (Some "student-B") = (Created r2, s1)
        /\ register_interleaved s s1 (Scenario.at_ "reg-3" 8) "event-1"
             (Some "student-C") = (Created r3, s2)
        /\ registration_count s2 "event-1" = 3).
Proof.
  pose (e := Event.mk "event-1" "college-1" "Hackathon" (Some "") "Workshop"
               100 200 2 "active" 2).
  split.
  - intros s. split; [reflexivity|].
    assert (Hreach : reachable s).
    { unfold s, Scenario.full. apply run_reachable, reachable_scenario. }
    assert (He : In e (events s)) by (left; reflexivity).
    destruct (registrations_within_capacity s e Hreach He) as [_ [H _]].
    assert (Hfull : registration_count s (Event.id e) >= Event.capacity e)
      by (vm_compute; discriminate).
    destruct (H Hfull (Scenario.at_ "reg-3" 8) (Some "student-C"))
      as [_ H'].
    apply (H' "student-C"
              (Student.mk "student-C" "college-1" "C" "c@u1.edu" 5)).
    + reflexivity.
    + apply nonempty_dec. reflexivity.
    + reflexivity.
    + apply first_reg_none_inv. reflexivity.
  - intros s.
    assert (Hreach : reachable s).
    { unfold s, Scenario.one_registered.
      apply run_reachable, reachable_scenario. }
    assert (He : In e (events s)) by (left; reflexivity).
    destruct (registrations_within_capacity s e Hreach He) as [_ [_ H]].
    destruct (H (Scenario.at_ "reg-2" 7) (Scenario.at_ "reg-3" 8)
                "student-B" "student-C"
                (Student.mk "student-B" "college-1" "B" "b@u1.edu" 4)
                (Student.mk "student-C" "college-1" "C" "c@u1.edu" 5))
      as [H1 [H2 [H3 _]]].
    + apply nonempty_dec. reflexivity.
    + apply nonempty_dec. reflexivity.
    + discriminate.
    + reflexivity.
    + reflexivity.
    + apply first_reg_none_inv. reflexivity.
    + apply first_reg_none_inv. reflexivity.
    + apply fresh_registration_id_dec. reflexivity.
    + apply fresh_registration_id_dec. reflexivity.
    + discriminate.
    + reflexivity.
    + do 4 eexists. split; [exact H1|]. split; [exact H2|exact H3].
Defined.

(** ** The order of the workflow *)

Lemma in_range_truthy r : 1 <= r <= 5 -> truthy_int (Some r) = true.
Proof.
  intros H. unfold truthy_int. apply negb_true_iff, Z.eqb_neq. lia.
Qed.

Lemma in_range_check r :
  1 <= r <= 5 -> negb ((1 <=? r) && (r <=? 5)) = false.
Proof.
  intros [H1 H2]. apply Z.leb_le in H1, H2. now rewrite H1, H2.
Qed.

Lemma mark_attendance_forbidden s env eid sid m :
  sid <> "" -> ~ registered s sid eid ->
  mark_attendance s env eid (Some sid) m = (Fail ForbiddenError, s).
Proof.
  intros Hsid Hn. unfold mark_attendance.
  rewrite (truthy_str_some sid Hsid). simpl.
  now rewrite (first_reg_none s sid eid Hn).
Qed.

Lemma submit_feedback_forbidden s env eid sid r c :
  sid <> "" -> 1 <= r <= 5 -> ~ attended s sid eid ->
  submit_feedback s env eid (Some sid) (Some r) c = (Fail ForbiddenError, s).
Proof.
  intros Hsid Hr Hn. unfold submit_feedback.
  rewrite (truthy_str_some sid Hsid), (in_range_truthy r Hr),
    (in_range_check r Hr). simpl.
  now rewrite (first_att_none s sid eid Hn).
Qed.

Lemma submit_feedback_invalid s env eid student_id rating c :
  rating = None \/ (exists r, rating = Some r /\ (r < 1 \/ 5 < r)) ->
  submit_feedback s env eid student_id rating c = (Fail ValidationError, s).
Proof.
  intros H. unfold submit_feedback.
  destruct student_id as [sid|]; [|reflexivity].
  destruct H as [->|[r [-> H]]]; [reflexivity|].
  destruct (_ || _); [reflexivity|].
  replace (negb ((1 <=? r) && (r <=? 5))) with true; [reflexivity|].
  symmetry. apply negb_true_iff, andb_false_iff.
  destruct H; [left; apply Z.leb_gt|right; apply Z.leb_gt]; lia.
Qed.

(** C3.  With a student id in the request (and, for feedback, a rating in
    [1,5]): markAttendance without a Registration of the pair fails with
    ForbiddenError; submitFeedback without an Attendance of the pair fails
    with ForbiddenError; in a reachable store a markAttendance for a pair
    that has an Attendance, and a submitFeedback for a pair that has a
    Feedback, fail with ConflictError and change nothing; and a reachable
    store holds at most one Attendance and at most one Feedback per pair. *)
Theorem workflow_forward_only (s : Store) (env : Env) (eid sid : string) :
  sid <> "" ->
  (~ registered s sid eid ->
   forall m, mark_attendance s env eid (Some sid) m
             = (Fail ForbiddenError, s))
  /\ (~ attended s sid eid ->
      forall r c, 1 <= r <= 5 ->
                  submit_feedback s env eid (Some sid) (Some r) c
                  = (Fail ForbiddenError, s))
  /\ (reachable s ->
      (attended s sid eid ->
       forall m, mark_attendance s env eid (Some sid) m
                 = (Fail ConflictError, s))
      /\ (gave_feedback s sid eid ->
          forall r c, 1 <= r <= 5 ->
                      submit_feedback s env eid (Some sid) (Some r) c
                      = (Fail ConflictError, s))
      /\ Query.count (Query.att_pair sid eid) (attendances s) <= 1
      /\ Query.count (Query.fb_pair sid eid) (feedbacks s) <= 1).
Proof.
  intros Hsid. split; [|split].
  - intros Hn m. now apply mark_attendance_forbidden.
  - intros Hn r c Hr. now apply submit_feedback_forbidden.
  - intros Hreach. pose proof (reachable_inv s Hreach) as Hinv.
    split; [|split; [|split]].
    + intros Ha m. unfold mark_attendance.
      rewrite (truthy_str_some sid Hsid). simpl.
      assert (Hr : registered s sid eid).
      { destruct Ha as [a [Ha [<- <-]]]. exact (inv_att_reg s Hinv a Ha). }
      destruct (first_reg_some s sid eid Hr) as [r ->].
      destruct (first_att_some s sid eid Ha) as [a ->]. reflexivity.
    + intros Hf r c Hr. unfold submit_feedback.
      rewrite (truthy_str_some sid Hsid), (in_range_truthy r Hr),
        (in_range_check r Hr). simpl.
      assert (Ha : attended s sid eid).
      { destruct Hf as [f [Hf [<- <-]]]. exact (inv_fb_att s Hinv f Hf). }
      destruct (first_att_some s sid eid Ha) as [a ->].
      destruct (first_fb_some s sid eid Hf) as [f ->]. reflexivity.
    + apply (inv_att_unique s Hinv).
    + apply (inv_fb_unique s Hinv).
Qed.

(** After the example scenario: A repeats attendance and feedback, C was
    never registered, B never attended. *)
Lemma workflow_forward_only_witness :
  let s := Scenario.after_example in
  mark_attendance s (Scenario.at_ "att-2" 12) "event-1" (Some "student-A")
    None
  = (Fail ConflictError, s)
  /\ submit_feedback s (Scenario.at_ "fb-3" 13) "event-1" (Some "student-A")
       (Some 4) None
     = (Fail ConflictError, s)
  /\ mark_attendance s (Scenario.at_ "att-2" 12) "event-1"
       (Some "student-C") None
     = (Fail ForbiddenError, s)
  /\ submit_feedback s (Scenario.at_ "fb-3" 13) "event-1" (Some "student-B")
       (Some 4) None
     = (Fail ForbiddenError, s).
Proof.
  intros s.
  assert (HA : "student-A" <> "") by (apply nonempty_dec; reflexivity).
  assert (HB : "student-B" <> "") by (apply nonempty_dec; reflexivity).
  assert (HC : "student-C" <> "") by (apply nonempty_dec; reflexivity).
  destruct (workflow_forward_only s (Scenario.at_ "att-2" 12) "event-1"
              "student-A" HA) as [_ [_ H1]].
  destruct (H1 (reachable_scenario _)) as [H1' _].
  destruct (workflow_forward_only s (Scenario.at_ "fb-3" 13) "event-1"
              "student-A" HA) as [_ [_ H2]].
  destruct (H2 (reachable_scenario _)) as [_ [H2' _]].
  destruct (workflow_forward_only s (Scenario.at_ "att-2" 12) "event-1"
              "student-C" HC) as [H3 _].
  destruct (workflow_forward_only s (Scenario.at_ "fb-3" 13) "event-1"
              "student-B" HB) as [_ [H4 _]].
  split; [|split; [|split]].
  - apply H1'. eapply first_att_some_inv. vm_compute. reflexivity.
  - apply H2'; [|lia]. eapply first_fb_some_inv. vm_compute. reflexivity.
  - apply H3. apply first_reg_none_inv. vm_compute. reflexivity.
  - apply H4; [|lia]. apply first_att_none_inv. vm_compute. reflexivity.
Defined.

(** ** Requests that name an unknown student or event *)

(** On the empty database markAttendance answers 403, not 404. *)
Lemma mark_attendance_unknown_not_found :
  ~ (forall s env eid sid m,
       sid <> "" ->
       Query.get_event s eid = None \/ Query.get_student s sid = None ->
       fst (mark_attendance s env eid (Some sid) m) = Fail NotFoundError).
Proof.
  intros H.
  specialize (H empty_store (Scenario.at_ "att-1" 1) "event-1" "student-A"
                None (nonempty_dec "student-A" eq_refl) (or_introl eq_refl)).
  vm_compute in H. discriminate.
Qed.

Lemma unknown_not_registered s eid sid :
  store_inv s ->
  Query.get_event s eid = None \/ Query.get_student s sid = None ->
  ~ registered s sid eid.
Proof.
  intros Hinv H [r [Hr [Hs He]]]. destruct H as [H|H].
  - destruct (inv_reg_event s Hinv r Hr) as [e [Hin Hid]].
    apply (proj1 (get_event_none s eid) H e Hin). congruence.
  - destruct (inv_reg_student s Hinv r Hr) as [x [Hin Hid]].
    apply (proj1 (get_student_none s sid) H x Hin). congruence.
Qed.

Lemma not_registered_not_attended s eid sid :
  store_inv s -> ~ registered s sid eid -> ~ attended s sid eid.
Proof.
  intros Hinv Hn [a [Ha [<- <-]]]. exact (Hn (inv_att_reg s Hinv a Ha)).
Qed.

(** C4, amended.  In a reachable store, with a student id in the request
    and the student or the event unknown: register returns NotFoundError;
    markAttendance and submitFeedback look up no student and no event, and
    answer as for a pair without Registration or Attendance: markAttendance
    returns ForbiddenError, submitFeedback returns ForbiddenError for a
    rating in [1,5] and ValidationError for a missing or out-of-range one. *)
Theorem unknown_student_or_event (s : Store) (env : Env) (eid sid : string) :
  reachable s -> sid <> "" ->
  Query.get_event s eid = None \/ Query.get_student s sid = None ->
  register_for_event s env eid (Some sid) = (Fail NotFoundError, s)
  /\ (forall m, mark_attendance s env eid (Some sid) m
                = (Fail ForbiddenError, s))
  /\ (forall r c, 1 <= r <= 5 ->
                  submit_feedback s env eid (Some sid) (Some r) c
                  = (Fail ForbiddenError, s))
  /\ (forall rating c,
        rating = None \/ (exists r, rating = Some r /\ (r < 1 \/ 5 < r)) ->
        submit_feedback s env eid (Some sid) rating c
        = (Fail ValidationError, s)).
Proof.
  intros Hreach Hsid Habsent. pose proof (reachable_inv s Hreach) as Hinv.
  pose proof (unknown_not_registered s eid sid Hinv Habsent) as Hnr.
  pose proof (not_registered_not_attended s eid sid Hinv Hnr) as Hna.
  split; [|split; [|split]].
  - now apply register_for_event_not_found.
  - intros m. now apply mark_attendance_forbidden.
  - intros r c Hr. now apply submit_feedback_forbidden.
  - intros rating c Hbad. now apply submit_feedback_invalid.
Qed.

(** A student id that no student carries. *)
Lemma unknown_student_or_event_witness :
  let s := Scenario.prepared in
  let env := Scenario.at_ "x-1" 6 in
  register_for_event s env "event-1" (Some "student-Z")
  = (Fail NotFoundError, s)
  /\ mark_attendance s env "event-1" (Some "student-Z") None
     = (Fail ForbiddenError, s)
  /\ submit_feedback s env "event-1" (Some "student-Z") (Some 3) None
     = (Fail ForbiddenError, s).
Proof.
  intros s env.
  destruct (unknown_student_or_event s env "event-1" "student-Z"
              (reachable_scenario _) (nonempty_dec "student-Z" eq_refl)
              (or_intror eq_refl))
    as [H1 [H2 [H3 _]]].
  split; [exact H1|split; [exact (H2 None)|apply H3; lia]].
Defined.

(** ** The rating of a feedback *)



(** ** The capacity of an event *)

(** An event created with capacity 0 is stored. *)
Lemma create_event_stores_zero_capacity :
  ~ (forall s e, reachable s -> In e (events s) -> 0 < Event.capacity e).
Proof.
  intros H.
  specialize (H Scenario.zero_capacity
                (Event.mk "event-1" "college-1" "Hackathon" (Some "") "Workshop"
                   100 200 0 "active" 2)
                (reachable_scenario _) (or_introl eq_refl)).
  vm_compute in H. discriminate.
Qed.

Lemma handle_events s env req :
  events (handle s env req) = events s
  \/ exists e, int64 (Event.capacity e) = true
               /\ events (handle s env req) = (events s ++ [e])%list.
Proof.
  destruct req as [n|c n e|data|eid sid|eid sid m|eid sid r c]; simpl.
  - left. apply (create_college_tables s env n).
  - left. apply (create_student_tables s env c n e).
  - destruct (create_event_cases s env data) as [->|[e [_ [Hc [_ ->]]]]];
      [now left|].
    right. now exists e.
  - left. destruct (register_for_event_cases s env eid sid)
      as [->|[x [ev [st [_ [_ [_ [_ [_ ->]]]]]]]]]; reflexivity.
  - left. destruct (mark_attendance_cases s env eid sid m)
      as [->|[x [m' [_ [_ [_ ->]]]]]]; reflexivity.
  - left. destruct (submit_feedback_cases s env eid sid r c)
      as [->|[x [r' [c' [_ [_ [_ [_ ->]]]]]]]]; reflexivity.
Qed.

Lemma reachable_capacity_int64 s :
  reachable s -> forall e, In e (events s) -> int64 (Event.capacity e) = true.
Proof.
  induction 1 as [|s env req _ IH]; [intros e []|].
  intros e He.
  destruct (handle_events s env req) as [E|[e' [Hc E]]]; rewrite E in He.
  - now apply IH.
  - apply in_snoc in He. destruct He as [He| ->]; [now apply IH|exact Hc].
Qed.

(** C9, amended.  createEvent makes no check on the sign of the capacity: a
    request that carries every required field and parsable times stores an
    Event whose capacity is the integer of the request, be it positive,
    zero or negative, whenever that integer fits the INTEGER column (64
    bits, signed), and the new store is reachable whenever the old one is;
    for a capacity outside that range the commit fails, the answer is 500
    and nothing is stored.  So every Event of a reachable store has a
    64-bit capacity, which need not be positive. *)
Theorem create_event_stores_capacity (s : Store) (env : Env)
    (college_id title event_type : string) (description : field string)
    (start_time end_time : datetime) (capacity : Z) :
  fresh_event_id s env ->
  let data :=
    mkEventData (Given college_id) (Given title) description
      (Given event_type) (Given (IsoDatetime start_time))
      (Given (IsoDatetime end_time)) (Given capacity) in
  let event :=
    Event.mk (uuid4 env) college_id title
      (match description with
       | Missing => Some ""
       | Null => None
       | Given d => Some d
       end)
      event_type start_time end_time capacity "active" (utcnow env) in
  (int64 capacity = true ->
   create_event s env data = (Created event, with_event s event)
   /\ Event.capacity event = capacity
   /\ In event (events (with_event s event))
   /\ (reachable s -> reachable (with_event s event)))
  /\ (int64 capacity = false ->
      create_event s env data = (Fail InternalError, s))
  /\ (reachable s ->
      forall e, In e (events s) -> int64 (Event.capacity e) = true).
Proof.
  intros Hfresh data event. split; [|split].
  - intros Hcap.
    assert (H : create_event s env data
                = (Created event, with_event s event)).
    { unfold create_event, data. simpl. apply commit_snd.
      apply add_event_fresh; [exact Hfresh|exact Hcap]. }
    split; [exact H|split; [reflexivity|split]].
    + simpl. apply in_snoc. now right.
    + intros Hreach.
      replace (with_event s event) with (handle s env (PostEvent data)).
      * now constructor.
      * simpl. now rewrite H.
  - intros Hcap. unfold create_event, data, Session.add_event. simpl.
    rewrite Hcap, orb_true_r. reflexivity.
  - apply reachable_capacity_int64.
Qed.

(** An event created with capacity -5. *)
Lemma create_event_stores_capacity_witness :
  let s := Scenario.prepared in
  let env := Scenario.at_ "event-2" 6 in
  let event :=
    Event.mk "event-2" "college-1" "Quiz" (Some "") "Fest" 300 400 (-5)
      "active" 6 in
  create_event s env
    (mkEventData (Given "college-1") (Given "Quiz") Missing (Given "Fest")
       (Given (IsoDatetime 300)) (Given (IsoDatetime 400)) (Given (-5)))
  = (Created event, with_event s event)
  /\ reachable (with_event s event).
Proof.
  intros s env event.
  assert (Hf : fresh_event_id s env).
  { apply fresh_event_id_dec. vm_compute. reflexivity. }
  destruct (create_event_stores_capacity s env "college-1" "Quiz" "Fest"
              Missing 300 400 (-5) Hf) as [H _].
  destruct (H eq_refl) as [H1 [_ [_ H2]]].
  split; [exact H1|exact (H2 (reachable_scenario _))].
Defined.

(** ** Joins, groups, order and limit *)

Lemma join_in {A B} (on : A -> B -> bool) l r a b :
  In (a, b) (Sql.join on l r) <-> In a l /\ In b r /\ on a b = true.
Proof.
  unfold Sql.join. rewrite in_flat_map. split.
  - intros [a' [Ha H]]. apply in_map_iff in H. destruct H as [b' [E H]].
    injection E as <- <-. apply filter_In in H. tauto.
  - intros [Ha [Hb Hon]]. exists a. split; [exact Ha|].
    apply in_map. apply filter_In. now split.
Qed.

Section GroupByFacts.
Context {K : Type} (eqb : K -> K -> bool).
Hypothesis eqb_eq : forall a b, eqb a b = true <-> a = b.

Lemma bump_keys (k : K) (acc : list (K * Z)) (k' : K) :
  In k' (map fst (Sql.bump eqb k acc)) <-> k' = k \/ In k' (map fst acc).
Proof.
  induction acc as [|[k0 n] acc IH]; simpl.
  - intuition.
  - destruct (eqb k k0) eqn:E; simpl.
    + apply eqb_eq in E. subst k0. intuition.
    + rewrite IH. intuition.
Qed.

Lemma bump_positive (k : K) (acc : list (K * Z)) :
  Forall (fun kn => 1 <= snd kn) acc ->
  Forall (fun kn => 1 <= snd kn) (Sql.bump eqb k acc).
Proof.
  induction acc as [|[k0 n] acc IH]; simpl; intros H.
  - constructor; [simpl; lia|constructor].
  - inversion H as [|? ? Hn Hacc]; subst. simpl in Hn.
    destruct (eqb k k0); constructor; simpl; auto; lia.
Qed.

Lemma bump_NoDup (k : K) (acc : list (K * Z)) :
  NoDup (map fst acc) -> NoDup (map fst (Sql.bump eqb k acc)).
Proof.
  induction acc as [|[k0 n] acc IH]; simpl; intros H.
  - constructor; [intros []|constructor].
  - inversion H as [|? ? Hk0 Hacc]; subst.
    destruct (eqb k k0) eqn:E; simpl.
    + now constructor.
    + constructor; [|now apply IH].
      rewrite bump_keys. intros [->|Hin]; [|contradiction].
      assert (eqb k k = true) by now apply eqb_eq. congruence.
Qed.

Lemma fold_bump (keys : list K) :
  forall acc,
    Forall (fun kn => 1 <= snd kn) acc -> NoDup (map fst acc) ->
    let groups := fold_left (fun acc k => Sql.bump eqb k acc) keys acc in
    Forall (fun kn => 1 <= snd kn) groups
    /\ NoDup (map fst groups)
    /\ forall k, In k (map fst groups) <-> In k keys \/ In k (map fst acc).
Proof.
  induction keys as [|k keys IH]; intros acc Hpos Hnd; simpl.
  - intuition.
  - destruct (IH (Sql.bump eqb k acc) (bump_positive k acc Hpos)
                (bump_NoDup k acc Hnd)) as [H1 [H2 H3]].
    split; [exact H1|split; [exact H2|]].
    intros k'. rewrite H3, bump_keys. intuition.
Qed.

Lemma bump_in (k0 : K) (acc : list (K * Z)) (k : K) (n : Z) :
  NoDup (map fst acc) ->
  In (k, n) (Sql.bump eqb k0 acc) ->
  (k <> k0 /\ In (k, n) acc)
  \/ (k = k0 /\ ((exists m, In (k0, m) acc /\ n = m + 1)
                 \/ (~ In k0 (map fst acc) /\ n = 1))).
Proof.
  induction acc as [|[k1 n1] acc IH]; simpl; intros Hnd Hin.
  - destruct Hin as [E|[]]. injection E as <- <-. right. split; auto.
  - inversion Hnd as [|? ? Hk1 Hacc]; subst.
    destruct (eqb k0 k1) eqn:E.
    + apply eqb_eq in E. subst k1. destruct Hin as [E|Hin].
      * injection E as <- <-. right. split; [reflexivity|].
        left. exists n1. split; [now left|reflexivity].
      * left. split; [|now right].
        intros ->. apply Hk1. apply in_map_iff. now exists (k0, n).
    + assert (Hne : k0 <> k1).
      { intros ->. assert (eqb k1 k1 = true) by now apply eqb_eq.
        congruence. }
      destruct Hin as [E'|Hin].
      * injection E' as <- <-. left. split; [congruence|now left].
      * destruct (IH Hacc Hin) as [[H1 H2]|[-> [[m [H1 H2]]|[H1 H2]]]].
        -- left. split; [exact H1|now right].
        -- right. split; [reflexivity|]. left. exists m.
           split; [now right|exact H2].
        -- right. split; [reflexivity|]. right. split; [|exact H2].
           intros [H|H]; [congruence|contradiction].
Qed.

(** The number of keys equal to [k]. *)
Lemma fold_bump_count (keys : list K) :
  forall acc seen,
    NoDup (map fst acc) ->
    (forall k, In k (map fst acc) <-> In k seen) ->
    (forall k n, In (k, n) acc ->
                 n = Query.count (fun k' => eqb k' k) seen) ->
    forall k n,
      In (k, n) (fold_left (fun acc k => Sql.bump eqb k acc) keys acc) ->
      n = Query.count (fun k' => eqb k' k) (seen ++ keys)%list.
Proof.
  induction keys as [|k0 keys IH]; intros acc seen Hnd Hkeys Hcount k n Hin.
  - simpl in Hin. rewrite app_nil_r. now apply Hcount.
  - simpl in Hin.
    replace (seen ++ k0 :: keys)%list with ((seen ++ [k0]) ++ keys)%list
      by (rewrite <- app_assoc; reflexivity).
    apply (IH (Sql.bump eqb k0 acc) (seen ++ [k0])%list); try exact Hin.
    + now apply bump_NoDup.
    + intros k'. rewrite bump_keys, in_app_iff, Hkeys. simpl. intuition.
    + intros k' n' Hin'. rewrite count_app, count_single.
      destruct (bump_in k0 acc k' n' Hnd Hin')
        as [[H1 H2]|[-> [[m [H1 H2]]|[H1 H2]]]].
      * replace (eqb k0 k') with false.
        -- rewrite (Hcount k' n' H2). lia.
        -- symmetry. apply not_true_iff_false. rewrite eqb_eq. congruence.
      * replace (eqb k0 k0) with true by (symmetry; now apply eqb_eq).
        rewrite H2, (Hcount k0 m H1). reflexivity.
      * replace (eqb k0 k0) with true by (symmetry; now apply eqb_eq).
        assert (H0 : Query.count (fun k' => eqb k' k0) seen = 0).
        { apply count_zero_iff. intros x Hx.
          apply not_true_iff_false. rewrite eqb_eq. intros ->.
          apply H1. now apply Hkeys. }
        rewrite H0, H2. reflexivity.
Qed.

Lemma group_count_count (keys : list K) (k : K) (n : Z) :
  In (k, n) (Sql.group_count eqb keys) ->
  n = Query.count (fun k' => eqb k' k) keys.
Proof.
  intros H.
  apply (fold_bump_count keys [] [] (NoDup_nil _)) in H; auto.
  - intros k'. simpl. tauto.
  - intros k' n' [].
Qed.

(** One group per distinct key, each with a count of at least one. *)
Lemma group_count_spec (keys : list K) :
  Forall (fun kn => 1 <= snd kn) (Sql.group_count eqb keys)
  /\ NoDup (map fst (Sql.group_count eqb keys))
  /\ forall k, In k (map fst (Sql.group_count eqb keys)) <-> In k keys.
Proof.
  destruct (fold_bump keys [] (Forall_nil _) (NoDup_nil _))
    as [H1 [H2 H3]].
  split; [exact H1|split; [exact H2|]].
  intros k. unfold Sql.group_count. rewrite H3. simpl. intuition.
Qed.
End GroupByFacts.

Section OrderByFacts.
Context {A : Type} (f : A -> Z).

Lemma insert_desc_perm (x : A) (l : list A) :
  Permutation (x :: l) (Sql.insert_desc f x l).
Proof.
  induction l as [|y l IH]; simpl; [reflexivity|].
  destruct (f x >=? f y); [reflexivity|].
  rewrite perm_swap. now constructor.
Qed.

Lemma order_by_desc_perm (l : list A) :
  Permutation l (Sql.order_by_desc f l).
Proof.
  induction l as [|x l IH]; simpl; [constructor|].
  rewrite <- insert_desc_perm. now constructor.
Qed.

Lemma insert_desc_sorted (x : A) (l : list A) :
  StronglySorted (desc f) l -> StronglySorted (desc f) (Sql.insert_desc f x l).
Proof.
  induction l as [|y l IH]; simpl; intros H.
  - repeat constructor.
  - inversion H as [|? ? Hl Hy]; subst.
    destruct (f x >=? f y) eqn:E.
    + apply Z.geb_le in E. constructor; [exact H|].
      constructor; [exact E|].
      eapply Forall_impl; [|exact Hy]. unfold desc. intros z Hz. lia.
    + constructor; [now apply IH|].
      eapply Permutation_Forall; [apply insert_desc_perm|].
      constructor; [|exact Hy].
      unfold desc. apply not_true_iff_false in E. rewrite Z.geb_le in E.
      lia.
Qed.

Lemma order_by_desc_sorted (l : list A) :
  StronglySorted (desc f) (Sql.order_by_desc f l).
Proof.
  induction l as [|x l IH]; simpl; [constructor|].
  now apply insert_desc_sorted.
Qed.
End OrderByFacts.

(** ** The order of strings *)

Lemma ascii_compare_trans (a b c : Ascii.ascii) (o : comparison) :
  Ascii.compare a b = o -> Ascii.compare b c = o -> Ascii.compare a c = o.
Proof.
  unfold Ascii.compare. destruct o; intros H1 H2.
  - apply N.compare_eq_iff in H1, H2. apply N.compare_eq_iff. congruence.
  - rewrite N.compare_lt_iff in *. lia.
  - rewrite N.compare_gt_iff in *. lia.
Qed.

Lemma string_leb_trans (a b c : string) :
  (a <=? b)%string = true -> (b <=? c)%string = true ->
  (a <=? c)%string = true.
Proof.
  unfold String.leb. revert b c.
  induction a as [|x a IH]; intros [|y b] [|z c]; simpl; try congruence.
  destruct (Ascii.compare x y) eqn:E1; try discriminate;
    destruct (Ascii.compare y z) eqn:E2; try discriminate; intros H1 H2.
  - rewrite (ascii_compare_trans x y z Eq E1 E2). now apply (IH b c).
  - apply Ascii.compare_eq_iff in E1. subst y. now rewrite E2.
  - apply Ascii.compare_eq_iff in E2. subst z. now rewrite E1.
  - now rewrite (ascii_compare_trans x y z Lt E1 E2).
Qed.

Section IndexOrderFacts.
Context {A : Type} (key : A -> string).

Lemma insert_asc_perm (x : A) (l : list A) :
  Permutation (x :: l) (Sql.insert_asc key x l).
Proof.
  induction l as [|y l IH]; simpl; [reflexivity|].
  destruct (key x <=? key y)%string; [reflexivity|].
  rewrite perm_swap. now constructor.
Qed.

Lemma index_order_perm (l : list A) :
  Permutation l (Sql.index_order key l).
Proof.
  induction l as [|x l IH]; simpl; [constructor|].
  rewrite <- insert_asc_perm. now constructor.
Qed.

Lemma insert_asc_sorted (x : A) (l : list A) :
  StronglySorted (asc key) l ->
  StronglySorted (asc key) (Sql.insert_asc key x l).
Proof.
  induction l as [|y l IH]; simpl; intros H.
  - repeat constructor.
  - inversion H as [|? ? Hl Hy]; subst.
    destruct (key x <=? key y)%string eqn:E.
    + constructor; [exact H|]. constructor; [exact E|].
      eapply Forall_impl; [|exact Hy]. unfold asc. intros z Hz.
      now apply (string_leb_trans _ (key y)).
    + constructor; [now apply IH|].
      eapply Permutation_Forall; [apply insert_asc_perm|].
      constructor; [|exact Hy]. unfold asc.
      destruct (String.leb_total (key x) (key y)); congruence.
Qed.

Lemma index_order_sorted (l : list A) :
  StronglySorted (asc key) (Sql.index_order key l).
Proof.
  induction l as [|x l IH]; simpl; [constructor|].
  now apply insert_asc_sorted.
Qed.

Lemma index_order_length (l : list A) :
  List.length (Sql.index_order key l) = List.length l.
Proof.
  symmetry. apply Permutation_length, index_order_perm.
Qed.

(** Without equal keys the order is strict. *)
Lemma sorted_strictly (l : list A) :
  StronglySorted (asc key) l -> NoDup (map key l) ->
  StronglySorted (strictly_asc key) l.
Proof.
  induction 1 as [|x l Hl IH Hx]; simpl; intros Hnd; [constructor|].
  inversion Hnd as [|? ? Hin Hnd']; subst.
  constructor; [now apply IH|].
  rewrite Forall_forall in *. intros y Hy. split; [now apply Hx|].
  intros E. apply Hin. rewrite E. now apply in_map.
Qed.
End IndexOrderFacts.

Section StableOrder.
Context {A : Type} (f : A -> Z) (key : A -> string).


End StableOrder.

Section IndexedGroups.
Context {K : Type} (eqb : K -> K -> bool) (id : K * Z -> string).
Hypothesis eqb_eq : forall a b, eqb a b = true <-> a = b.

(** The groups, in index order: one per distinct key, each with the number
    of rows of its key, which is at least one. *)
Lemma indexed_groups_spec (keys : list K) :
  let groups := Sql.index_order id (Sql.group_count eqb keys) in
  Forall (fun kn => 1 <= snd kn) groups
  /\ NoDup (map fst groups)
  /\ (forall k, In k (map fst groups) <-> In k keys)
  /\ (forall k n, In (k, n) groups ->
                  n = Query.count (fun k' => eqb k' k) keys).
Proof.
  intros groups.
  pose proof (index_order_perm id (Sql.group_count eqb keys)) as Hperm.
  fold groups in Hperm.
  destruct (group_count_spec eqb eqb_eq keys) as [H1 [H2 H3]].
  split; [|split; [|split]].
  - exact (Permutation_Forall Hperm H1).
  - exact (Permutation_NoDup (Permutation_map fst Hperm) H2).
  - intros k. rewrite <- H3. split; apply Permutation_in;
      [apply Permutation_sym|]; apply Permutation_map, Hperm.
  - intros k n Hin. apply (group_count_count eqb eqb_eq).
    exact (Permutation_in _ (Permutation_sym Hperm) Hin).
Qed.
End IndexedGroups.




Lemma popularity_key_eqb_eq (a b : popularity_key) :
  popularity_key_eqb a b = true <-> a = b.
Proof.
  destruct a as [[[i t] ty] c], b as [[[i' t'] ty'] c'].
  unfold popularity_key_eqb.
  rewrite !andb_true_iff, !String.eqb_eq, Z.eqb_eq. split.
  - intros [[[-> ->] ->] ->]. reflexivity.
  - intros E. injection E as -> -> -> ->. tauto.
Qed.

Lemma count_positive {A} (p : A -> bool) (l : list A) (x : A) :
  In x l -> p x = true -> 1 <= Query.count p l.
Proof.
  intros Hx Hp. pose proof (count_nonneg p l) as H0.
  destruct (Z.eq_dec (Query.count p l) 0) as [E|E]; [|lia].
  rewrite (proj1 (count_zero_iff p l) E x Hx) in Hp. discriminate.
Qed.

Lemma count_filter {A} (p q : A -> bool) (l : list A) :
  Query.count p (filter q l) = Query.count (fun x => q x && p x) l.
Proof.
  unfold Query.count. f_equal. f_equal.
  induction l as [|a l IH]; simpl; [reflexivity|].
  destruct (q a); simpl; [destruct (p a)|]; now rewrite IH.
Qed.

Lemma count_ext {A} (p q : A -> bool) (l : list A) :
  (forall x, p x = q x) -> Query.count p l = Query.count q l.
Proof.
  intros H. unfold Query.count. now rewrite (filter_ext p q H).
Qed.

Lemma NoDup_of_counts {A} (key : A -> string) (l : list A) :
  (forall k, Query.count (fun a => (key a =? k)%string) l <= 1) ->
  NoDup (map key l).
Proof.
  induction l as [|a l IH]; intros H; simpl; constructor.
  - intros Hin. apply in_map_iff in Hin. destruct Hin as [b [E Hb]].
    specialize (H (key a)).
    change (a :: l) with ([a] ++ l)%list in H.
    rewrite count_app, count_single, String.eqb_refl in H.
    assert (1 <= Query.count (fun x => (key x =? key a)%string) l).
    { apply (count_positive _ _ b Hb). now apply String.eqb_eq. }
    lia.
  - apply IH. intros k. specialize (H k).
    change (a :: l) with ([a] ++ l)%list in H.
    rewrite count_app in H.
    pose proof (count_nonneg (fun x => (key x =? k)%string) [a]). lia.
Qed.

(** ** top_active_students *)




(** ** event_popularity *)

Lemma event_popularity_join s college_id er :
  In er
    (match college_id with
     | Some c =>
         if truthy_str college_id
         then filter (fun er => (Event.college_id (fst er) =? c)%string)
                (Sql.join
                   (fun e r => (Event.id e =? Registration.event_id r)%string)
                   (events s) (registrations s))
         else Sql.join
                (fun e r => (Event.id e =? Registration.event_id r)%string)
                (events s) (registrations s)
     | None =>
         Sql.join
           (fun e r => (Event.id e =? Registration.event_id r)%string)
           (events s) (registrations s)
     end) ->
  In (fst er) (events s) /\ In (snd er) (registrations s)
  /\ Registration.event_id (snd er) = Event.id (fst er).
Proof.
  destruct er as [e r]. simpl.
  assert (Hjoin : In (e, r)
                    (Sql.join
                       (fun e r =>
                          (Event.id e =? Registration.event_id r)%string)
                       (events s) (registrations s)) ->
                  In e (events s) /\ In r (registrations s)
                  /\ Registration.event_id r = Event.id e).
  { intros H. apply join_in in H. destruct H as [He [Hr E]].
    apply String.eqb_eq in E. auto. }
  destruct college_id as [c|]; [destruct (truthy_str (Some c))|]; auto.
  intros H. apply filter_In in H. now apply Hjoin.
Qed.

(** C5, on the code.  The report is built on the inner join of events and
    registrations: every row belongs to an event that has a Registration, so
    an event nobody has registered for, in the store or not, has no row. *)
Theorem event_popularity_omits_unregistered (s : Store)
    (college_id : option string) (e : Event.t) :
  registration_count s (Event.id e) = 0 ->
  exists rows,
    event_popularity s college_id = OK rows
    /\ forall row, In row rows -> pr_event_id row <> Event.id e.
Proof.
  intros Hzero. unfold event_popularity.
  set (query := match college_id with Some c => _ | None => _ end).
  set (keys := map (fun er => event_key (fst er)) query).
  eexists. split; [reflexivity|].
  intros row Hrow Hid. apply in_map_iff in Hrow.
  destruct Hrow as [[[[[i t] ty] c] n] [<- Hin]]. simpl in Hid. subst i.
  apply (Permutation_in _ (Permutation_sym (order_by_desc_perm snd _))) in Hin.
  destruct (indexed_groups_spec popularity_key_eqb popularity_group_id
              popularity_key_eqb_eq keys) as [_ [_ [Hkeys _]]].
  assert (Hk : In (Event.id e, t, ty, c) keys).
  { apply Hkeys. apply in_map_iff. now exists ((Event.id e, t, ty, c), n). }
  apply in_map_iff in Hk. destruct Hk as [er [E Her]].
  apply event_popularity_join in Her. destruct Her as [_ [Hr Hre]].
  unfold event_key in E. injection E as E _ _ _.
  assert (Hp : Query.reg_of_event (Event.id e) (snd er) = true).
  { unfold Query.reg_of_event. apply String.eqb_eq. congruence. }
  pose proof (count_positive _ _ _ Hr Hp) as H1.
  unfold registration_count in Hzero. lia.
Qed.

(** The only event of the store has no row. *)
Lemma event_popularity_omits_unregistered_witness :
  let s := Scenario.nobody_registered in
  let e :=
    Event.mk "event-1" "college-1" "Hackathon" (Some "") "Workshop" 100 200 30
      "active" 2 in
  In e (events s)
  /\ exists rows,
       event_popularity s None = OK rows
       /\ forall row, In row rows -> pr_event_id row <> "event-1".
Proof.
  intros s e. split; [left; reflexivity|].
  apply (event_popularity_omits_unregistered s None e). reflexivity.
Defined.

Example event_popularity_nobody_registered :
  events Scenario.nobody_registered
  = [Event.mk "event-1" "college-1" "Hackathon" (Some "") "Workshop" 100 200 30
       "active" 2]
  /\ event_popularity Scenario.nobody_registered None = OK [].
Proof. split; reflexivity. Qed.

(** ** event_attendance *)

(** ** Facts of floats *)

Lemma round_half_even_bounds (x : Q) (lo hi : Z) :
  (inject_Z lo <= x)%Q -> (x <= inject_Z hi)%Q ->
  lo <= round_half_even x <= hi.
Proof.
  intros Hlo Hhi. unfold round_half_even. cbv zeta.
  pose proof (Qfloor_le x) as Hf. pose proof (Qlt_floor x) as Hf'.
  assert (L : lo <= Qfloor x).
  { assert (H : (inject_Z lo < inject_Z (Qfloor x + 1))%Q)
      by (eapply Qle_lt_trans; eauto).
    rewrite <- Zlt_Qlt in H. lia. }
  assert (U : Qfloor x <= hi).
  { rewrite Zle_Qle. eapply Qle_trans; eauto. }
  destruct (Z.eq_dec (Qfloor x) hi) as [E|E].
  - assert (Hlt : (x - inject_Z (Qfloor x) < 1 # 2)%Q).
    { rewrite E. apply (Qle_lt_trans _ 0); [|reflexivity].
      unfold Qminus. rewrite <- (Qplus_opp_r (inject_Z hi)).
      apply Qplus_le_compat; [exact Hhi|apply Qle_refl]. }
    replace (x - inject_Z (Qfloor x) ?= 1 # 2)%Q with Lt
      by (symmetry; apply Qlt_alt; exact Hlt).
    lia.
  - destruct (_ ?= _)%Q; [destruct (Z.even _)| |]; lia.
Qed.

Lemma pow2_pos (e : Z) : (0 < 2 ^ e)%Q.
Proof. now apply Qpower_0_lt. Qed.

(** For [e <= 0] the integers are multiples of [2^e]. *)
Lemma scale_integer (n e : Z) :
  e <= 0 -> (inject_Z n / 2 ^ e == inject_Z (n * 2 ^ (- e)))%Q.
Proof.
  intros He. rewrite inject_Z_mult, Zpower_Qpower by lia.
  change (inject_Z 2) with 2%Q. rewrite Qpower_opp.
  unfold Qdiv. reflexivity.
Qed.

Lemma round_at_bounds (e : Z) (x : Q) (lo hi : Z) :
  e <= 0 -> (inject_Z lo <= x)%Q -> (x <= inject_Z hi)%Q ->
  (inject_Z lo <= round_at e x)%Q /\ (round_at e x <= inject_Z hi)%Q.
Proof.
  intros He Hlo Hhi. pose proof (pow2_pos e) as Hp.
  assert (Hinv : (0 <= / 2 ^ e)%Q) by (apply Qinv_le_0_compat, Qlt_le_weak, Hp).
  destruct (round_half_even_bounds (x / 2 ^ e) (lo * 2 ^ (- e))
              (hi * 2 ^ (- e))) as [L U].
  - rewrite <- scale_integer by exact He.
    apply Qmult_le_compat_r; [exact Hlo|exact Hinv].
  - rewrite <- scale_integer by exact He.
    apply Qmult_le_compat_r; [exact Hhi|exact Hinv].
  - unfold round_at. rewrite Qred_correct.
    rewrite Zle_Qle in L, U. rewrite <- !scale_integer in L, U by exact He.
    assert (Hn : ~ (2 ^ e == 0)%Q)
      by (intros E; rewrite E in Hp; exact (Qlt_irrefl 0 Hp)).
    split.
    + rewrite <- (Qmult_div_r (inject_Z lo) (2 ^ e) Hn), Qmult_comm.
      apply Qmult_le_compat_r; [exact L|apply Qlt_le_weak, Hp].
    + rewrite <- (Qmult_div_r (inject_Z hi) (2 ^ e) Hn).
      rewrite (Qmult_comm (2 ^ e)).
      apply Qmult_le_compat_r; [exact U|apply Qlt_le_weak, Hp].
Qed.

Lemma ilog2_small (x : Q) (hi : Z) :
  hi < 2 ^ 53 -> (x <= inject_Z hi)%Q -> ilog2 x <= 52.
Proof.
  intros Hhi Hx. unfold ilog2. destruct (Qle_bool 1 x) eqn:E.
  - apply Qle_bool_iff in E.
    assert (H1 : 1 <= Qfloor x).
    { change 1 with (Qfloor (inject_Z 1)). now apply Qfloor_resp_le. }
    assert (H2 : Qfloor x <= hi).
    { rewrite <- (Qfloor_Z hi). now apply Qfloor_resp_le. }
    assert (H3 : Z.log2 (Qfloor x) < 53) by (apply Z.log2_lt_pow2; lia).
    lia.
  - pose proof (Z.log2_up_nonneg (Qceiling (/ x))). lia.
Qed.

(** Rounding to binary64 does not leave an interval of integers below
    2^53. *)
Lemma double_bounds (x : Q) (lo hi : Z) :
  0 <= lo -> hi < 2 ^ 53 ->
  (inject_Z lo <= x)%Q -> (x <= inject_Z hi)%Q ->
  (inject_Z lo <= double x)%Q /\ (double x <= inject_Z hi)%Q.
Proof.
  intros H0 Hhi Hlo Hx. unfold double.
  destruct (Qeq_bool x 0) eqn:E.
  - apply Qeq_bool_iff in E. rewrite E in Hlo, Hx. now split.
  - apply round_at_bounds; [|exact Hlo|exact Hx].
    assert (Ha : (Qabs x <= inject_Z hi)%Q).
    { rewrite Qabs_pos; [exact Hx|].
      apply (Qle_trans _ (inject_Z lo)); [|exact Hlo].
      change 0%Q with (inject_Z 0). now rewrite <- Zle_Qle. }
    pose proof (ilog2_small _ _ Hhi Ha). lia.
Qed.

Lemma round2_bounds (x : Q) (lo hi : Z) :
  0 <= lo -> hi < 2 ^ 53 ->
  (inject_Z lo <= x)%Q -> (x <= inject_Z hi)%Q ->
  (inject_Z lo <= round2 x)%Q /\ (round2 x <= inject_Z hi)%Q.
Proof.
  intros H0 Hh Hlo Hhi.
  assert (H100 : (0 <= 100)%Q) by discriminate.
  destruct (round_half_even_bounds (x * 100) (lo * 100) (hi * 100))
    as [L U].
  - rewrite inject_Z_mult. now apply Qmult_le_compat_r.
  - rewrite inject_Z_mult. now apply Qmult_le_compat_r.
  - unfold round2. apply double_bounds; [exact H0|exact Hh| |].
    + apply Qle_shift_div_l; [reflexivity|].
      change 100%Q with (inject_Z 100). rewrite <- inject_Z_mult.
      now rewrite <- Zle_Qle.
    + apply Qle_shift_div_r; [reflexivity|].
      change 100%Q with (inject_Z 100). rewrite <- inject_Z_mult.
      now rewrite <- Zle_Qle.
Qed.

(** A share of a positive whole, as a percentage. *)
Lemma percentage_bounds (a r : Z) :
  0 <= a <= r -> 0 < r ->
  (inject_Z 0 <= percentage a r)%Q /\ (percentage a r <= inject_Z 100)%Q.
Proof.
  intros Ha Hr.
  assert (Hr' : (0 < inject_Z r)%Q).
  { change 0%Q with (inject_Z 0). now rewrite <- Zlt_Qlt. }
  assert (H100 : (0 <= 100)%Q) by discriminate.
  destruct (double_bounds (inject_Z a / inject_Z r) 0 1) as [L U];
    try lia.
  - apply Qle_shift_div_l; [exact Hr'|]. rewrite Qmult_0_l.
    change 0%Q with (inject_Z 0). rewrite <- Zle_Qle. lia.
  - apply Qle_shift_div_r; [exact Hr'|]. rewrite Qmult_1_l.
    rewrite <- Zle_Qle. lia.
  - unfold percentage. apply double_bounds; try lia.
    + change (inject_Z 0) with (0 * 100)%Q.
      apply Qmult_le_compat_r; auto.
    + change (inject_Z 100) with (1 * 100)%Q.
      apply Qmult_le_compat_r; auto.
Qed.

(** Integers below 2^53 are binary64 numbers. *)
Lemma double_integer (n : Z) :
  0 <= n < 2 ^ 53 ->
  (inject_Z n <= double (inject_Z n))%Q
  /\ (double (inject_Z n) <= inject_Z n)%Q.
Proof.
  intros Hn. apply double_bounds; try lia; apply Qle_refl.
Qed.

Lemma mean_bounds (sum n lo hi : Z) :
  0 < n < 2 ^ 53 -> 0 <= sum < 2 ^ 53 -> 0 <= lo -> hi < 2 ^ 53 ->
  lo * n <= sum <= hi * n ->
  (inject_Z lo <= mean sum n)%Q /\ (mean sum n <= inject_Z hi)%Q.
Proof.
  intros Hn Hsum Hlo Hhi Hs.
  destruct (double_integer n) as [N1 N2]; [lia|].
  destruct (double_integer sum) as [S1 S2]; [lia|].
  assert (Hhi0 : 0 <= hi) by nia.
  assert (Hn' : (0 < double (inject_Z n))%Q).
  { apply (Qlt_le_trans _ (inject_Z n)); [|exact N1].
    change 0%Q with (inject_Z 0). rewrite <- Zlt_Qlt. lia. }
  unfold mean. apply double_bounds; try lia.
  - apply Qle_shift_div_l; [exact Hn'|].
    apply (Qle_trans _ (inject_Z lo * inject_Z n)).
    + rewrite !(Qmult_comm (inject_Z lo)). apply Qmult_le_compat_r.
      * exact N2.
      * change 0%Q with (inject_Z 0). now rewrite <- Zle_Qle.
    + apply (Qle_trans _ (inject_Z sum)); [|exact S1].
      rewrite <- inject_Z_mult, <- Zle_Qle. lia.
  - apply Qle_shift_div_r; [exact Hn'|].
    apply (Qle_trans _ (inject_Z hi * inject_Z n)).
    + apply (Qle_trans _ (inject_Z sum)); [exact S2|].
      rewrite <- inject_Z_mult, <- Zle_Qle. lia.
    + rewrite !(Qmult_comm (inject_Z hi)). apply Qmult_le_compat_r.
      * exact N1.
      * change 0%Q with (inject_Z 0). now rewrite <- Zle_Qle.
Qed.

(** Some values: 0.1 and 1/3 as floats; [round(2.675, 2)] is 2.67,
    [round(1.005, 2)] is 1.0 and [round(0.125, 2)] is 0.12; 23 of 160 is
    14.37 percent, not 14.38, and a mean of 43 / 40 is 1.07. *)
Example round2_through_floats :
  double (1 # 10) = (3602879701896397 # 36028797018963968)%Q
  /\ double (1 # 3) = (6004799503160661 # 18014398509481984)%Q
  /\ round2 (double (2675 # 1000)) = double (267 # 100)
  /\ round2 (double (1005 # 1000)) = 1%Q
  /\ round2 (1 # 8) = double (12 # 100)
  /\ round2 (percentage 23 160) = double (1437 # 100)
  /\ round2 (mean 43 40) = double (107 # 100)
  /\ round2 (percentage 1 3) = double (3333 # 100).
Proof. vm_compute. repeat split. Qed.

Lemma sum_at_least_length (l : list Z) :
  (forall x, In x l -> 1 <= x) ->
  Z.of_nat (List.length l) <= fold_right Z.add 0 l.
Proof.
  induction l as [|x l IH]; intros H; [simpl; lia|].
  cbn [List.length fold_right].
  pose proof (H x (or_introl eq_refl)).
  assert (Z.of_nat (List.length l) <= fold_right Z.add 0 l).
  { apply IH. intros y Hy. apply H. now right. }
  lia.
Qed.

Lemma sum_at_most (l : list Z) (hi : Z) :
  (forall x, In x l -> x <= hi) ->
  fold_right Z.add 0 l <= hi * Z.of_nat (List.length l).
Proof.
  induction l as [|x l IH]; intros H; [simpl; lia|].
  cbn [List.length fold_right].
  pose proof (H x (or_introl eq_refl)).
  assert (fold_right Z.add 0 l <= hi * Z.of_nat (List.length l)).
  { apply IH. intros y Hy. apply H. now right. }
  lia.
Qed.

Lemma ratings_length s eid :
  feedback_count s eid = Z.of_nat (List.length (ratings s eid)).
Proof.
  unfold feedback_count, Query.count, ratings. now rewrite length_map.
Qed.

Lemma avg_ratings s eid :
  0 < feedback_count s eid ->
  Sql.avg (ratings s eid)
  = Some (mean (rating_sum s eid) (feedback_count s eid)).
Proof.
  intros Hpos. pose proof (ratings_length s eid) as Hlen.
  unfold Sql.avg, mean. fold (rating_sum s eid). rewrite <- Hlen.
  destruct (ratings s eid); [simpl in Hlen; lia|reflexivity].
Qed.

Lemma rating_sum_bounds s eid :
  store_inv s ->
  1 * feedback_count s eid <= rating_sum s eid <= 5 * feedback_count s eid.
Proof.
  intros Hinv. rewrite (ratings_length s eid).
  assert (Hr : forall x, In x (ratings s eid) -> 1 <= x <= 5).
  { intros x Hx. apply in_map_iff in Hx. destruct Hx as [f [<- Hf]].
    apply filter_In in Hf. apply (inv_rating s Hinv f), Hf. }
  unfold rating_sum. split.
  - pose proof (sum_at_least_length (ratings s eid)
                  (fun x Hx => proj1 (Hr x Hx))). lia.
  - apply sum_at_most. intros x Hx. apply (Hr x Hx).
Qed.

(** The mean of ratings between 1 and 5 lies between 1 and 5. *)
Lemma mean_rating_bounds s eid :
  store_inv s -> 0 < feedback_count s eid -> rating_sum s eid < 2 ^ 53 ->
  (inject_Z 1 <= mean (rating_sum s eid) (feedback_count s eid))%Q
  /\ (mean (rating_sum s eid) (feedback_count s eid) <= inject_Z 5)%Q.
Proof.
  intros Hinv Hpos Hsum. pose proof (rating_sum_bounds s eid Hinv) as Hb.
  apply mean_bounds; lia.
Qed.

Lemma mean_rating_not_zero s eid :
  store_inv s -> 0 < feedback_count s eid -> rating_sum s eid < 2 ^ 53 ->
  Qeq_bool (mean (rating_sum s eid) (feedback_count s eid)) 0 = false.
Proof.
  intros Hinv Hpos Hsum.
  destruct (mean_rating_bounds s eid Hinv Hpos Hsum) as [H1 _].
  destruct (Qeq_bool _ 0) eqn:E; [|reflexivity].
  apply Qeq_bool_iff in E. rewrite E in H1. exfalso. apply H1.
  reflexivity.
Qed.

(** One attendance out of three registrations is reported as 33.33. *)
Lemma event_attendance_percentage_rounded :
  ~ (forall s event_id report,
       reachable s -> event_attendance s event_id = OK report ->
       0 < ar_registration_count report ->
       (ar_attendance_percentage report
        == inject_Z (ar_attendance_count report)
           / inject_Z (ar_registration_count report) * 100)%Q).
Proof.
  intros H.
  destruct (event_attendance Scenario.one_of_three "event-1")
    as [report| |] eqn:E; try (vm_compute in E; discriminate).
  specialize (H Scenario.one_of_three "event-1" report
                (reachable_scenario _) E).
  vm_compute in E. injection E as <-. vm_compute in H.
  specialize (H eq_refl). discriminate.
Qed.

(** C6, amended.  eventAttendance fails with NotFoundError exactly when the
    event is absent.  Otherwise it returns the event, its registration
    count r, its attendance count a, its feedback count, the attendance
    percentage, and the average rating.  The percentage is 0 when r = 0,
    and else the float a / r * 100 rounded to 2 decimals the way Python's
    round does.  The average rating is null without feedback; in a
    reachable store with feedback (and a sum of ratings below 2^53, which
    a float holds exactly) it is the float mean of the ratings, rounded the
    same way.  After the example scenario the report reads 2 registrations,
    1 attendance, 50 percent, average 5, 1 feedback. *)
Theorem event_attendance_report (s : Store) (event_id : string) :
  (event_attendance s event_id = Fail NotFoundError
   <-> Query.get_event s event_id = None)
  /\ (forall event,
        Query.get_event s event_id = Some event ->
        exists report,
          event_attendance s event_id = OK report
          /\ ar_event report = event
          /\ ar_registration_count report = registration_count s event_id
          /\ ar_attendance_count report = attendance_count s event_id
          /\ ar_feedback_count report = feedback_count s event_id
          /\ (0 < registration_count s event_id ->
              ar_attendance_percentage report
              = round2 (percentage (attendance_count s event_id)
                          (registration_count s event_id)))
          /\ (registration_count s event_id = 0 ->
              (ar_attendance_percentage report == 0)%Q)
          /\ (feedback_count s event_id = 0 ->
              ar_average_rating report = None)
          /\ (reachable s -> 0 < feedback_count s event_id ->
              rating_sum s event_id < 2 ^ 53 ->
              ar_average_rating report
              = Some (round2 (mean (rating_sum s event_id)
                                (feedback_count s event_id)))))
  /\ (exists report,
        event_attendance Scenario.after_example "event-1" = OK report
        /\ ar_registration_count report = 2
        /\ ar_attendance_count report = 1
        /\ (ar_attendance_percentage report == 50)%Q
        /\ (exists rating,
               ar_average_rating report = Some rating /\ (rating == 5)%Q)
        /\ ar_feedback_count report = 1).
Proof.
  split; [|split].
  - unfold event_attendance.
    destruct (Query.get_event s event_id); split; intros H;
      try reflexivity; discriminate.
  - intros event He. unfold event_attendance. rewrite He.
    fold (registration_count s event_id) (attendance_count s event_id)
      (feedback_count s event_id) (ratings s event_id).
    eexists. split; [reflexivity|]. cbn [ar_event ar_registration_count
      ar_attendance_count ar_feedback_count ar_attendance_percentage
      ar_average_rating].
    repeat (split; [reflexivity|]).
    split; [|split; [|split]].
    + intros Hr. apply Z.gtb_lt in Hr. now rewrite Hr.
    + intros Hr. rewrite Hr. vm_compute. reflexivity.
    + intros Hf.
      assert (E : ratings s event_id = []).
      { unfold feedback_count, Query.count in Hf. unfold ratings.
        destruct (filter _ (feedbacks s)); [reflexivity|simpl in Hf; lia]. }
      now rewrite E.
    + intros Hreach Hf Hsum.
      rewrite (avg_ratings s event_id Hf).
      now rewrite (mean_rating_not_zero s event_id
                     (reachable_inv s Hreach) Hf Hsum).
  - eexists. split; [vm_compute; reflexivity|].
    cbn [ar_event ar_registration_count ar_attendance_count
      ar_feedback_count ar_attendance_percentage ar_average_rating].
    repeat split. eexists. split; reflexivity.
Qed.

(** One attendance out of three registrations, no feedback. *)
Lemma event_attendance_report_witness :
  let s := Scenario.one_of_three in
  exists report,
    event_attendance s "event-1" = OK report
    /\ ar_attendance_percentage report = round2 (percentage 1 3)
    /\ ar_average_rating report = None.
Proof.
  intros s.
  destruct (event_attendance_report s "event-1") as [_ [H _]].
  destruct (H (Event.mk "event-1" "college-1" "Hackathon" (Some "")
                 "Workshop" 100 200 3 "active" 2) eq_refl)
    as [report [H1 [_ [_ [_ [_ [H2 [_ [H3 _]]]]]]]]].
  exists report. split; [exact H1|split].
  - apply H2. reflexivity.
  - apply H3. reflexivity.
Defined.

(** ** student_participation *)

Lemma load_all_total {A B} (f : A -> option B) (l : list A) :
  (forall x, In x l -> exists y, f x = Some y) ->
  exists ys, load_all f l = Some ys /\ Forall2 (fun x y => f x = Some y) l ys.
Proof.
  induction l as [|x l IH]; intros H; simpl.
  - exists []. split; [reflexivity|constructor].
  - destruct (H x (or_introl eq_refl)) as [y Hy].
    destruct IH as [ys [E F]]; [intros z Hz; apply H; now right|].
    rewrite Hy, E. exists (y :: ys). split; [reflexivity|now constructor].
Qed.

Lemma Forall2_len {A B} (R : A -> B -> Prop) (l : list A) (l' : list B) :
  Forall2 R l l' -> len l' = len l.
Proof.
  intros H. unfold len. now rewrite (Forall2_length H).
Qed.

Lemma event_of_registration s r :
  store_inv s -> In r (registrations s) ->
  exists e, Query.get_event s (Registration.event_id r) = Some e.
Proof.
  intros Hinv Hr. destruct (inv_reg_event s Hinv r Hr) as [e [He Hid]].
  destruct (Query.get_event s (Registration.event_id r)) as [e'|] eqn:E;
    [now exists e'|].
  exfalso. exact (proj1 (get_event_none _ _) E e He Hid).
Qed.

Lemma event_of_attendance s a :
  store_inv s -> In a (attendances s) ->
  exists e, Query.get_event s (Attendance.event_id a) = Some e.
Proof.
  intros Hinv Ha. destruct (inv_att_reg s Hinv a Ha) as [r [Hr [_ E]]].
  rewrite <- E. now apply event_of_registration.
Qed.

Lemma event_of_feedback s f :
  store_inv s -> In f (feedbacks s) ->
  exists e, Query.get_event s (Feedback.event_id f) = Some e.
Proof.
  intros Hinv Hf. destruct (inv_fb_att s Hinv f Hf) as [a [Ha [_ E]]].
  rewrite <- E. now apply event_of_attendance.
Qed.

(** Without a Registration a student has no Attendance and no Feedback. *)
Lemma never_registered s sid :
  store_inv s ->
  Query.count (Query.reg_of_student sid) (registrations s) = 0 ->
  Query.count (Query.att_of_student sid) (attendances s) = 0
  /\ Query.count (Query.fb_of_student sid) (feedbacks s) = 0.
Proof.
  intros Hinv H0.
  assert (Ha : forall a, In a (attendances s) ->
                         Query.att_of_student sid a = false).
  { intros a Ha. destruct (Query.att_of_student sid a) eqn:E; [|reflexivity].
    apply String.eqb_eq in E.
    destruct (inv_att_reg s Hinv a Ha) as [r [Hr [Hs _]]].
    pose proof (proj1 (count_zero_iff _ _) H0 r Hr) as Hp.
    unfold Query.reg_of_student in Hp. apply String.eqb_neq in Hp.
    congruence. }
  split; [now apply count_zero_iff|].
  apply count_zero_iff. intros f Hf.
  destruct (Query.fb_of_student sid f) eqn:E; [|reflexivity].
  apply String.eqb_eq in E.
  destruct (inv_fb_att s Hinv f Hf) as [a [Hin [Hs _]]].
  pose proof (Ha a Hin) as Hp. unfold Query.att_of_student in Hp.
  apply String.eqb_neq in Hp. congruence.
Qed.

(** One event attended out of three registered is reported as 33.33. *)
Lemma student_participation_rate_rounded :
  ~ (forall s student_id report,
       reachable s -> student_participation s student_id = OK report ->
       0 < sp_events_registered report ->
       (sp_attendance_rate report
        == inject_Z (sp_events_attended report)
           / inject_Z (sp_events_registered report) * 100)%Q).
Proof.
  intros H.
  destruct (student_participation Scenario.three_events "student-A")
    as [report| |] eqn:E; try (vm_compute in E; discriminate).
  specialize (H Scenario.three_events "student-A" report
                (reachable_scenario _) E).
  vm_compute in E. injection E as <-. vm_compute in H.
  specialize (H eq_refl). discriminate.
Qed.

Lemma student_rows_NoDup s sid :
  store_inv s ->
  NoDup (map Registration.event_id
           (filter (Query.reg_of_student sid) (registrations s)))
  /\ NoDup (map Attendance.event_id
              (filter (Query.att_of_student sid) (attendances s)))
  /\ NoDup (map Feedback.event_id
              (filter (Query.fb_of_student sid) (feedbacks s))).
Proof.
  intros Hinv. split; [|split]; apply NoDup_of_counts; intros k;
    rewrite count_filter.
  - apply (inv_reg_unique s Hinv sid k).
  - apply (inv_att_unique s Hinv sid k).
  - apply (inv_fb_unique s Hinv sid k).
Qed.

(** The rows of an index without equal keys. *)
Lemma index_order_rows {A} (key : A -> string) (l : list A) :
  NoDup (map key l) ->
  Permutation (Sql.index_order key l) l
  /\ StronglySorted (strictly_asc key) (Sql.index_order key l)
  /\ len (Sql.index_order key l) = len l.
Proof.
  intros Hnd. pose proof (index_order_perm key l) as Hperm.
  split; [now apply Permutation_sym|split].
  - apply sorted_strictly; [apply index_order_sorted|].
    exact (Permutation_NoDup (Permutation_map key Hperm) Hnd).
  - unfold len. now rewrite index_order_length.
Qed.

(** C7, amended.  In a reachable store studentParticipation fails with
    NotFoundError exactly when the student is absent.  Otherwise it returns
    the student, the events of the student's Registrations, the events of
    the student's Attendances, one entry (event title, rating, comment,
    submission time) per Feedback of the student, the three counts, and the
    attendance rate: the float attended / registered * 100 rounded to 2
    decimals the way Python's round does.  Each of the three lists follows
    its rows in increasing order of their event ids, whatever the order
    they were stored in.  For a student without Registrations the rate is 0
    and the three lists are empty. *)
Theorem student_participation_report (s : Store) (student_id : string) :
  reachable s ->
  (student_participation s student_id = Fail NotFoundError
   <-> Query.get_student s student_id = None)
  /\ (forall student,
        Query.get_student s student_id = Some student ->
        let registered :=
          Query.count (Query.reg_of_student student_id) (registrations s) in
        let attended :=
          Query.count (Query.att_of_student student_id) (attendances s) in
        exists report regs atts fbs,
          student_participation s student_id = OK report
          /\ sp_student report = student
          /\ Permutation regs
               (filter (Query.reg_of_student student_id) (registrations s))
          /\ StronglySorted (strictly_asc Registration.event_id) regs
          /\ Forall2
               (fun reg e =>
                  Query.get_event s (Registration.event_id reg) = Some e)
               regs (sp_registered_events report)
          /\ Permutation atts
               (filter (Query.att_of_student student_id) (attendances s))
          /\ StronglySorted (strictly_asc Attendance.event_id) atts
          /\ Forall2
               (fun att e =>
                  Query.get_event s (Attendance.event_id att) = Some e)
               atts (sp_attended_events report)
          /\ Permutation fbs
               (filter (Query.fb_of_student student_id) (feedbacks s))
          /\ StronglySorted (strictly_asc Feedback.event_id) fbs
          /\ Forall2
               (fun fb entry =>
                  exists e,
                    Query.get_event s (Feedback.event_id fb) = Some e
                    /\ entry = mkFeedbackEntry (Event.title e)
                                 (Feedback.rating fb) (Feedback.comment fb)
                                 (Feedback.submitted_at fb))
               fbs (sp_feedbacks report)
          /\ sp_events_registered report = registered
          /\ sp_events_attended report = attended
          /\ sp_feedbacks_given report
             = Query.count (Query.fb_of_student student_id) (feedbacks s)
          /\ (0 < registered ->
              sp_attendance_rate report
              = round2 (percentage attended registered))
          /\ (registered = 0 ->
              sp_attendance_rate report = 0%Q
              /\ sp_registered_events report = []
              /\ sp_attended_events report = []
              /\ sp_feedbacks report = [])).
Proof.
  intros Hreach. pose proof (reachable_inv s Hreach) as Hinv.
  set (regs := Sql.index_order Registration.event_id
                 (filter (Query.reg_of_student student_id)
                    (registrations s))).
  set (atts := Sql.index_order Attendance.event_id
                 (filter (Query.att_of_student student_id) (attendances s))).
  set (fbs := Sql.index_order Feedback.event_id
                (filter (Query.fb_of_student student_id) (feedbacks s))).
  destruct (student_rows_NoDup s student_id Hinv) as [N1 [N2 N3]].
  destruct (index_order_rows Registration.event_id _ N1) as [P1 [S1 L1]].
  destruct (index_order_rows Attendance.event_id _ N2) as [P2 [S2 L2]].
  destruct (index_order_rows Feedback.event_id _ N3) as [P3 [S3 L3]].
  fold regs in P1, S1, L1. fold atts in P2, S2, L2.
  fold fbs in P3, S3, L3.
  assert (Hok : forall student,
             Query.get_student s student_id = Some student ->
             exists es ea ef,
               student_participation s student_id
               = OK (mkParticipationReport student (len es) (len ea)
                       (match es with
                        | [] => 0%Q
                        | _ => round2 (percentage (len ea) (len es))
                        end)
                       (len ef) es ea ef)
               /\ Forall2
                    (fun reg e =>
                       Query.get_event s (Registration.event_id reg) = Some e)
                    regs es
               /\ Forall2
                    (fun att e =>
                       Query.get_event s (Attendance.event_id att) = Some e)
                    atts ea
               /\ Forall2
                    (fun fb entry =>
                       match
                         Query.get_event s (Feedback.event_id fb)
                       with
                       | Some event =>
                           Some (mkFeedbackEntry (Event.title event)
                                   (Feedback.rating fb) (Feedback.comment fb)
                                   (Feedback.submitted_at fb))
                       | None => None
                       end = Some entry)
                    fbs ef).
  { intros student Hs. unfold student_participation. rewrite Hs.
    fold regs atts fbs.
    destruct (load_all_total
                (fun reg => Query.get_event s (Registration.event_id reg))
                regs) as [es [E1 F1]].
    { intros r Hr. apply (Permutation_in _ P1) in Hr.
      apply filter_In in Hr. now apply event_of_registration. }
    destruct (load_all_total
                (fun att => Query.get_event s (Attendance.event_id att))
                atts) as [ea [E2 F2]].
    { intros a Ha. apply (Permutation_in _ P2) in Ha.
      apply filter_In in Ha. now apply event_of_attendance. }
    destruct (load_all_total
                (fun feedback =>
                   match
                     Query.get_event s (Feedback.event_id feedback)
                   with
                   | Some event =>
                       Some (mkFeedbackEntry (Event.title event)
                               (Feedback.rating feedback)
                               (Feedback.comment feedback)
                               (Feedback.submitted_at feedback))
                   | None => None
                   end)
                fbs) as [ef [E3 F3]].
    { intros f Hf. apply (Permutation_in _ P3) in Hf.
      apply filter_In in Hf.
      destruct (event_of_feedback s f Hinv (proj1 Hf)) as [e ->]. eauto. }
    rewrite E1, E2, E3. exists es, ea, ef. auto. }
  split.
  - split.
    + intros H. destruct (Query.get_student s student_id) as [x|] eqn:E;
        [|reflexivity].
      destruct (Hok x eq_refl) as [? [? [? [H' _]]]]. congruence.
    + intros H. unfold student_participation. now rewrite H.
  - intros student Hs registered attended.
    destruct (Hok student Hs) as [es [ea [ef [E [F1 [F2 F3]]]]]].
    eexists. exists regs, atts, fbs. split; [exact E|].
    cbn [sp_student sp_events_registered sp_events_attended
      sp_attendance_rate sp_feedbacks_given sp_registered_events
      sp_attended_events sp_feedbacks].
    pose proof (Forall2_len _ _ _ F1) as K1.
    pose proof (Forall2_len _ _ _ F2) as K2.
    pose proof (Forall2_len _ _ _ F3) as K3.
    rewrite L1 in K1. rewrite L2 in K2. rewrite L3 in K3.
    split; [reflexivity|].
    split; [exact P1|]. split; [exact S1|]. split; [exact F1|].
    split; [exact P2|]. split; [exact S2|]. split; [exact F2|].
    split; [exact P3|]. split; [exact S3|].
    split.
    { eapply Forall2_impl; [|exact F3]. intros fb entry H. simpl in H.
      destruct (Query.get_event s (Feedback.event_id fb)) as [e|];
        [|discriminate].
      exists e. split; [reflexivity|]. congruence. }
    split; [exact K1|]. split; [exact K2|]. split; [exact K3|].
    split.
    + intros Hpos. rewrite K1, K2. destruct es; [|reflexivity].
      unfold registered, Query.count in Hpos. unfold len in K1.
      simpl in K1. lia.
    + intros Hzero.
      destruct (never_registered s student_id Hinv Hzero) as [Ha Hf].
      unfold registered in Hzero. unfold Query.count in Hzero, Ha, Hf.
      fold (len (filter (Query.reg_of_student student_id)
                   (registrations s))) in Hzero.
      fold (len (filter (Query.att_of_student student_id)
                   (attendances s))) in Ha.
      fold (len (filter (Query.fb_of_student student_id)
                   (feedbacks s))) in Hf.
      rewrite Hzero in K1. rewrite Ha in K2. rewrite Hf in K3.
      destruct es; [|unfold len in K1; simpl in K1; lia].
      destruct ea; [|unfold len in K2; simpl in K2; lia].
      destruct ef; [|unfold len in K3; simpl in K3; lia].
      auto.
Qed.

(** Student A registered for three events and attended one. *)
Lemma student_participation_report_witness :
  let s := Scenario.three_events in
  exists report,
    student_participation s "student-A" = OK report
    /\ sp_events_registered report = 3
    /\ sp_events_attended report = 1
    /\ sp_attendance_rate report = round2 (percentage 1 3).
Proof.
  intros s.
  destruct (student_participation_report s "student-A"
              (reachable_scenario _)) as [_ H].
  destruct (H (Student.mk "student-A" "college-1" "A" "a@u1.edu" 5) eq_refl)
    as [report [regs [atts [fbs [H1 [_ [_ [_ [_ [_ [_ [_ [_ [_ [_
          [H2 [H3 [_ [H4 _]]]]]]]]]]]]]]]]]]].
  exists report. split; [exact H1|]. split; [exact H2|]. split; [exact H3|].
  apply H4. reflexivity.
Defined.

(** The Registration for event-2 is stored first, the report lists
    event-1 first. *)
Example student_participation_by_event_id :
  map Registration.event_id (registrations Scenario.second_event_first)
  = ["event-2"; "event-1"]
  /\ exists report,
       student_participation Scenario.second_event_first "student-A"
       = OK report
       /\ map Event.id (sp_registered_events report)
          = ["event-1"; "event-2"].
Proof.
  split; [reflexivity|]. eexists. split; [vm_compute; reflexivity|].
  reflexivity.
Qed.

(** ** event_popularity on a reachable store

    What the report does return: one row per event that passes the college
    filter and has a Registration, with the event's fields and its
    Registration count, in descending order of that count. *)

Section PopularityCount.
Variable p : Event.t -> bool.
Variable e : Event.t.

Let keys_of (query : list (Event.t * Registration.t)) : list popularity_key :=
  map (fun er => event_key (fst er)) (filter (fun er => p (fst er)) query).

Let occurrences (query : list (Event.t * Registration.t)) : Z :=
  Query.count (fun k => popularity_key_eqb k (event_key e)) (keys_of query).

Lemma pairs_count (a : Event.t) (rs : list Registration.t) :
  occurrences (map (pair a) rs)
  = if p a && popularity_key_eqb (event_key a) (event_key e)
    then len rs else 0.
Proof.
  unfold occurrences, keys_of, Query.count, len.
  destruct (p a) eqn:Ep;
    destruct (popularity_key_eqb (event_key a) (event_key e)) eqn:Ek;
    cbn [andb];
    (induction rs as [|r rs IH]; [reflexivity|]);
    cbn [map filter fst List.length]; rewrite Ep;
    cbn [map filter fst List.length]; rewrite ?Ek;
    cbn [List.length]; lia.
Qed.

Lemma join_cons on (a : Event.t) (l : list Event.t) regs :
  occurrences (Sql.join on (a :: l) regs)
  = occurrences (map (pair a) (filter (on a) regs))
    + occurrences (Sql.join on l regs).
Proof.
  unfold occurrences, keys_of, Sql.join. simpl.
  now rewrite filter_app, map_app, count_app.
Qed.

Lemma join_count_other on (l : list Event.t) regs :
  (forall a, In a l -> Event.id a <> Event.id e) ->
  occurrences (Sql.join on l regs) = 0.
Proof.
  induction l as [|a l IH]; intros H; [reflexivity|].
  rewrite join_cons, pairs_count, IH by (intros x Hx; apply H; now right).
  replace (popularity_key_eqb (event_key a) (event_key e)) with false.
  - now rewrite andb_false_r.
  - symmetry. apply not_true_iff_false. rewrite popularity_key_eqb_eq.
    intros E. apply (H a (or_introl eq_refl)).
    unfold event_key in E. congruence.
Qed.

Lemma join_count on (l : list Event.t) regs :
  NoDup (map Event.id l) -> In e l ->
  occurrences (Sql.join on l regs)
  = if p e then len (filter (on e) regs) else 0.
Proof.
  induction l as [|a l IH]; intros Hnd Hin; [contradiction|].
  inversion Hnd as [|? ? Ha Hl]; subst.
  rewrite join_cons, pairs_count. destruct Hin as [->|Hin].
  - rewrite join_count_other.
    + replace (popularity_key_eqb (event_key e) (event_key e)) with true
        by (symmetry; now apply popularity_key_eqb_eq).
      rewrite andb_true_r. destruct (p e); lia.
    + intros x Hx E. apply Ha. rewrite <- E. now apply in_map.
  - rewrite (IH Hl Hin).
    replace (popularity_key_eqb (event_key a) (event_key e)) with false.
    + rewrite andb_false_r. lia.
    + symmetry. apply not_true_iff_false. rewrite popularity_key_eqb_eq.
      intros E. apply Ha. unfold event_key in E.
      replace (Event.id a) with (Event.id e) by congruence.
      now apply in_map.
Qed.
End PopularityCount.

Lemma StronglySorted_map {A B} (f : A -> B) (R : A -> A -> Prop)
    (R' : B -> B -> Prop) (l : list A) :
  (forall x y, R x y -> R' (f x) (f y)) ->
  StronglySorted R l -> StronglySorted R' (map f l).
Proof.
  intros H. induction 1 as [|x l Hl IH Hx]; simpl; constructor; auto.
  apply Forall_map. eapply Forall_impl; [|exact Hx]. intros y. apply H.
Qed.

Lemma event_popularity_rows (s : Store) (college_id : option string) :
  reachable s ->
  exists rows,
    event_popularity s college_id = OK rows
    /\ StronglySorted (desc pr_registration_count) rows
    /\ NoDup (map pr_event_id rows)
    /\ forall row,
         In row rows
         <-> exists e, In e (events s) /\ in_college college_id e
                       /\ 1 <= registration_count s (Event.id e)
                       /\ row = popularity_row s e.
Proof.
  intros Hreach. pose proof (reachable_inv s Hreach) as Hinv.
  pose proof (inv_event_ids s Hinv) as Hids.
  set (on := fun (e : Event.t) (r : Registration.t) =>
               (Event.id e =? Registration.event_id r)%string).
  set (p := fun e : Event.t =>
              match college_id with
              | Some c =>
                  if truthy_str college_id
                  then (Event.college_id e =? c)%string else true
              | None => true
              end).
  set (to_row := fun result : popularity_key * Z =>
                   let '((i, t, ty, c), n) := result in
                   mkPopularityRow i t ty c n).
  assert (Hp : forall e, p e = true <-> in_college college_id e).
  { intros e. unfold p, in_college. destruct college_id as [c|].
    - destruct (truthy_str (Some c)) eqn:Et.
      + rewrite String.eqb_eq. split.
        * intros H c' E _. congruence.
        * intros H. apply H; [reflexivity|].
          intros ->. discriminate.
      + split; [|reflexivity]. intros _ c' E Hc'. injection E as <-.
        rewrite (truthy_str_some c Hc') in Et. discriminate.
    - split; [discriminate|reflexivity]. }
  assert (Hquery :
            match college_id with
            | Some c =>
                if truthy_str college_id
                then filter (fun er => (Event.college_id (fst er) =? c)%string)
                       (Sql.join on (events s) (registrations s))
                else Sql.join on (events s) (registrations s)
            | None => Sql.join on (events s) (registrations s)
            end
            = filter (fun er => p (fst er))
                (Sql.join on (events s) (registrations s))).
  { unfold p. destruct college_id as [c|];
      [destruct (truthy_str (Some c))|]; try reflexivity;
      now rewrite filter_true. }
  set (keys := map (fun er => event_key (fst er))
                 (filter (fun er => p (fst er))
                    (Sql.join on (events s) (registrations s)))).
  set (groups := Sql.index_order popularity_group_id
                   (Sql.group_count popularity_key_eqb keys)).
  assert (Hrows : event_popularity s college_id
                  = OK (map to_row (Sql.order_by_desc snd groups))).
  { unfold event_popularity. fold on. now rewrite Hquery. }
  destruct (indexed_groups_spec popularity_key_eqb popularity_group_id
              popularity_key_eqb_eq keys) as [_ [Hnd [Hkeys Hcnt]]].
  fold groups in Hnd, Hkeys, Hcnt.
  assert (Hcount : forall e,
             In e (events s) ->
             Query.count (fun k => popularity_key_eqb k (event_key e)) keys
             = if p e then registration_count s (Event.id e) else 0).
  { intros e He. unfold keys.
    rewrite (join_count p e on (events s) (registrations s) Hids He).
    destruct (p e); [|reflexivity].
    unfold registration_count, Query.count, len. do 2 f_equal.
    apply filter_ext. intros r. unfold on, Query.reg_of_event.
    apply String.eqb_sym. }
  assert (Hkey : forall k,
             In k keys <->
             exists e, In e (events s) /\ p e = true
                       /\ 1 <= registration_count s (Event.id e)
                       /\ k = event_key e).
  { intros k. unfold keys. rewrite in_map_iff. split.
    - intros [[e r] [<- H]]. apply filter_In in H. destruct H as [H Hpe].
      apply join_in in H. destruct H as [He [Hr E]]. simpl in *.
      exists e. repeat split; auto.
      apply (count_positive _ _ r Hr). unfold Query.reg_of_event.
      unfold on in E. now rewrite String.eqb_sym.
    - intros [e [He [Hpe [Hc ->]]]].
      assert (Hex : exists r, In r (registrations s)
                              /\ Query.reg_of_event (Event.id e) r = true).
      { destruct (filter (Query.reg_of_event (Event.id e)) (registrations s))
          as [|r rs] eqn:E.
        - unfold registration_count, Query.count in Hc. rewrite E in Hc.
          simpl in Hc. lia.
        - exists r. apply filter_In. rewrite E. now left. }
      destruct Hex as [r [Hr E]]. exists (e, r). split; [reflexivity|].
      apply filter_In. split; [|exact Hpe]. apply join_in.
      repeat split; auto. unfold on. unfold Query.reg_of_event in E.
      now rewrite String.eqb_sym. }
  assert (Hgroup : forall k n,
             In (k, n) groups <->
             exists e, In e (events s) /\ p e = true
                       /\ 1 <= registration_count s (Event.id e)
                       /\ k = event_key e
                       /\ n = registration_count s (Event.id e)).
  { intros k n. split.
    - intros Hin.
      assert (Hk : In k keys).
      { apply Hkeys. apply in_map_iff. now exists (k, n). }
      apply Hkey in Hk. destruct Hk as [e [He [Hpe [Hc ->]]]].
      exists e. repeat split; auto.
      rewrite (Hcnt _ _ Hin), (Hcount e He), Hpe. reflexivity.
    - intros [e [He [Hpe [Hc [-> ->]]]]].
      assert (Hk : In (event_key e) (map fst groups)).
      { apply Hkeys, Hkey. exists e. auto. }
      apply in_map_iff in Hk. destruct Hk as [[k n] [E Hin]].
      simpl in E. subst k.
      rewrite (Hcnt _ _ Hin), (Hcount e He), Hpe in Hin.
      exact Hin. }
  pose proof (order_by_desc_perm snd groups) as Hperm.
  exists (map to_row (Sql.order_by_desc snd groups)).
  split; [exact Hrows|split; [|split]].
  - apply (StronglySorted_map to_row (desc snd)).
    + intros [[[[i t] ty] c] n] [[[[i' t'] ty'] c'] n']. auto.
    + apply order_by_desc_sorted.
  - rewrite map_map.
    apply (Permutation_NoDup (Permutation_map _ Hperm)).
    assert (E : map (fun x => pr_event_id (to_row x)) groups
                = map (fun k : popularity_key => fst (fst (fst k)))
                    (map fst groups)).
    { rewrite map_map. apply map_ext.
      now intros [[[[i t] ty] c] n]. }
    rewrite E. apply NoDup_map_NoDup_ForallPairs; [|exact Hnd].
    intros k k' Hk Hk' Eid. apply Hkeys, Hkey in Hk, Hk'.
    destruct Hk as [e1 [He1 [_ [_ ->]]]].
    destruct Hk' as [e2 [He2 [_ [_ ->]]]].
    simpl in Eid. f_equal.
    exact (NoDup_map_inj Event.id _ _ _ Hids He1 He2 Eid).
  - intros row. rewrite in_map_iff. split.
    + intros [[k n] [<- Hin]].
      apply (Permutation_in _ (Permutation_sym Hperm)) in Hin.
      apply Hgroup in Hin. destruct Hin as [e [He [Hpe [Hc [-> ->]]]]].
      exists e. repeat split; auto. now apply Hp.
    + intros [e [He [Hc [Hn ->]]]].
      exists (event_key e, registration_count s (Event.id e)).
      split; [reflexivity|]. apply (Permutation_in _ Hperm).
      apply Hgroup. exists e. repeat split; auto. now apply Hp.
Qed.


(** * Further properties of the handlers *)

(** ** Mutations are all or nothing, and only append *)

Lemma prefix_refl {A} (l : list A) : prefix l l.
Proof. exists []. now rewrite app_nil_r. Qed.

Lemma prefix_snoc {A} (l : list A) (x : A) : prefix l (l ++ [x]).
Proof. now exists [x]. Qed.

Lemma prefix_trans {A} (l1 l2 l3 : list A) :
  prefix l1 l2 -> prefix l2 l3 -> prefix l1 l3.
Proof.
  intros [r1 ->] [r2 ->]. exists (r1 ++ r2)%list. now rewrite app_assoc.
Qed.

Lemma prefix_find {A} (p : A -> bool) (l l' : list A) (x : A) :
  prefix l l' -> find p l = Some x -> find p l' = Some x.
Proof.
  intros [r ->] H. induction l as [|a l IH]; simpl in *; [discriminate|].
  destruct (p a); [exact H|now apply IH].
Qed.

Lemma prefix_in {A} (l l' : list A) (x : A) : prefix l l' -> In x l -> In x l'.
Proof. intros [r ->] H. apply in_app_iff. now left. Qed.

Lemma prefix_count {A} (p : A -> bool) (l l' : list A) :
  prefix l l' -> Query.count p l <= Query.count p l'.
Proof.
  intros [r ->]. rewrite count_app. pose proof (count_nonneg p r). lia.
Qed.

Lemma grows_refl s : grows s s.
Proof. repeat split; apply prefix_refl. Qed.

Lemma grows_trans s1 s2 s3 : grows s1 s2 -> grows s2 s3 -> grows s1 s3.
Proof.
  intros [A1 [A2 [A3 [A4 [A5 A6]]]]] [B1 [B2 [B3 [B4 [B5 B6]]]]].
  repeat split; eapply prefix_trans; eauto.
Qed.

Lemma len_snoc {A} (l : list A) (x : A) : len (l ++ [x]) = len l + 1.
Proof. unfold len. rewrite length_app. simpl. lia. Qed.

(** A commit of one row into one table. *)
Ltac one_row :=
  split;
  [ repeat split; simpl; try apply prefix_refl; apply prefix_snoc
  | unfold rows; simpl; rewrite len_snoc; lia ].

Ltac innermost_case :=
  match goal with
  | |- context [match ?x with _ => _ end] =>
      lazymatch x with
      | context [match _ with _ => _ end] => fail
      | _ => destruct x
      end
  end.

Ltac all_or_nothing_tac add :=
  unfold all_or_nothing, Session.commit, add;
  repeat (innermost_case; cbn [fst snd]);
  try reflexivity; one_row.

Lemma handler_outcomes (s : Store) (env : Env) :
  (forall name, all_or_nothing s (create_college s env name))
  /\ (forall c n e, all_or_nothing s (create_student s env c n e))
  /\ (forall data, all_or_nothing s (create_event s env data))
  /\ (forall eid sid, all_or_nothing s (register_for_event s env eid sid))
  /\ (forall eid sid m, all_or_nothing s (mark_attendance s env eid sid m))
  /\ (forall eid sid r c,
        all_or_nothing s (submit_feedback s env eid sid r c)).
Proof.
  split; [|split; [|split; [|split; [|split]]]]; intros.
  - unfold create_college. all_or_nothing_tac Session.add_college.
  - unfold create_student. all_or_nothing_tac Session.add_student.
  - unfold create_event. all_or_nothing_tac Session.add_event.
  - unfold register_for_event. all_or_nothing_tac Session.add_registration.
  - unfold mark_attendance. all_or_nothing_tac Session.add_attendance.
  - unfold submit_feedback. all_or_nothing_tac Session.add_feedback.
Qed.

(** X1.  Each of the six mutating handlers either answers an error and
    leaves every table as it was, or answers 201 and appends exactly one row
    to the store; none of them answers 200. *)
Theorem mutations_all_or_nothing (s : Store) (env : Env) :
  (forall name, all_or_nothing s (create_college s env name))
  /\ (forall c n e, all_or_nothing s (create_student s env c n e))
  /\ (forall data, all_or_nothing s (create_event s env data))
  /\ (forall eid sid, all_or_nothing s (register_for_event s env eid sid))
  /\ (forall eid sid m, all_or_nothing s (mark_attendance s env eid sid m))
  /\ (forall eid sid r c,
        all_or_nothing s (submit_feedback s env eid sid r c)).
Proof. exact (handler_outcomes s env). Qed.

Lemma all_or_nothing_grows {A} s (r : response A * Store) :
  all_or_nothing s r -> grows s (snd r) /\ rows s <= rows (snd r) <= rows s + 1.
Proof.
  unfold all_or_nothing. destruct (fst r).
  - contradiction.
  - intros [H1 H2]. split; [exact H1|lia].
  - intros ->. split; [apply grows_refl|lia].
Qed.

Lemma handle_grows s env req :
  grows s (handle s env req)
  /\ rows s <= rows (handle s env req) <= rows s + 1.
Proof.
  destruct (handler_outcomes s env) as [H1 [H2 [H3 [H4 [H5 H6]]]]].
  destruct req; simpl; apply all_or_nothing_grows; auto.
Qed.

Lemma run_grows script :
  forall s, grows s (run s script)
            /\ rows s <= rows (run s script) <= rows s + len script.
Proof.
  induction script as [|[env req] rest IH]; intros s; simpl.
  - split; [apply grows_refl|]. unfold len. simpl. lia.
  - destruct (handle_grows s env req) as [G1 B1].
    destruct (IH (handle s env req)) as [G2 B2].
    split; [eapply grows_trans; eauto|].
    unfold len in *. cbn [List.length]. lia.
Qed.

(** X2.  Nothing is ever undone: after any script of requests every table
    still starts with the rows it had, at most one row was added per
    request, every event and student is still found under its identifier,
    every Registration, Attendance and Feedback of a pair is still there,
    and no Registration count has gone down. *)
Theorem nothing_is_undone (s : Store) (script : list (Env * Request)) :
  let s' := run s script in
  grows s s'
  /\ rows s <= rows s' <= rows s + len script
  /\ (forall id e, Query.get_event s id = Some e ->
                   Query.get_event s' id = Some e)
  /\ (forall id x, Query.get_student s id = Some x ->
                   Query.get_student s' id = Some x)
  /\ (forall sid eid, registered s sid eid -> registered s' sid eid)
  /\ (forall sid eid, attended s sid eid -> attended s' sid eid)
  /\ (forall sid eid, gave_feedback s sid eid -> gave_feedback s' sid eid)
  /\ (forall eid, registration_count s eid <= registration_count s' eid).
Proof.
  intros s'. destruct (run_grows script s) as [G B].
  fold s' in G, B. destruct G as [G1 [G2 [G3 [G4 [G5 G6]]]]].
  split; [repeat split; assumption|]. split; [exact B|].
  split; [|split; [|split; [|split; [|split]]]].
  - intros id e. now apply prefix_find.
  - intros id x. now apply prefix_find.
  - intros sid eid [r [Hr H]]. exists r. split; [|exact H].
    now apply (prefix_in (registrations s)).
  - intros sid eid [a [Ha H]]. exists a. split; [|exact H].
    now apply (prefix_in (attendances s)).
  - intros sid eid [f [Hf H]]. exists f. split; [|exact H].
    now apply (prefix_in (feedbacks s)).
  - intros eid. now apply prefix_count.
Qed.

(** ** The happy path of the workflow *)

Lemma mark_attendance_created s env eid sid method :
  sid <> "" -> registered s sid eid -> ~ attended s sid eid ->
  fresh_attendance_id s env ->
  mark_attendance s env eid (Some sid) method
  = (Created (Attendance.mk (uuid4 env) sid eid (utcnow env)
                (match method with Some m => m | None => "manual" end)),
     with_attendance s
       (Attendance.mk (uuid4 env) sid eid (utcnow env)
          (match method with Some m => m | None => "manual" end))).
Proof.
  intros Hsid Hr Hn Hfresh. unfold mark_attendance.
  rewrite (truthy_str_some sid Hsid). simpl.
  destruct (first_reg_some s sid eid Hr) as [r ->].
  rewrite (first_att_none s sid eid Hn).
  apply commit_snd. now apply add_attendance_fresh.
Qed.


Lemma mark_attendance_conflict s env eid sid method :
  sid <> "" -> registered s sid eid -> attended s sid eid ->
  mark_attendance s env eid (Some sid) method = (Fail ConflictError, s).
Proof.
  intros Hsid Hr Ha. unfold mark_attendance.
  rewrite (truthy_str_some sid Hsid). simpl.
  destruct (first_reg_some s sid eid Hr) as [r ->].
  destruct (first_att_some s sid eid Ha) as [a ->]. reflexivity.
Qed.

(** X3.  markAttendance for a registered pair without Attendance, with a
    student id in the request and a fresh identifier, answers 201 and
    appends one Attendance that carries the method of the request, or
    "manual" when the request names none; the same request repeated then
    fails with ConflictError. *)
Theorem mark_attendance_records (s : Store) (env : Env) (eid sid : string)
    (method : option string) :
  sid <> "" -> registered s sid eid -> ~ attended s sid eid ->
  fresh_attendance_id s env ->
  let a :=
    Attendance.mk (uuid4 env) sid eid (utcnow env)
      (match method with Some m => m | None => "manual" end) in
  mark_attendance s env eid (Some sid) method
  = (Created a, with_attendance s a)
  /\ (method = None -> Attendance.method a = "manual")
  /\ Query.count (Query.att_pair sid eid)
       (attendances (with_attendance s a)) = 1
  /\ forall env' method',
       mark_attendance (with_attendance s a) env' eid (Some sid) method'
       = (Fail ConflictError, with_attendance s a).
Proof.
  intros Hsid Hr Hn Hfresh a.
  split; [now apply mark_attendance_created|].
  split; [intros ->; reflexivity|]. split.
  - simpl. rewrite count_app, count_single.
    assert (H0 : Query.count (Query.att_pair sid eid) (attendances s) = 0).
    { apply count_zero_iff. intros x Hx.
      destruct (Query.att_pair sid eid x) eqn:E; [|reflexivity].
      exfalso. apply Hn. exists x. apply att_pair_true in E. tauto. }
    rewrite H0. unfold Query.att_pair, a. simpl.
    now rewrite !String.eqb_refl.
  - intros env' method'. apply mark_attendance_conflict; auto.
    exists a. split; [|split; reflexivity]. simpl. apply in_snoc. now right.
Qed.

(** A registered student marks attendance by QR code. *)
Lemma mark_attendance_records_witness :
  let s := Scenario.full in
  let a := Attendance.mk "att-1" "student-B" "event-1" 9 "qr_code" in
  mark_attendance s (Scenario.at_ "att-1" 9) "event-1" (Some "student-B")
    (Some "qr_code")
  = (Created a, with_attendance s a).
Proof.
  intros s a.
  apply (mark_attendance_records s (Scenario.at_ "att-1" 9) "event-1"
           "student-B" (Some "qr_code")).
  - apply nonempty_dec. reflexivity.
  - eapply first_reg_some_inv. vm_compute. reflexivity.
  - apply first_att_none_inv. vm_compute. reflexivity.
  - apply fresh_attendance_id_dec. vm_compute. reflexivity.
Defined.



(** ** Creating colleges, students and events *)

Lemma add_college_fresh s c :
  (forall x, In x (colleges s) -> College.id x <> College.id c) ->
  Session.add_college s c = Some (with_college s c).
Proof.
  intros Hid. unfold Session.add_college.
  replace (existsb _ (colleges s)) with false; [reflexivity|].
  symmetry. apply not_true_is_false. intros H.
  apply existsb_exists in H. destruct H as [x [Hx H]].
  apply String.eqb_eq in H. exact (Hid x Hx H).
Qed.

Lemma add_student_fresh s x :
  (forall y, In y (students s) -> Student.id y <> Student.id x) ->
  ~ email_taken s (Student.email x) ->
  Session.add_student s x = Some (with_student s x).
Proof.
  intros Hid Hmail. unfold Session.add_student.
  replace (existsb _ (students s)) with false; [reflexivity|].
  symmetry. apply not_true_is_false. intros H.
  apply existsb_exists in H. destruct H as [y [Hy H]].
  apply orb_true_iff in H. destruct H as [H|H]; apply String.eqb_eq in H.
  - exact (Hid y Hy H).
  - apply Hmail. now exists y.
Qed.

Lemma first_email_none s email :
  ~ email_taken s email ->
  Query.first (fun x => (Student.email x =? email)%string) (students s)
  = None.
Proof.
  intros H. apply find_none_iff. intros x Hx.
  apply not_true_iff_false. rewrite String.eqb_eq. intros E.
  apply H. now exists x.
Qed.

Lemma first_email_some s email :
  email_taken s email ->
  exists x,
    Query.first (fun x => (Student.email x =? email)%string) (students s)
    = Some x.
Proof.
  intros [x [Hx E]]. apply find_some_ex. exists x. split; [exact Hx|].
  now apply String.eqb_eq.
Qed.

(** X5.  createCollege answers ValidationError for a missing or empty name
    and stores nothing; for any other name and a fresh identifier it answers
    201 with the new College, which GET /colleges then lists last, after
    the colleges that were there. *)
Theorem create_college_checks (s : Store) (env : Env) :
  create_college s env None = (Fail ValidationError, s)
  /\ create_college s env (Some "") = (Fail ValidationError, s)
  /\ forall name,
       name <> "" -> fresh_college_id s env ->
       let college := College.mk (uuid4 env) name (utcnow env) in
       create_college s env (Some name)
       = (Created college, with_college s college)
       /\ get_colleges (with_college s college)
          = OK (colleges s ++ [college])%list.
Proof.
  split; [reflexivity|]. split; [reflexivity|].
  intros name Hname Hfresh college. split; [|reflexivity].
  unfold create_college. rewrite (truthy_str_some name Hname). simpl.
  apply commit_snd. apply add_college_fresh. exact Hfresh.
Qed.

(** A second college. *)
Lemma create_college_checks_witness :
  let s := Scenario.prepared in
  let college := College.mk "college-2" "U2" 6 in
  create_college s (Scenario.at_ "college-2" 6) (Some "U2")
  = (Created college, with_college s college).
Proof.
  intros s college.
  destruct (create_college_checks s (Scenario.at_ "college-2" 6))
    as [_ [_ H]].
  apply (H "U2").
  - apply nonempty_dec. reflexivity.
  - intros c Hc E. vm_compute in Hc. destruct Hc as [<-|[]].
    vm_compute in E. discriminate.
Defined.

(** X6.  createStudent checks, in this order: a missing college_id, name
    or email key gives ValidationError; a null or unknown college gives
    NotFoundError; an email some student already uses gives ConflictError;
    a null name or email then fails at the commit, with 500; otherwise,
    with a fresh identifier, the Student is appended and returned.  Every
    error leaves the store as it was. *)
Theorem create_student_checks (s : Store) (env : Env)
    (college_id name email : field string) :
  (college_id = Missing \/ name = Missing \/ email = Missing ->
   create_student s env college_id name email = (Fail ValidationError, s))
  /\ (name <> Missing -> email <> Missing ->
      (college_id = Null
       \/ (exists c, college_id = Given c /\ Query.get_college s c = None) ->
       create_student s env college_id name email
       = (Fail NotFoundError, s))
      /\ (forall c college,
            college_id = Given c -> Query.get_college s c = Some college ->
            (forall e, email = Given e -> email_taken s e ->
                       create_student s env college_id name email
                       = (Fail ConflictError, s))
            /\ (name = Null \/ email = Null ->
                (forall e, email = Given e -> ~ email_taken s e) ->
                create_student s env college_id name email
                = (Fail InternalError, s))
            /\ (forall n e,
                  name = Given n -> email = Given e -> ~ email_taken s e ->
                  fresh_student_id s env ->
                  let student :=
                    Student.mk (uuid4 env) c n e (utcnow env) in
                  create_student s env college_id name email
                  = (Created student, with_student s student)))).
Proof.
  split.
  - intros H. unfold create_student.
    destruct college_id, name, email; try reflexivity;
      destruct H as [H|[H|H]]; discriminate.
  - intros Hn He. split.
    + intros H. unfold create_student.
      destruct name; [contradiction| |]; destruct email; try contradiction;
        destruct H as [->|[c [-> ->]]]; reflexivity.
    + intros c college -> Hc. split; [|split].
      * intros e -> Ht. unfold create_student. rewrite Hc.
        destruct name; [contradiction| |];
          (destruct (first_email_some s e Ht) as [x ->]; reflexivity).
      * intros Hnull Hfree. unfold create_student. rewrite Hc.
        destruct name as [| |n]; [contradiction| |];
          destruct email as [| |e]; try contradiction; simpl;
          try rewrite (first_email_none s e (Hfree e eq_refl));
          try reflexivity.
        destruct Hnull; discriminate.
      * intros n e -> -> Ht Hfresh student. unfold create_student.
        rewrite Hc. simpl. rewrite (first_email_none s e Ht).
        apply commit_snd. apply add_student_fresh; [exact Hfresh|exact Ht].
Qed.

(** The email of student A is taken, college-9 is unknown, and a null name
    fails at the commit. *)
Lemma create_student_checks_witness :
  let s := Scenario.prepared in
  create_student s (Scenario.at_ "student-D" 6) (Given "college-1")
    (Given "D") (Given "a@u1.edu")
  = (Fail ConflictError, s)
  /\ create_student s (Scenario.at_ "student-D" 6) (Given "college-9")
       (Given "D") (Given "d@u1.edu")
     = (Fail NotFoundError, s)
  /\ create_student s (Scenario.at_ "student-D" 6) (Given "college-1")
       Null (Given "d@u1.edu")
     = (Fail InternalError, s).
Proof.
  intros s.
  assert (N1 : Given "D" <> @Missing string) by discriminate.
  assert (N2 : forall e : string, Given e <> @Missing string)
    by discriminate.
  assert (N3 : @Null string <> Missing) by discriminate.
  destruct (create_student_checks s (Scenario.at_ "student-D" 6)
              (Given "college-1") (Given "D") (Given "a@u1.edu"))
    as [_ H1].
  destruct (H1 N1 (N2 _)) as [_ H1'].
  destruct (H1' "college-1" (College.mk "college-1" "U1" 1) eq_refl eq_refl)
    as [H1a _].
  destruct (create_student_checks s (Scenario.at_ "student-D" 6)
              (Given "college-9") (Given "D") (Given "d@u1.edu"))
    as [_ H2].
  destruct (H2 N1 (N2 _)) as [H2' _].
  destruct (create_student_checks s (Scenario.at_ "student-D" 6)
              (Given "college-1") Null (Given "d@u1.edu")) as [_ H3].
  destruct (H3 N3 (N2 _)) as [_ H3'].
  destruct (H3' "college-1" (College.mk "college-1" "U1" 1) eq_refl eq_refl)
    as [_ [H3b _]].
  split; [|split].
  - apply (H1a "a@u1.edu" eq_refl).
    eexists. split; [left; reflexivity|reflexivity].
  - apply H2'. right. exists "college-9". split; reflexivity.
  - apply H3b; [now left|]. intros e E. injection E as <-.
    intros [x [Hx Hm]]. vm_compute in Hx.
    destruct Hx as [<-|[<-|[<-|[]]]]; discriminate.
Defined.

Lemma parse_time_cases (f : field iso_string) :
  (exists t, f = Given (IsoDatetime t) /\ parse_time f = inl t)
  \/ (f = Given IsoInvalid /\ parse_time f = inr ValidationError)
  \/ ((f = Missing \/ f = Null \/ f = Given NotAString)
      /\ parse_time f = inr InternalError).
Proof.
  destruct f as [| |[t| |]]; simpl; eauto 6.
Qed.

(** X7.  createEvent answers ValidationError exactly when one of the six
    required keys is missing, or, with all of them there, when the start
    time is a string that does not parse, or the start time parses and the
    end time is a string that does not parse.  With all keys there, a null
    or non-string time, a null college, title, type or capacity, and a
    capacity that does not fit 64 bits all end in 500.  The description
    plays no part, and no error other than these two is ever answered: the
    college is not looked up. *)
Theorem create_event_validation (s : Store) (env : Env) (data : EventData) :
  (create_event s env data = (Fail ValidationError, s)
   <-> required_present data = false
       \/ (required_present data = true
           /\ (ed_start_time data = Given IsoInvalid
               \/ ((exists t, ed_start_time data = Given (IsoDatetime t))
                   /\ ed_end_time data = Given IsoInvalid))))
  /\ (required_present data = true ->
      ed_start_time data = Null \/ ed_start_time data = Given NotAString
      \/ ((exists t, ed_start_time data = Given (IsoDatetime t))
          /\ (ed_end_time data = Null \/ ed_end_time data = Given NotAString))
      \/ ((exists t, ed_start_time data = Given (IsoDatetime t))
          /\ (exists t, ed_end_time data = Given (IsoDatetime t))
          /\ (ed_college_id data = Null \/ ed_title data = Null
              \/ ed_event_type data = Null \/ ed_capacity data = Null
              \/ exists c, ed_capacity data = Given c
                           /\ int64 c = false)) ->
      create_event s env data = (Fail InternalError, s))
  /\ (forall err,
        fst (create_event s env data) = Fail err ->
        err = ValidationError \/ err = InternalError).
Proof.
  unfold create_event. fold (required_present data).
  destruct (required_present data) eqn:Ep; cbn [negb].
  2:{ split; [|split].
      - split; [now left|reflexivity].
      - discriminate.
      - intros err H. injection H as <-. now left. }
  assert (Hs : ed_start_time data <> Missing).
  { intros E. unfold required_present in Ep. rewrite E in Ep.
    cbn [provided] in Ep. rewrite !andb_false_r in Ep. discriminate. }
  assert (He : ed_end_time data <> Missing).
  { intros E. unfold required_present in Ep. rewrite E in Ep.
    cbn [provided] in Ep. rewrite !andb_false_r in Ep. discriminate. }
  destruct (parse_time_cases (ed_start_time data))
    as [[t1 [E1 ->]]|[[E1 ->]|[E1 ->]]].
  2:{ split; [|split].
      - split; [intros _; right; split; [reflexivity|now left]|reflexivity].
      - intros _ [H|[H|[[[t H] _]|[[t H] _]]]]; congruence.
      - intros err H. injection H as <-. now left. }
  2:{ split; [|split].
      - split; [discriminate|].
        intros [H|[_ [H|[[t H] _]]]];
          try discriminate; destruct E1 as [E1|[E1|E1]]; congruence.
      - reflexivity.
      - intros err H. injection H as <-. now right. }
  destruct (parse_time_cases (ed_end_time data))
    as [[t2 [E2 ->]]|[[E2 ->]|[E2 ->]]].
  2:{ split; [|split].
      - split; [|reflexivity]. intros _. right. split; [reflexivity|].
        right. split; [now exists t1|exact E2].
      - intros _ [H|[H|[[_ [H|H]]|[_ [[t H] _]]]]]; congruence.
      - intros err H. injection H as <-. now left. }
  2:{ split; [|split].
      - split; [discriminate|].
        intros [H|[_ [H|[_ H]]]];
          try discriminate; destruct E2 as [E2|[E2|E2]]; congruence.
      - reflexivity.
      - intros err H. injection H as <-. now right. }
  unfold Session.commit, Session.add_event.
  destruct (ed_college_id data) as [| |c] eqn:Ec,
    (ed_title data) as [| |ti] eqn:Et,
    (ed_event_type data) as [| |ty] eqn:Ety,
    (ed_capacity data) as [| |cap] eqn:Ecap;
    (split; [|split];
     [ split; [try (destruct (_ || _)); discriminate|];
       intros [H|[_ [H|[_ H]]]]; congruence
     | intros _ [H|[H|[[_ [H|H]]|[_ [_ H]]]]];
       try congruence; try reflexivity;
       destruct H as [H|[H|[H|[H|[c0 [H H']]]]]];
       try discriminate;
       injection H as <-; cbn [Event.capacity]; rewrite H', orb_true_r;
       reflexivity
     | intros err H; try (destruct (_ || _)); cbn [fst] in H;
       try discriminate; injection H as <-; tauto ]).
Qed.

(** A time that does not parse is answered 400, a null capacity 500. *)
Lemma create_event_validation_witness :
  let s := Scenario.prepared in
  let env := Scenario.at_ "event-2" 6 in
  let bad_time :=
    mkEventData (Given "college-1") (Given "Quiz") Missing (Given "Fest")
      (Given IsoInvalid) Null (Given 5) in
  let no_capacity :=
    mkEventData (Given "college-1") (Given "Quiz") Missing (Given "Fest")
      (Given (IsoDatetime 100)) (Given (IsoDatetime 200)) Null in
  create_event s env bad_time = (Fail ValidationError, s)
  /\ create_event s env no_capacity = (Fail InternalError, s).
Proof.
  intros s env bad_time no_capacity. split.
  - apply (create_event_validation s env bad_time). right.
    split; [reflexivity|]. left. reflexivity.
  - apply (create_event_validation s env no_capacity); [reflexivity|].
    right. right. right. split; [now exists 100|].
    split; [now exists 200|]. right. right. right. left. reflexivity.
Defined.

Lemma create_college_cases s env name :
  snd (create_college s env name) = s
  \/ exists n,
       n <> "" /\ fresh_college_id s env
       /\ snd (create_college s env name)
          = with_college s (College.mk (uuid4 env) n (utcnow env)).
Proof.
  unfold create_college. destruct name as [n|]; [|now left].
  destruct (truthy_str (Some n)) eqn:Et; [|now left]. simpl.
  unfold Session.add_college.
  destruct (existsb _ (colleges s)) eqn:E; [now left|].
  right. exists n. split; [|split; [|reflexivity]].
  - intros ->. discriminate.
  - intros c Hc Hid. apply not_true_iff_false in E. apply E.
    apply existsb_exists. exists c. split; [exact Hc|].
    now apply String.eqb_eq.
Qed.

Lemma create_student_cases s env college_id name email :
  snd (create_student s env college_id name email) = s
  \/ exists c n e college,
       Query.get_college s c = Some college
       /\ ~ email_taken s e /\ fresh_student_id s env
       /\ snd (create_student s env college_id name email)
          = with_student s (Student.mk (uuid4 env) c n e (utcnow env)).
Proof.
  unfold create_student.
  destruct college_id as [| |c], name as [| |n], email as [| |e];
    try (now left); cbn [provided andb negb];
    (destruct (Query.get_college s c) as [college|] eqn:Ec; [|now left]);
    try (destruct (Query.first _ (students s)) eqn:Ef);
    try (now left).
  unfold Session.commit, Session.add_student.
  destruct (existsb _ (students s)) eqn:E; [now left|].
  right. exists c, n, e, college. split; [exact Ec|].
  split; [|split; [|reflexivity]].
  - intros [x [Hx Hm]].
    pose proof (proj1 (find_none_iff _ _) Ef x Hx) as H.
    apply String.eqb_neq in H. contradiction.
  - intros x Hx Hid. apply not_true_iff_false in E. apply E.
    apply existsb_exists. exists x. split; [exact Hx|].
    apply orb_true_iff. left. now apply String.eqb_eq.
Qed.

Lemma directory_inv_empty : directory_inv empty_store.
Proof.
  constructor; simpl; try constructor; intros ? [].
Qed.

Lemma directory_inv_same s s' :
  directory_inv s -> colleges s' = colleges s -> students s' = students s ->
  directory_inv s'.
Proof.
  intros [H1 H2 H3 H4 H5] Ec Es.
  constructor; rewrite ?Ec, ?Es; auto.
Qed.

Lemma directory_inv_college s c :
  directory_inv s -> College.name c <> "" ->
  (forall x, In x (colleges s) -> College.id x <> College.id c) ->
  directory_inv (with_college s c).
Proof.
  intros [H1 H2 H3 H4 H5] Hname Hfresh. constructor; simpl; auto.
  - rewrite map_app. simpl. apply NoDup_snoc; [exact H1|].
    intros Hin. apply in_map_iff in Hin. destruct Hin as [x [Hx Hin]].
    exact (Hfresh x Hin Hx).
  - intros x Hx. apply in_snoc in Hx. destruct Hx as [Hx| ->]; auto.
  - intros x Hx. destruct (H5 x Hx) as [c' [Hc' E]].
    exists c'. split; [|exact E]. apply in_snoc. now left.
Qed.

Lemma directory_inv_student s x college :
  directory_inv s ->
  Query.get_college s (Student.college_id x) = Some college ->
  ~ email_taken s (Student.email x) ->
  (forall y, In y (students s) -> Student.id y <> Student.id x) ->
  directory_inv (with_student s x).
Proof.
  intros [H1 H2 H3 H4 H5] Hc Hmail Hfresh. constructor; simpl; auto.
  - rewrite map_app. simpl. apply NoDup_snoc; [exact H3|].
    intros Hin. apply in_map_iff in Hin. destruct Hin as [y [Hy Hin]].
    exact (Hfresh y Hin Hy).
  - rewrite map_app. simpl. apply NoDup_snoc; [exact H4|].
    intros Hin. apply in_map_iff in Hin. destruct Hin as [y [Hy Hin]].
    apply Hmail. now exists y.
  - intros y Hy. apply in_snoc in Hy. destruct Hy as [Hy| ->]; auto.
    apply find_some in Hc. destruct Hc as [Hin E].
    apply String.eqb_eq in E. now exists college.
Qed.

Lemma handle_directory_inv s env req :
  directory_inv s -> directory_inv (handle s env req).
Proof.
  intros Hinv. destruct req as [n|c n e|data|eid sid|eid sid m|eid sid r c];
    simpl.
  - destruct (create_college_cases s env n) as [->|[n' [Hn [Hf ->]]]]; auto.
    now apply directory_inv_college.
  - destruct (create_student_cases s env c n e)
      as [->|[c' [n' [e' [col [Hc [Hm [Hf ->]]]]]]]]; auto.
    now apply (directory_inv_student s _ col).
  - destruct (create_event_cases s env data) as [->|[e [_ [_ [_ ->]]]]]; auto.
    now apply (directory_inv_same s).
  - destruct (register_for_event_cases s env eid sid)
      as [->|[x [ev [st [_ [_ [_ [_ [_ ->]]]]]]]]]; auto.
    now apply (directory_inv_same s).
  - destruct (mark_attendance_cases s env eid sid m)
      as [->|[x [m' [_ [_ [_ ->]]]]]]; auto.
    now apply (directory_inv_same s).
  - destruct (submit_feedback_cases s env eid sid r c)
      as [->|[x [r' [c' [_ [_ [_ [_ ->]]]]]]]]; auto.
    now apply (directory_inv_same s).
Qed.

Lemma reachable_directory_inv s : reachable s -> directory_inv s.
Proof.
  induction 1 as [|s env req _ IH]; [exact directory_inv_empty|].
  now apply handle_directory_inv.
Qed.

(** X8.  In every reachable store identifiers are keys and emails are
    unique: no two colleges, students or events share an identifier, no two
    students share an email, every student belongs to a college of the
    store, and every college has a non-empty name. *)
Theorem reachable_keys (s : Store) :
  reachable s ->
  NoDup (map College.id (colleges s))
  /\ NoDup (map Student.id (students s))
  /\ NoDup (map Student.email (students s))
  /\ NoDup (map Event.id (events s))
  /\ (forall x, In x (students s) ->
                exists c, Query.get_college s (Student.college_id x) = Some c)
  /\ (forall c, In c (colleges s) -> College.name c <> "").
Proof.
  intros Hreach.
  destruct (reachable_directory_inv s Hreach) as [H1 H2 H3 H4 H5].
  repeat split; auto.
  - exact (inv_event_ids s (reachable_inv s Hreach)).
  - intros x Hx. destruct (H5 x Hx) as [c [Hc E]].
    destruct (Query.get_college s (Student.college_id x)) as [c'|] eqn:Eg;
      [now exists c'|].
    exfalso. pose proof (proj1 (find_none_iff _ _) Eg c Hc) as H.
    apply String.eqb_neq in H. contradiction.
Qed.

(** After the example scenario the three students have three emails. *)
Lemma reachable_keys_witness :
  NoDup (map Student.email (students Scenario.after_example)).
Proof.
  destruct (reachable_keys Scenario.after_example (reachable_scenario _))
    as [_ [_ [H _]]].
  exact H.
Defined.

(** X9.  In every reachable store the workflow order holds as a state
    invariant: a Feedback of a pair implies an Attendance of the pair, an
    Attendance implies a Registration, and a Registration implies that the
    student and the event exist; a pair has at most one Registration; and
    every stored rating lies in [1,5]. *)
Theorem reachable_workflow_integrity (s : Store) :
  reachable s ->
  (forall sid eid, gave_feedback s sid eid -> attended s sid eid)
  /\ (forall sid eid, attended s sid eid -> registered s sid eid)
  /\ (forall sid eid,
        registered s sid eid ->
        (exists x, Query.get_student s sid = Some x)
        /\ (exists e, Query.get_event s eid = Some e))
  /\ (forall sid eid,
        Query.count (Query.reg_pair sid eid) (registrations s) <= 1)
  /\ (forall f, In f (feedbacks s) -> 1 <= Feedback.rating f <= 5).
Proof.
  intros Hreach. pose proof (reachable_inv s Hreach) as Hinv.
  split; [|split; [|split; [|split]]].
  - intros sid eid [f [Hf [<- <-]]]. exact (inv_fb_att s Hinv f Hf).
  - intros sid eid [a [Ha [<- <-]]]. exact (inv_att_reg s Hinv a Ha).
  - intros sid eid [r [Hr [<- <-]]]. split.
    + destruct (inv_reg_student s Hinv r Hr) as [x [Hx E]].
      destruct (Query.get_student s (Registration.student_id r))
        as [x'|] eqn:Eg; [now exists x'|].
      exfalso. exact (proj1 (get_student_none _ _) Eg x Hx E).
    + now apply event_of_registration.
  - exact (inv_reg_unique s Hinv).
  - exact (inv_rating s Hinv).
Qed.

(** After the example scenario student A, who gave feedback, is found. *)
Lemma reachable_workflow_integrity_witness :
  exists x, Query.get_student Scenario.after_example "student-A" = Some x.
Proof.
  destruct (reachable_workflow_integrity Scenario.after_example
              (reachable_scenario _)) as [H1 [H2 [H3 _]]].
  apply (H3 "student-A" "event-1"). apply H2, H1.
  eapply first_fb_some_inv. vm_compute. reflexivity.
Defined.

(** ** Looking up what was created *)

Lemma find_snoc_new {A} (p : A -> bool) (l : list A) (x : A) :
  find p l = None -> p x = true -> find p (l ++ [x]) = Some x.
Proof.
  intros Hl Hx. induction l as [|a l IH]; simpl in *.
  - now rewrite Hx.
  - destruct (p a); [discriminate|]. now apply IH.
Qed.

Lemma create_student_created s env c n e student s' :
  create_student s env (Given c) (Given n) (Given e) = (Created student, s') ->
  student = Student.mk (uuid4 env) c n e (utcnow env)
  /\ s' = with_student s student
  /\ ~ email_taken s e.
Proof.
  unfold create_student, Session.commit, Session.add_student.
  cbn [provided andb negb].
  destruct (Query.get_college s c); [|discriminate].
  destruct (Query.first _ (students s)) eqn:Ef; [discriminate|].
  destruct (existsb _ (students s)); [discriminate|].
  intros H. injection H as <- <-. repeat split.
  intros [x [Hx Hm]].
  pose proof (proj1 (find_none_iff _ _) Ef x Hx) as H.
  apply String.eqb_neq in H. contradiction.
Qed.

(** X10.  A student created with a non-empty email is found by that email
    from then on: before the creation GET /students?email= answers
    NotFoundError, after it, and after any further requests, it answers
    that very student, whatever college filter is passed along. *)
Theorem student_found_by_email (s s' : Store) (env : Env) (c n e : string)
    (student : Student.t) (script : list (Env * Request))
    (college_id : option string) :
  e <> "" ->
  create_student s env (Given c) (Given n) (Given e) = (Created student, s') ->
  get_students s college_id (Some e) = Fail NotFoundError
  /\ get_students (run s' script) college_id (Some e)
     = OK (OneStudent student)
  /\ Student.email student = e.
Proof.
  intros He Hc. apply create_student_created in Hc.
  destruct Hc as [Hst [-> Hnew]].
  unfold get_students. rewrite (truthy_str_some e He).
  rewrite (first_email_none s e Hnew). split; [reflexivity|].
  assert (Hfind : Query.first (fun x => (Student.email x =? e)%string)
                    (students (with_student s student)) = Some student).
  { simpl. apply find_snoc_new; [now apply first_email_none|].
    subst student. simpl. apply String.eqb_refl. }
  destruct (run_grows script (with_student s student))
    as [[_ [G _]] _].
  unfold Query.first in *. rewrite (prefix_find _ _ _ _ G Hfind).
  split; [reflexivity|]. subst student. reflexivity.
Qed.

(** Student D registers an email, and two more requests follow. *)
Lemma student_found_by_email_witness :
  let s := Scenario.prepared in
  let d := Student.mk "student-D" "college-1" "D" "d@u1.edu" 6 in
  get_students
    (run (with_student s d)
       [ (Scenario.at_ "reg-1" 7, PostRegister "event-1" (Some "student-D"));
         (Scenario.at_ "student-E" 8, Scenario.student "E" "e@u1.edu") ])
    None (Some "d@u1.edu")
  = OK (OneStudent d).
Proof.
  intros s d.
  apply (student_found_by_email s (with_student s d)
           (Scenario.at_ "student-D" 6) "college-1" "D" "d@u1.edu" d).
  - apply nonempty_dec. reflexivity.
  - reflexivity.
Defined.

Lemma create_event_created s env data event s' :
  create_event s env data = (Created event, s') ->
  s' = with_event s event.
Proof.
  unfold create_event, Session.commit, Session.add_event.
  destruct (negb _); [discriminate|].
  destruct (parse_time (ed_start_time data)); [|discriminate].
  destruct (parse_time (ed_end_time data)); [|discriminate].
  destruct (ed_college_id data), (ed_title data), (ed_event_type data),
    (ed_capacity data) as [| |c]; try discriminate.
  destruct (_ || _); [discriminate|].
  intros H. now injection H as <- <-.
Qed.

(** What [get_events] lists. *)
Lemma get_events_listed s college_id event_type :
  exists l,
    get_events s college_id event_type = OK l
    /\ forall e, In e l <-> In e (events s) /\ in_college college_id e
                            /\ of_type event_type e.
Proof.
  unfold get_events.
  set (q1 := match college_id with Some c => _ | None => _ end).
  assert (H1 : forall e,
             In e q1 <-> In e (events s) /\ in_college college_id e).
  { intros e. unfold q1, in_college. destruct college_id as [c|].
    - destruct (truthy_str (Some c)) eqn:Et.
      + rewrite filter_In, String.eqb_eq. split.
        * intros [H E]. split; [exact H|]. intros c' Ec _. congruence.
        * intros [H E]. split; [exact H|]. apply E; [reflexivity|].
          intros ->. discriminate.
      + split; [|tauto]. intros H. split; [exact H|].
        intros c' Ec Hc'. injection Ec as <-.
        rewrite (truthy_str_some c Hc') in Et. discriminate.
    - split; [|tauto]. intros H. split; [exact H|]. discriminate. }
  eexists. split; [reflexivity|]. intros e. unfold of_type.
  destruct event_type as [t|].
  - destruct (truthy_str (Some t)) eqn:Et.
    + rewrite filter_In, String.eqb_eq, H1. split.
      * intros [[H Hc] E]. repeat split; auto. intros t' Ec _. congruence.
      * intros [H [Hc E]]. repeat split; auto. apply E; [reflexivity|].
        intros ->. discriminate.
    + rewrite H1. split; [|tauto]. intros [H Hc]. repeat split; auto.
      intros t' Ec Ht'. injection Ec as <-.
      rewrite (truthy_str_some t Ht') in Et. discriminate.
  - rewrite H1. split; [|tauto]. intros [H Hc]. repeat split; auto.
    discriminate.
Qed.

(** X11.  GET /events lists exactly the stored events that match each
    filter given (an empty filter is no filter), and an event that
    createEvent has stored is listed from then on, after any further
    requests, under every filter it matches. *)
Theorem event_listed_after_creation (s s' : Store) (env : Env)
    (data : EventData) (event : Event.t) (script : list (Env * Request))
    (college_id event_type : option string) :
  create_event s env data = (Created event, s') ->
  exists l,
    get_events (run s' script) college_id event_type = OK l
    /\ (forall e, In e l <-> In e (events (run s' script))
                             /\ in_college college_id e
                             /\ of_type event_type e)
    /\ (In event l <-> in_college college_id event
                       /\ of_type event_type event).
Proof.
  intros Hc. apply create_event_created in Hc. subst s'.
  destruct (get_events_listed (run (with_event s event) script) college_id
              event_type) as [l [E H]].
  exists l. split; [exact E|]. split; [exact H|].
  rewrite H. split; [tauto|]. intros [H1 H2]. repeat split; auto.
  destruct (run_grows script (with_event s event)) as [[_ [_ [G _]]] _].
  apply (prefix_in _ _ _ G). simpl. apply in_snoc. now right.
Qed.

(** A second event, listed among the workshops of its college. *)
Lemma event_listed_after_creation_witness :
  let s := Scenario.prepared in
  let e :=
    Event.mk "event-2" "college-1" "Hackathon" (Some "") "Workshop" 100 200 5
      "active" 6 in
  exists l,
    get_events (with_event s e) (Some "college-1") (Some "Workshop") = OK l
    /\ In e l.
Proof.
  intros s e.
  destruct (event_listed_after_creation s (with_event s e)
              (Scenario.at_ "event-2" 6) (Scenario.event_data 5) e []
              (Some "college-1") (Some "Workshop") eq_refl)
    as [l [H1 [_ H2]]].
  exists l. split; [exact H1|]. apply H2. split.
  - intros c E _. now injection E as <-.
  - intros t E _. now injection E as <-.
Defined.

(** ** Counts of a reachable store *)

Lemma length_le_by_keys {A B} (ka : A -> string) (kb : B -> string)
    (la : list A) (lb : list B) :
  NoDup (map ka la) ->
  (forall a, In a la -> exists b, In b lb /\ kb b = ka a) ->
  len la <= len lb.
Proof.
  intros Hnd Hincl. unfold len.
  rewrite <- (length_map ka la), <- (length_map kb lb).
  apply inj_le. apply NoDup_incl_length; [exact Hnd|].
  intros k Hk. apply in_map_iff in Hk. destruct Hk as [a [<- Ha]].
  destruct (Hincl a Ha) as [b [Hb <-]]. now apply in_map.
Qed.

Lemma attendance_le_registration s eid :
  store_inv s -> attendance_count s eid <= registration_count s eid.
Proof.
  intros Hinv. unfold attendance_count, registration_count, Query.count.
  apply (length_le_by_keys Attendance.student_id Registration.student_id).
  - apply NoDup_of_counts. intros k. rewrite count_filter.
    rewrite (count_ext _ (Query.att_pair k eid)).
    + apply (inv_att_unique s Hinv).
    + intros a. unfold Query.att_of_event, Query.att_pair. apply andb_comm.
  - intros a Ha. apply filter_In in Ha. destruct Ha as [Ha E].
    apply String.eqb_eq in E.
    destruct (inv_att_reg s Hinv a Ha) as [r [Hr [Hs He]]].
    exists r. split; [|exact Hs]. apply filter_In. split; [exact Hr|].
    apply String.eqb_eq. congruence.
Qed.

Lemma feedback_le_attendance s eid :
  store_inv s -> feedback_count s eid <= attendance_count s eid.
Proof.
  intros Hinv. unfold attendance_count, feedback_count, Query.count.
  apply (length_le_by_keys Feedback.student_id Attendance.student_id).
  - apply NoDup_of_counts. intros k. rewrite count_filter.
    rewrite (count_ext _ (Query.fb_pair k eid)).
    + apply (inv_fb_unique s Hinv).
    + intros a. unfold Query.fb_of_event, Query.fb_pair. apply andb_comm.
  - intros f Hf. apply filter_In in Hf. destruct Hf as [Hf E].
    apply String.eqb_eq in E.
    destruct (inv_fb_att s Hinv f Hf) as [a [Ha [Hs He]]].
    exists a. split; [|exact Hs]. apply filter_In. split; [exact Ha|].
    apply String.eqb_eq. congruence.
Qed.

Lemma student_attendance_le_registration s sid :
  store_inv s ->
  Query.count (Query.att_of_student sid) (attendances s)
  <= Query.count (Query.reg_of_student sid) (registrations s).
Proof.
  intros Hinv. unfold Query.count.
  apply (length_le_by_keys Attendance.event_id Registration.event_id).
  - apply NoDup_of_counts. intros k. rewrite count_filter.
    apply (inv_att_unique s Hinv sid k).
  - intros a Ha. apply filter_In in Ha. destruct Ha as [Ha E].
    apply String.eqb_eq in E.
    destruct (inv_att_reg s Hinv a Ha) as [r [Hr [Hs He]]].
    exists r. split; [|exact He]. apply filter_In. split; [exact Hr|].
    apply String.eqb_eq. congruence.
Qed.

Lemma student_feedback_le_attendance s sid :
  store_inv s ->
  Query.count (Query.fb_of_student sid) (feedbacks s)
  <= Query.count (Query.att_of_student sid) (attendances s).
Proof.
  intros Hinv. unfold Query.count.
  apply (length_le_by_keys Feedback.event_id Attendance.event_id).
  - apply NoDup_of_counts. intros k. rewrite count_filter.
    apply (inv_fb_unique s Hinv sid k).
  - intros f Hf. apply filter_In in Hf. destruct Hf as [Hf E].
    apply String.eqb_eq in E.
    destruct (inv_fb_att s Hinv f Hf) as [a [Ha [Hs He]]].
    exists a. split; [|exact He]. apply filter_In. split; [exact Ha|].
    apply String.eqb_eq. congruence.
Qed.

(** X12.  In every reachable store, for every event, there are at most as
    many Feedbacks as Attendances and at most as many Attendances as
    Registrations, and for every student likewise: nobody attends more
    events than registered for or rates more events than attended. *)
Theorem reachable_counts_ordered (s : Store) :
  reachable s ->
  (forall eid,
      0 <= feedback_count s eid <= attendance_count s eid
      /\ attendance_count s eid <= registration_count s eid)
  /\ (forall sid,
        0 <= Query.count (Query.fb_of_student sid) (feedbacks s)
        <= Query.count (Query.att_of_student sid) (attendances s)
        /\ Query.count (Query.att_of_student sid) (attendances s)
           <= Query.count (Query.reg_of_student sid) (registrations s)).
Proof.
  intros Hreach. pose proof (reachable_inv s Hreach) as Hinv. split.
  - intros eid. repeat split.
    + apply count_nonneg.
    + now apply feedback_le_attendance.
    + now apply attendance_le_registration.
  - intros sid. repeat split.
    + apply count_nonneg.
    + now apply student_feedback_le_attendance.
    + now apply student_attendance_le_registration.
Qed.

(** The counts of the event after the example scenario. *)
Lemma reachable_counts_ordered_witness :
  attendance_count Scenario.after_example "event-1"
  <= registration_count Scenario.after_example "event-1".
Proof.
  destruct (reachable_counts_ordered Scenario.after_example
              (reachable_scenario _)) as [H _].
  exact (proj2 (H "event-1")).
Defined.

(** ** Bounds of the reported figures *)

(** X13.  In a reachable store every eventAttendance report is within
    bounds: 0 <= feedback count <= attendance count <= registration count,
    the attendance percentage lies between 0 and 100, and an average
    rating, when there is one (and the sum of the ratings is below 2^53,
    which a float holds exactly), lies between 1 and 5. *)
Theorem event_attendance_bounds (s : Store) (event_id : string)
    (report : AttendanceReport) :
  reachable s -> event_attendance s event_id = OK report ->
  0 <= ar_feedback_count report <= ar_attendance_count report
  /\ ar_attendance_count report <= ar_registration_count report
  /\ (0 <= ar_attendance_percentage report)%Q
  /\ (ar_attendance_percentage report <= 100)%Q
  /\ (rating_sum s event_id < 2 ^ 53 ->
      forall rating,
        ar_average_rating report = Some rating ->
        (1 <= rating)%Q /\ (rating <= 5)%Q).
Proof.
  intros Hreach. pose proof (reachable_inv s Hreach) as Hinv.
  unfold event_attendance.
  destruct (Query.get_event s event_id) as [event|] eqn:He; [|discriminate].
  fold (registration_count s event_id) (attendance_count s event_id)
    (feedback_count s event_id) (ratings s event_id).
  fold (percentage (attendance_count s event_id)
          (registration_count s event_id)).
  intros H. injection H as <-.
  cbn [ar_event ar_registration_count ar_attendance_count ar_feedback_count
    ar_attendance_percentage ar_average_rating].
  pose proof (feedback_le_attendance s event_id Hinv) as H1.
  pose proof (attendance_le_registration s event_id Hinv) as H2.
  pose proof (count_nonneg (Query.fb_of_event event_id) (feedbacks s)) as H0.
  fold (feedback_count s event_id) in H0.
  split; [lia|]. split; [exact H2|].
  assert (Hpct : (inject_Z 0 <= round2
                    (if registration_count s event_id >? 0
                     then percentage (attendance_count s event_id)
                            (registration_count s event_id)
                     else 0))%Q
                 /\ (round2
                       (if registration_count s event_id >? 0
                        then percentage (attendance_count s event_id)
                               (registration_count s event_id)
                        else 0) <= inject_Z 100)%Q).
  { apply round2_bounds; try lia; destruct (_ >? _) eqn:E;
      try discriminate; apply Z.gtb_lt in E; apply percentage_bounds; lia. }
  split; [exact (proj1 Hpct)|]. split; [exact (proj2 Hpct)|].
  intros Hsum rating.
  destruct (Z.eq_dec (feedback_count s event_id) 0) as [Hz|Hnz].
  - assert (E : ratings s event_id = []).
    { unfold feedback_count, Query.count in Hz. unfold ratings.
      destruct (filter _ (feedbacks s)); [reflexivity|simpl in Hz; lia]. }
    rewrite E. discriminate.
  - assert (Hpos : 0 < feedback_count s event_id) by lia.
    rewrite (avg_ratings s event_id Hpos).
    rewrite (mean_rating_not_zero s event_id Hinv Hpos Hsum).
    intros E. injection E as <-.
    destruct (mean_rating_bounds s event_id Hinv Hpos Hsum) as [M1 M2].
    apply (round2_bounds _ 1 5); try lia; assumption.
Qed.

(** One attendance out of three registrations, no feedback. *)
Lemma event_attendance_bounds_witness :
  exists report,
    event_attendance Scenario.one_of_three "event-1" = OK report
    /\ (ar_attendance_percentage report <= 100)%Q.
Proof.
  destruct (event_attendance Scenario.one_of_three "event-1")
    as [report| |] eqn:E; try (vm_compute in E; discriminate).
  exists report. split; [reflexivity|].
  destruct (event_attendance_bounds Scenario.one_of_three "event-1" report
              (reachable_scenario _) E) as [_ [_ [_ [H _]]]].
  exact H.
Defined.

Lemma load_all_length {A B} (f : A -> option B) (l : list A) (ys : list B) :
  load_all f l = Some ys -> len ys = len l.
Proof.
  revert ys. induction l as [|x l IH]; simpl; intros ys H.
  - now injection H as <-.
  - destruct (f x); [|discriminate].
    destruct (load_all f l) as [ys'|]; [|discriminate].
    injection H as <-. unfold len in *. simpl.
    specialize (IH ys' eq_refl). lia.
Qed.

(** X14.  In a reachable store every studentParticipation report is within
    bounds: feedbacks given <= events attended <= events registered, each
    count is the length of the list it comes with, and the attendance rate
    lies between 0 and 100. *)
Theorem student_participation_bounds (s : Store) (student_id : string)
    (report : ParticipationReport) :
  reachable s -> student_participation s student_id = OK report ->
  0 <= sp_feedbacks_given report <= sp_events_attended report
  /\ sp_events_attended report <= sp_events_registered report
  /\ sp_events_registered report = len (sp_registered_events report)
  /\ sp_events_attended report = len (sp_attended_events report)
  /\ sp_feedbacks_given report = len (sp_feedbacks report)
  /\ (0 <= sp_attendance_rate report)%Q
  /\ (sp_attendance_rate report <= 100)%Q.
Proof.
  intros Hreach. pose proof (reachable_inv s Hreach) as Hinv.
  unfold student_participation.
  destruct (Query.get_student s student_id); [|discriminate].
  destruct (load_all _ (Sql.index_order _ (filter (Query.reg_of_student _) _)))
    as [regs|] eqn:E1; [|discriminate].
  destruct (load_all _ (Sql.index_order _ (filter (Query.att_of_student _) _)))
    as [atts|] eqn:E2; [|discriminate].
  destruct (load_all _ (Sql.index_order _ (filter (Query.fb_of_student _) _)))
    as [fbs|] eqn:E3; [|discriminate].
  intros H. injection H as <-.
  cbn [sp_events_registered sp_events_attended sp_attendance_rate
    sp_feedbacks_given sp_registered_events sp_attended_events sp_feedbacks].
  apply load_all_length in E1, E2, E3.
  unfold len in E1, E2, E3. rewrite index_order_length in E1.
  rewrite index_order_length in E2. rewrite index_order_length in E3.
  pose proof (student_attendance_le_registration s student_id Hinv) as H1.
  pose proof (student_feedback_le_attendance s student_id Hinv) as H2.
  unfold Query.count in H1, H2.
  assert (H0 : 0 <= len fbs) by (unfold len; lia).
  assert (Ha : 0 <= len atts) by (unfold len; lia).
  assert (L1 : len fbs <= len atts) by (unfold len in *; lia).
  assert (L2 : len atts <= len regs) by (unfold len in *; lia).
  repeat (split; [first [lia|reflexivity]|]).
  destruct regs as [|e regs].
  - split; discriminate.
  - change 0%Q with (inject_Z 0). change 100%Q with (inject_Z 100).
    fold (percentage (len atts) (len (e :: regs))).
    apply round2_bounds; try lia; apply percentage_bounds; try lia;
      unfold len; simpl; lia.
Qed.

(** Student A registered for three events and attended one. *)
Lemma student_participation_bounds_witness :
  exists report,
    student_participation Scenario.three_events "student-A" = OK report
    /\ sp_events_attended report <= sp_events_registered report.
Proof.
  destruct (student_participation Scenario.three_events "student-A")
    as [report| |] eqn:E; try (vm_compute in E; discriminate).
  exists report. split; [reflexivity|].
  destruct (student_participation_bounds Scenario.three_events "student-A"
              report (reachable_scenario _) E) as [_ [H _]].
  exact H.
Defined.

(** ** The ranking of active students *)

Section JoinCount.
Context {A B K : Type}.
Variable key : A -> K.
Variable eqb : K -> K -> bool.
Hypothesis eqb_eq : forall a b, eqb a b = true <-> a = b.
Variable on : A -> B -> bool.
Variable p : A -> bool.
Variable x : A.






End JoinCount.







(** Among students with as many Attendances the smaller id comes first,
    and is the one a limit keeps; events with as many Registrations are
    listed by id as well. *)
Example ties_in_index_order :
  map Student.id (students Scenario.tied) = ["student-B"; "student-A"]
  /\ (exists ranking,
        top_active_students Scenario.tied None (Some 1) = OK ranking
        /\ map as_student_id ranking = ["student-A"])
  /\ (exists report,
        event_popularity Scenario.tied None = OK report
        /\ map pr_event_id report = ["event-1"; "event-2"]).
Proof.
  split; [reflexivity|]. split; eexists;
    (split; [vm_compute; reflexivity|reflexivity]).
Qed.

(** X16.  In a reachable store eventPopularity returns exactly one row per
    event that passes the college filter and has at least one Registration,
    with the event's id, title, type, capacity and exact Registration
    count, in descending order of that count; with no such event the
    result is empty. *)
Theorem event_popularity_report (s : Store) (college_id : option string) :
  reachable s ->
  exists report,
    event_popularity s college_id = OK report
    /\ StronglySorted (desc pr_registration_count) report
    /\ NoDup (map pr_event_id report)
    /\ (forall row,
          In row report
          <-> exists e, In e (events s) /\ in_college college_id e
                        /\ 1 <= registration_count s (Event.id e)
                        /\ row = popularity_row s e)
    /\ ((forall e, In e (events s) -> in_college college_id e ->
                   registration_count s (Event.id e) = 0) ->
        report = []).
Proof.
  intros Hreach.
  destruct (event_popularity_rows s college_id Hreach)
    as [report [H1 [H2 [H3 H4]]]].
  exists report. repeat split; auto; try apply H4.
  intros Hnone. destruct report as [|row report]; [reflexivity|].
  destruct (proj1 (H4 row) (or_introl eq_refl)) as [e [He [Hc [Hn _]]]].
  rewrite (Hnone e He Hc) in Hn. lia.
Qed.

(** After the example scenario the report has the one event, with its two
    registrations. *)
Lemma event_popularity_report_witness :
  exists report,
    event_popularity Scenario.after_example None = OK report
    /\ In (mkPopularityRow "event-1" "Hackathon" "Workshop" 2 2) report.
Proof.
  destruct (event_popularity_report Scenario.after_example None
              (reachable_scenario _)) as [report [H1 [_ [_ [H2 _]]]]].
  exists report. split; [exact H1|]. apply H2.
  exists (Event.mk "event-1" "college-1" "Hackathon" (Some "") "Workshop"
            100 200 2 "active" 2).
  split; [vm_compute; left; reflexivity|].
  split; [intros c E; discriminate|].
  split; [vm_compute; discriminate|reflexivity].
Defined.

(** ** A request touches one table and one pair *)

Lemma registered_snoc s r sid eid :
  registered (with_registration s r) sid eid
  <-> registered s sid eid
      \/ (Registration.student_id r = sid /\ Registration.event_id r = eid).
Proof.
  unfold registered. simpl. split.
  - intros [x [Hx H]]. apply in_snoc in Hx. destruct Hx as [Hx| ->];
      [left; now exists x|now right].
  - intros [[x [Hx H]]|H].
    + exists x. split; [apply in_snoc; now left|exact H].
    + exists r. split; [apply in_snoc; now right|exact H].
Qed.

Lemma attended_snoc s a sid eid :
  attended (with_attendance s a) sid eid
  <-> attended s sid eid
      \/ (Attendance.student_id a = sid /\ Attendance.event_id a = eid).
Proof.
  unfold attended. simpl. split.
  - intros [x [Hx H]]. apply in_snoc in Hx. destruct Hx as [Hx| ->];
      [left; now exists x|now right].
  - intros [[x [Hx H]]|H].
    + exists x. split; [apply in_snoc; now left|exact H].
    + exists a. split; [apply in_snoc; now right|exact H].
Qed.

Lemma gave_feedback_snoc s f sid eid :
  gave_feedback (with_feedback s f) sid eid
  <-> gave_feedback s sid eid
      \/ (Feedback.student_id f = sid /\ Feedback.event_id f = eid).
Proof.
  unfold gave_feedback. simpl. split.
  - intros [x [Hx H]]. apply in_snoc in Hx. destruct Hx as [Hx| ->];
      [left; now exists x|now right].
  - intros [[x [Hx H]]|H].
    + exists x. split; [apply in_snoc; now left|exact H].
    + exists f. split; [apply in_snoc; now right|exact H].
Qed.

(** X17.  A request changes at most its own table, and only for its own
    pair: a register touches only the Registration table, a markAttendance
    only the Attendance table, a submitFeedback only the Feedback table,
    and the creation requests none of the three; and for every pair that
    the request is not about, being registered, having attended and having
    given feedback are the same before and after. *)
Theorem requests_touch_one_pair (s : Store) (env : Env) (req : Request) :
  let s' := handle s env req in
  ((forall eid sid, req <> PostRegister eid sid) ->
   registrations s' = registrations s)
  /\ ((forall eid sid m, req <> PostAttendance eid sid m) ->
      attendances s' = attendances s)
  /\ ((forall eid sid r c, req <> PostFeedback eid sid r c) ->
      feedbacks s' = feedbacks s)
  /\ (forall sid eid,
        ~ concerns req sid eid ->
        (registered s' sid eid <-> registered s sid eid)
        /\ (attended s' sid eid <-> attended s sid eid)
        /\ (gave_feedback s' sid eid <-> gave_feedback s sid eid)).
Proof.
  intros s'. subst s'.
  destruct req as [n|c n e|data|eid sid|eid sid m|eid sid r c]; simpl.
  - destruct (create_college_cases s env n) as [->|[n' [_ [_ ->]]]];
      repeat split; auto.
  - destruct (create_student_cases s env c n e)
      as [->|[c' [n' [e' [col [_ [_ [_ ->]]]]]]]]; repeat split; auto.
  - destruct (create_event_cases s env data) as [->|[e [_ [_ [_ ->]]]]];
      repeat split; auto.
  - destruct (register_for_event_cases s env eid sid)
      as [->|[x [ev [st [-> [_ [_ [_ [_ ->]]]]]]]]].
    + repeat split; auto.
    + split; [|split; [|split]]; try reflexivity.
      * intros H. exfalso. exact (H eid (Some x) eq_refl).
      * intros sid' eid' Hc. split; [|split; reflexivity].
        rewrite registered_snoc. simpl. tauto.
  - destruct (mark_attendance_cases s env eid sid m)
      as [->|[x [m' [-> [_ [_ ->]]]]]].
    + repeat split; auto.
    + split; [|split; [|split]]; try reflexivity.
      * intros H. exfalso. exact (H eid (Some x) m eq_refl).
      * intros sid' eid' Hc. split; [reflexivity|split; [|reflexivity]].
        rewrite attended_snoc. simpl. tauto.
  - destruct (submit_feedback_cases s env eid sid r c)
      as [->|[x [r' [c' [-> [_ [_ [_ ->]]]]]]]].
    + repeat split; auto.
    + split; [|split; [|split]]; try reflexivity.
      * intros H. exfalso. exact (H eid (Some x) r c eq_refl).
      * intros sid' eid' Hc. split; [reflexivity|split; [reflexivity|]].
        rewrite gave_feedback_snoc. simpl. tauto.
Qed.

(** Student C registering leaves student A's attendance alone. *)
Lemma requests_touch_one_pair_witness :
  let s := Scenario.attended_once in
  let req := PostRegister "event-1" (Some "student-C") in
  attended (handle s (Scenario.at_ "reg-3" 8) req) "student-A" "event-1"
  <-> attended s "student-A" "event-1".
Proof.
  intros s req.
  destruct (requests_touch_one_pair s (Scenario.at_ "reg-3" 8) req)
    as [_ [_ [_ H]]].
  apply (H "student-A" "event-1").
  intros [E _]. discriminate.
Defined.

(** ** Listing students *)

(** X18.  GET /students without an email (or with an empty one) lists, in
    insertion order, exactly the students of the given college, and all
    students when no college is given (an empty college filter is no
    filter); a student that createStudent has stored is listed under the
    college from then on, after any further requests. *)
Theorem students_listed_by_college (s s' : Store) (env : Env)
    (c n e : string) (student : Student.t) (script : list (Env * Request))
    (college_id : option string) :
  create_student s env (Given c) (Given n) (Given e) = (Created student, s') ->
  exists l,
    get_students (run s' script) college_id None = OK (StudentList l)
    /\ get_students (run s' script) college_id (Some "")
       = OK (StudentList l)
    /\ (forall x, In x l <-> In x (students (run s' script))
                             /\ student_in_college college_id x)
    /\ (college_id = None \/ college_id = Some "" ->
        l = students (run s' script))
    /\ (In student l <-> student_in_college college_id student)
    /\ In student (students (run s' script)).
Proof.
  intros Hc. apply create_student_created in Hc.
  destruct Hc as [Hst [-> _]].
  set (t := run (with_student s student) script).
  assert (Hin : In student (students t)).
  { destruct (run_grows script (with_student s student))
      as [[_ [G _]] _].
    apply (prefix_in _ _ _ G). simpl. apply in_snoc. now right. }
  unfold get_students. simpl.
  set (l := match college_id with Some c0 => _ | None => _ end).
  assert (Hl : forall x, In x l <-> In x (students t)
                                    /\ student_in_college college_id x).
  { intros x. unfold l, student_in_college. destruct college_id as [c0|].
    - destruct (truthy_str (Some c0)) eqn:Et.
      + rewrite filter_In, String.eqb_eq. split.
        * intros [H E]. split; [exact H|]. intros c' Ec _. congruence.
        * intros [H E]. split; [exact H|]. apply E; [reflexivity|].
          intros ->. discriminate.
      + split; [|tauto]. intros H. split; [exact H|].
        intros c' Ec Hc'. injection Ec as <-.
        rewrite (truthy_str_some c0 Hc') in Et. discriminate.
    - split; [|tauto]. intros H. split; [exact H|]. discriminate. }
  exists l. split; [reflexivity|]. split; [reflexivity|].
  split; [exact Hl|]. split; [|split; [|exact Hin]].
  - intros [->| ->]; reflexivity.
  - rewrite Hl. tauto.
Qed.

(** Student D is listed under college-1. *)
Lemma students_listed_by_college_witness :
  let s := Scenario.prepared in
  let d := Student.mk "student-D" "college-1" "D" "d@u1.edu" 6 in
  exists l,
    get_students (with_student s d) (Some "college-1") None
    = OK (StudentList l)
    /\ In d l.
Proof.
  intros s d.
  destruct (students_listed_by_college s (with_student s d)
              (Scenario.at_ "student-D" 6) "college-1" "D" "d@u1.edu" d []
              (Some "college-1") eq_refl) as [l [H1 [_ [_ [_ [H2 _]]]]]].
  exists l. split; [exact H1|]. apply H2.
  intros c E _. now injection E as <-.
Defined.
